(** * MiniMax agent chatbot: the message router of [chatbot.py]

    A shallow embedding of the routing core of [chatbot.py]: the keyword
    cascade of [ChatBot.process_message] and its handlers, the record store
    ([TodoManager], [ChatManager]), the background runner ([AgentExecutor])
    and the time and screenshot operations of the remote-service facade
    ([MCPTimeClient], [MCPPlaywrightClient], [MCPServices]).

    Conventions.
    - A Python [str] is the [string] of its UTF-8 bytes.  The keywords and
      the texts that are searched for, replaced or cut off are ASCII, so
      [in], [replace] and [startswith] on bytes are the ones on code points.
      [lower], [upper], [strip], [int] and the regular-expression classes
      [\d] and [\s] are computed here on ASCII text; on any other text they
      are read from the Unicode tables of the interpreter, which the
      [world] brings as [Py.interpreter].
    - [async] methods are functions in a state-and-exception monad [M] over
      the process state [state]: the three SQLite tables, the in-memory
      history, the tasks created with [asyncio.create_task] and not yet run,
      and the list of collaborator operations invoked so far.
    - Everything the process reads from outside (clocks, HTTP replies,
      subprocess and file results) comes from a [world].
    - The database file can always be opened and written, and a background
      task runs as one step.  Where SQLite's answer depends on rules that
      are not described here the outcome is [Unmodelled], which is neither
      a return nor an exception.
    - A database file outlives the process: [initial_state] is a process
      started on a fresh file, [restart] a process started on the file an
      earlier one left. *)

From stdpp Require Import base strings list gmap pretty.
From Stdlib Require Import Ascii ZArith Lia Sorted.

(** ** Python string operations *)

Module Py.

Definition str_of_bytes (l : list nat) : string :=
  foldr (fun n s => String (ascii_of_nat n) s) EmptyString l.

Definition nl : string := str_of_bytes [10].

Definition code (c : ascii) : N := N_of_ascii c.

(** ** On ASCII text *)

Fixpoint is_ascii (s : string) : bool :=
  match s with
  | EmptyString => true
  | String c s' => (code c <? 128)%N && is_ascii s'
  end.

(** [str.isspace] on ASCII: TAB..CR, FS..US and the space. *)
Definition isspace (c : ascii) : bool :=
  let n := code c in
  (((9 <=? n) && (n <=? 13)) || ((28 <=? n) && (n <=? 32)))%N.

(** The class [\d] on ASCII. *)
Definition isdigit (c : ascii) : bool :=
  let n := code c in ((48 <=? n) && (n <=? 57))%N.

Definition lower_char (c : ascii) : ascii :=
  let n := code c in
  if ((65 <=? n) && (n <=? 90))%N then ascii_of_N (n + 32) else c.

Fixpoint ascii_lower (s : string) : string :=
  match s with
  | EmptyString => EmptyString
  | String c s' => String (lower_char c) (ascii_lower s')
  end.

Definition upper_char (c : ascii) : ascii :=
  let n := code c in
  if ((97 <=? n) && (n <=? 122))%N then ascii_of_N (n - 32) else c.

Fixpoint ascii_upper (s : string) : string :=
  match s with
  | EmptyString => EmptyString
  | String c s' => String (upper_char c) (ascii_upper s')
  end.

(** Without the leading, or trailing, characters of a class. *)
Fixpoint lstrip_class (space : ascii -> bool) (s : string) : string :=
  match s with
  | EmptyString => EmptyString
  | String c s' => if space c then lstrip_class space s' else s
  end.

Fixpoint rstrip_class (space : ascii -> bool) (s : string) : string :=
  match s with
  | EmptyString => EmptyString
  | String c s' =>
      match rstrip_class space s' with
      | EmptyString => if space c then EmptyString else String c EmptyString
      | r => String c r
      end
  end.

Definition ascii_strip (s : string) : string :=
  rstrip_class isspace (lstrip_class isspace s).

Fixpoint take_while (p : ascii -> bool) (s : string) : string :=
  match s with
  | EmptyString => EmptyString
  | String c s' => if p c then String c (take_while p s') else EmptyString
  end.

(** The maximal runs of ASCII digits, left to right.  [run] is the run
    being read, most recent digit first. *)
Fixpoint findall_digits_go (run : list ascii) (s : string) : list string :=
  let flush (rest : list string) :=
    match run with
    | [] => rest
    | _ => String.string_of_list_ascii (rev run) :: rest
    end in
  match s with
  | EmptyString => flush []
  | String c s' =>
      if isdigit c then findall_digits_go (c :: run) s'
      else flush (findall_digits_go [] s')
  end.

Definition ascii_findall_digits (s : string) : list string := findall_digits_go [] s.

(** The number a run of ASCII digits reads as. *)
Definition ascii_int (s : string) : nat :=
  fold_left (fun acc c => 10 * acc + N.to_nat (code c - 48))
            (String.list_ascii_of_string s) 0.

(** ** Operations that do not depend on the character classes *)

(** [s.startswith(p)] *)
Fixpoint startswith (p s : string) : bool :=
  match p, s with
  | EmptyString, _ => true
  | String _ _, EmptyString => false
  | String a p', String b s' => if decide (a = b) then startswith p' s' else false
  end.

(** [sub in s] *)
Fixpoint contains (sub s : string) : bool :=
  startswith sub s ||
  match s with
  | EmptyString => false
  | String _ s' => contains sub s'
  end.

(** [any(k in s for k in keys)] *)
Definition contains_any (keys : list string) (s : string) : bool :=
  existsb (fun k => contains k s) keys.

(** [s.replace(old, new)] for a non-empty [old]: occurrences are found
    left to right and do not overlap.  [skip] counts the characters of
    the occurrence just replaced that are still to be passed over. *)
Fixpoint replace_go (old new : string) (skip : nat) (s : string) : string :=
  match s with
  | EmptyString => EmptyString
  | String c s' =>
      match skip with
      | S k => replace_go old new k s'
      | O =>
          if startswith old s
          then new +:+ replace_go old new (String.length old - 1) s'
          else String c (replace_go old new 0 s')
      end
  end.

Definition replace (old new s : string) : string := replace_go old new 0 s.

(** [not s] for a string. *)
Definition is_empty (s : string) : bool :=
  match s with EmptyString => true | _ => false end.

(** [s[n:]] where the first [n] characters of [s] are ASCII. *)
Fixpoint drop (n : nat) (s : string) : string :=
  match n, s with
  | O, _ => s
  | S _, EmptyString => EmptyString
  | S k, String _ s' => drop k s'
  end.

(** One attempt of [https?://[^\s]+] at the head of an ASCII [s]. *)
Definition match_url_at (s : string) : option string :=
  let attempt (scheme : string) :=
    if startswith scheme s then
      match take_while (fun c => negb (isspace c)) (drop (String.length scheme) s) with
      | EmptyString => None
      | run => Some (scheme +:+ run)
      end
    else None in
  match attempt "https://" with
  | Some m => Some m
  | None => attempt "http://"
  end.

Fixpoint findall_url_go (skip : nat) (s : string) : list string :=
  match s with
  | EmptyString => []
  | String _ s' =>
      match skip with
      | S k => findall_url_go k s'
      | O =>
          match match_url_at s with
          | Some m => m :: findall_url_go (String.length m - 1) s'
          | None => findall_url_go 0 s'
          end
      end
  end.

Definition ascii_findall_url (s : string) : list string := findall_url_go 0 s.

(** [sep.join(parts)] *)
Definition join (sep : string) (parts : list string) : string :=
  String.concat sep parts.

(** ** The interpreter

    What [str.lower], [str.upper], [str.strip], [re.findall] with [\d+] or
    [https?://[^\s]+], and [int] give for a text depends, outside ASCII, on
    the Unicode database the interpreter was built with (case mappings,
    the white-space and decimal-digit classes).  [int] refuses, with a
    [ValueError], a run of more digits than
    [sys.get_int_max_str_digits()], where 0 stands for no limit; the text
    of that error differs between versions.  None of this is part of the
    program: it is taken as it comes, and nothing is assumed about it. *)
Record interpreter := mk_interpreter {
  str_lower : string -> string;
  str_upper : string -> string;
  str_strip : string -> string;
  re_findall_digits : string -> list string;
  re_findall_url : string -> list string;
  int_max_str_digits : nat;
  int_limit_message : nat -> string;
  int_of_str : string -> string + nat }.

(** An interpreter that treats every text as the ASCII operations do, with
    the default limit of 4300 digits; it stands in where the texts of an
    example are ASCII. *)
Definition ascii_interpreter : interpreter :=
  mk_interpreter ascii_lower ascii_upper ascii_strip ascii_findall_digits
                 ascii_findall_url 4300
                 (fun _ => "Exceeds the limit for integer string conversion")
                 (fun s => inr (ascii_int s)).

Section Interpreter.

Variable u : interpreter.

(** [s.lower()] *)
Definition lower (s : string) : string :=
  if is_ascii s then ascii_lower s else str_lower u s.

(** [s.upper()] *)
Definition upper (s : string) : string :=
  if is_ascii s then ascii_upper s else str_upper u s.

(** [s.strip()] *)
Definition strip (s : string) : string :=
  if is_ascii s then ascii_strip s else str_strip u s.

(** [re.findall(r'\d+', s)] *)
Definition findall_digits (s : string) : list string :=
  if is_ascii s then ascii_findall_digits s else re_findall_digits u s.

(** [int(s)] for a run of decimal digits: the number, or the text of the
    [ValueError] for a run over the limit. *)
Definition int_of_digits (s : string) : string + nat :=
  if is_ascii s then
    if (0 <? int_max_str_digits u) && (int_max_str_digits u <? String.length s)
    then inl (int_limit_message u (String.length s))
    else inr (ascii_int s)
  else int_of_str u s.

(** [re.findall(r'https?://[^\s]+', s)] *)
Definition findall_url (s : string) : list string :=
  if is_ascii s then ascii_findall_url s else re_findall_url u s.

End Interpreter.

End Py.

(** ** Values, exceptions, outcomes *)

(** The values that travel in JSON bodies and in the mapping given to
    [update_todo].  [PyOther] stands for a float, list or dict, with the text
    [str()] gives for it and its truth value. *)
Inductive pyval :=
  | PyNone
  | PyBool (b : bool)
  | PyInt (z : Z)
  | PyStr (s : string)
  | PyOther (text : string) (truthy : bool).

(** [str(v)], as an f-string renders [{v}]. *)
Definition py_str (v : pyval) : string :=
  match v with
  | PyNone => "None"
  | PyBool true => "True"
  | PyBool false => "False"
  | PyInt z => pretty z
  | PyStr s => s
  | PyOther text _ => text
  end.

(** [bool(v)] *)
Definition py_truthy (v : pyval) : bool :=
  match v with
  | PyNone => false
  | PyBool b => b
  | PyInt z => negb (z =? 0)%Z
  | PyStr s => negb (Py.is_empty s)
  | PyOther _ t => t
  end.

(** [PyException] is any exception the outside world raises (a refused
    connection, a failed spawn, an undecodable stream), with its text. *)
Inductive exn :=
  | AttributeError (cls attr : string)
  | TypeError (msg : string)
  | ValueError (msg : string)
  | OverflowError (msg : string)
  | OperationalError (msg : string)
  | PyException (description : string).

(** [str(e)] *)
Definition exn_str (e : exn) : string :=
  match e with
  | AttributeError cls attr =>
      "'" +:+ cls +:+ "' object has no attribute '" +:+ attr +:+ "'"
  | TypeError msg => msg
  | ValueError msg => msg
  | OverflowError msg => msg
  | OperationalError msg => msg
  | PyException description => description
  end.

(** What a call does: it returns, it raises, or it leaves the fragment of
    SQLite this development describes ([Unmodelled]). *)
Inductive outcome (A : Type) :=
  | Returned (a : A)
  | Raised (e : exn)
  | Unmodelled.
Arguments Returned {A} a.
Arguments Raised {A} e.
Arguments Unmodelled {A}.

(** ** The pydantic models *)

Module Todo.
Record t := mk {
  id : option nat;
  title : string;
  description : string;
  completed : bool;
  priority : string;
  created_at : option string;
  updated_at : option string }.

(** [Todo(title=title)] *)
Definition new (title : string) : t :=
  mk None title "" false "medium" None None.
End Todo.

Module ChatMessage.
Record t := mk {
  id : option nat;
  role : string;
  content : string;
  timestamp : option string;
  metadata : string }.
End ChatMessage.

Module AgentAction.
Record t := mk {
  id : option nat;
  action_type : string;
  description : string;
  status : string;
  result : string;
  created_at : option string }.

(** [AgentAction(action_type=.., description=.., status=..)] *)
Definition new (action_type description status : string) : t :=
  mk None action_type description status "" None.
End AgentAction.

(** ** The SQLite tables of [Database.init_database] *)

Module Row.
Record todo := mk_todo {
  todo_id : nat;
  todo_title : string;
  todo_description : option string;
  todo_completed : bool;
  todo_priority : option string;
  todo_created_at : string;
  todo_updated_at : string }.

Record chat_message := mk_chat_message {
  chat_id : nat;
  chat_role : string;
  chat_content : string;
  chat_timestamp : string;
  chat_metadata : option string }.

Record agent_action := mk_agent_action {
  action_id : nat;
  action_type : string;
  action_description : string;
  action_status : option string;
  action_result : option string;
  action_created_at : string }.
End Row.

(** ** The outside world *)

Record http_request := mk_request {
  http_method : string;
  http_url : string;
  http_args : list (string * pyval) }.

(** What [resp.json()] returns for a body that parses: an object, which
    becomes a [dict], or any other JSON value.  The members of an object and
    the items of an array are values; a nested array or object is a
    [PyOther]. *)
Inductive json :=
  | JsonObject (members : gmap string pyval)
  | JsonArray (items : list pyval)
  | JsonString (s : string)
  | JsonInt (z : Z)
  | JsonFloat (text : string)
  | JsonBool (b : bool)
  | JsonNull.

(** A reply to one request: the transport failed with an exception whose
    text is given, or a response arrived with a status and a body that
    [resp.json()] parses or rejects with an exception whose text is given. *)
Inductive http_reply :=
  | TransportFailure (description : string)
  | HttpResponse (status : Z) (body : string + json).

(** What [create_subprocess_shell] and [communicate] give: the spawn raised,
    or the process ended with its two streams and its exit code.  A stream
    is its decoded text, or the text of the error of [decode()]. *)
Inductive stream :=
  | Decoded (text : string)
  | Undecodable (description : string).

Inductive subprocess_result :=
  | SpawnRaised (description : string)
  | Exited (stdout stderr : stream) (returncode : Z).

(** The collaborator operations whose invocation is recorded. *)
Inductive call :=
  | XfceTakeScreenshot
  | XfceGetVncConnection
  | XfceStartSession
  | McpGetCurrentTime (timezone : string)
  | McpThinkAbout (problem : string)
  | McpTakeWebScreenshot (url : string)
  | McpGetInstantAnswer (query : string)
  | McpSearchWeb (query : string).

(** Every reading takes the number of readings made before it, so that two
    readings may differ.  [python] is the interpreter that runs the
    program. *)
Record world := mk_world {
  python : Py.interpreter;
  sql_now : nat -> string;
  py_now : nat -> string;
  http : nat -> http_request -> http_reply;
  subprocess_shell : nat -> string -> subprocess_result;
  file_read : nat -> string -> string + string;
  file_write : nat -> string -> string -> option string;
  file_append : nat -> string -> string -> option string;
  think_about_text : nat -> string -> nat -> outcome string;
  search_web_text : nat -> string -> outcome string;
  instant_answer_text : nat -> string -> outcome string }.

(** ** The process state *)

(** [*_seq] is the row of [sqlite_sequence] that AUTOINCREMENT keeps for a
    table: the largest identifier ever given out. *)
Record state := mk_state {
  todos : list Row.todo;
  todos_seq : nat;
  chat_messages : list Row.chat_message;
  chat_messages_seq : nat;
  agent_actions : list Row.agent_action;
  agent_actions_seq : nat;
  conversation_history : list ChatMessage.t;
  results : gmap (option nat) (string * string);
  tasks : list (AgentAction.t * gmap string string);
  calls : list call;
  readings : nat }.

Definition initial_state : state :=
  mk_state [] 0 [] 0 [] 0 [] ∅ [] [] 0.

Definition set_todos (rows : list Row.todo) (seq : nat) (st : state) : state :=
  mk_state rows seq (chat_messages st) (chat_messages_seq st)
           (agent_actions st) (agent_actions_seq st) (conversation_history st)
           (results st) (tasks st) (calls st) (readings st).

Definition set_chat_messages (rows : list Row.chat_message) (seq : nat) (st : state) : state :=
  mk_state (todos st) (todos_seq st) rows seq
           (agent_actions st) (agent_actions_seq st) (conversation_history st)
           (results st) (tasks st) (calls st) (readings st).

Definition set_agent_actions (rows : list Row.agent_action) (seq : nat) (st : state) : state :=
  mk_state (todos st) (todos_seq st) (chat_messages st) (chat_messages_seq st)
           rows seq (conversation_history st)
           (results st) (tasks st) (calls st) (readings st).

Definition set_conversation_history (h : list ChatMessage.t) (st : state) : state :=
  mk_state (todos st) (todos_seq st) (chat_messages st) (chat_messages_seq st)
           (agent_actions st) (agent_actions_seq st) h
           (results st) (tasks st) (calls st) (readings st).

Definition set_results (r : gmap (option nat) (string * string)) (st : state) : state :=
  mk_state (todos st) (todos_seq st) (chat_messages st) (chat_messages_seq st)
           (agent_actions st) (agent_actions_seq st) (conversation_history st)
           r (tasks st) (calls st) (readings st).

Definition set_tasks (ts : list (AgentAction.t * gmap string string)) (st : state) : state :=
  mk_state (todos st) (todos_seq st) (chat_messages st) (chat_messages_seq st)
           (agent_actions st) (agent_actions_seq st) (conversation_history st)
           (results st) ts (calls st) (readings st).

Definition set_calls (cs : list call) (st : state) : state :=
  mk_state (todos st) (todos_seq st) (chat_messages st) (chat_messages_seq st)
           (agent_actions st) (agent_actions_seq st) (conversation_history st)
           (results st) (tasks st) cs (readings st).

Definition set_readings (n : nat) (st : state) : state :=
  mk_state (todos st) (todos_seq st) (chat_messages st) (chat_messages_seq st)
           (agent_actions st) (agent_actions_seq st) (conversation_history st)
           (results st) (tasks st) (calls st) n.

(** ** The monad of [async] methods *)

Definition M (A : Type) : Type := state -> outcome A * state.

Definition ret {A} (a : A) : M A := fun st => (Returned a, st).

Definition bind {A B} (c : M A) (k : A -> M B) : M B :=
  fun st =>
    match c st with
    | (Returned a, st') => k a st'
    | (Raised e, st') => (Raised e, st')
    | (Unmodelled, st') => (Unmodelled, st')
    end.

Definition raise {A} (e : exn) : M A := fun st => (Raised e, st).

Definition unmodelled {A} : M A := fun st => (Unmodelled, st).

(** [try: c  except Exception as e: h e] *)
Definition try_except {A} (c : M A) (h : exn -> M A) : M A :=
  fun st =>
    match c st with
    | (Raised e, st') => h e st'
    | r => r
    end.

Definition gets {A} (f : state -> A) : M A := fun st => (Returned (f st), st).

Definition modify (f : state -> state) : M unit := fun st => (Returned tt, f st).

(** One reading of the world: its number is returned and the count moves. *)
Definition reading : M nat :=
  fun st => (Returned (readings st), set_readings (S (readings st)) st).

(** Record that a collaborator operation was invoked. *)
Definition invoke (c : call) : M unit :=
  modify (fun st => set_calls (calls st ++ [c]) st).

Notation "x <- c ;; k" := (bind c (fun x => k))
  (at level 62, c at next level, k at level 200, right associativity).
Notation "c ;;; k" := (bind c (fun _ => k))
  (at level 62, k at level 200, right associativity).

(** ** Objects and their attributes *)

(** The instance dictionary that [__init__] builds: attribute name to value.
    [self.name] reads it and raises [AttributeError] when the name is
    absent (none of these classes has class attributes other than methods). *)
Definition getattr (cls : string) (self : gmap string pyval) (name : string) : M pyval :=
  match self !! name with
  | Some v => ret v
  | None => raise (AttributeError cls name)
  end.

(** The name of the type of a JSON value that is no object, as the
    messages of the interpreter give it. *)
Definition json_type_name (v : json) : string :=
  match v with
  | JsonObject _ => "dict"
  | JsonArray _ => "list"
  | JsonString _ => "str"
  | JsonInt _ => "int"
  | JsonFloat _ => "float"
  | JsonBool _ => "bool"
  | JsonNull => "NoneType"
  end.

(** [key in result]: a key of a dict, an item of a list, a part of a
    string; a [TypeError] for a value that is no container. *)
Definition json_contains (key : string) (result : json) : M bool :=
  match result with
  | JsonObject members => ret (bool_decide (is_Some (members !! key)))
  | JsonArray items =>
      ret (existsb (fun v => match v with
                             | PyStr s => bool_decide (s = key)
                             | _ => false
                             end) items)
  | JsonString s => ret (Py.contains key s)
  | _ => raise (TypeError ("argument of type '" +:+ json_type_name result
                           +:+ "' is not iterable"))
  end.

(** [result[key]] for a key that [key in result] found. *)
Definition json_getitem (result : json) (key : string) : M pyval :=
  match result with
  | JsonObject members =>
      match members !! key with
      | Some v => ret v
      | None => raise (PyException ("'" +:+ key +:+ "'"))
      end
  | JsonArray _ => raise (TypeError "list indices must be integers or slices, not str")
  | JsonString _ => raise (TypeError "string indices must be integers, not 'str'")
  | _ => raise (TypeError ("'" +:+ json_type_name result
                           +:+ "' object is not subscriptable"))
  end.

(** [result.get(key, default)]: a method of a dict only. *)
Definition json_get (result : json) (key : string) (fallback : pyval) : M pyval :=
  match result with
  | JsonObject members => ret (default fallback (members !! key))
  | _ => raise (AttributeError (json_type_name result) "get")
  end.

Definition PORTS : gmap string Z :=
  list_to_map [("web", 5173); ("api", 8000); ("sandbox_api", 8080);
               ("vnc", 5900); ("chrome_cdp", 9222)]%Z.

Definition an_object (cls : string) : pyval :=
  PyOther ("<chatbot." +:+ cls +:+ " object>") true.

(** [XFCEController.__init__] *)
Definition XFCEController_init : gmap string pyval :=
  list_to_map [("vnc_port", PyInt (PORTS !!! "vnc"));
               ("screenshot_path", PyStr "/tmp/screenshot.png")].

(** [ChatBot.__init__] *)
Definition ChatBot_init : gmap string pyval :=
  list_to_map [("db", an_object "Database");
               ("todo_manager", an_object "TodoManager");
               ("chat_manager", an_object "ChatManager");
               ("agent_executor", an_object "AgentExecutor");
               ("xfce_controller", an_object "XFCEController");
               ("mcp_services", an_object "MCPServices");
               ("clients", PyOther "set()" false)].

(** ** The fragment of SQLite that [update_todo] exercises

    [update_todo] sends [UPDATE todos SET <assignments> WHERE id = ?], where
    the text of the assignments is built from the keys of a mapping.  The
    fragment: the assignments are split at commas; an assignment reads
    [<name> = ?] or [<name> = CURRENT_TIMESTAMP]; a comma right after [SET]
    is a syntax error; a name is a column of the table whatever the case of
    its letters; a name that is no column, no alias of the rowid and no
    keyword is an error; an integer that does not fit 64 bits cannot be
    bound.  Anything else is left [Unmodelled]. *)

Module Sql.

Definition dquote : string := Py.str_of_bytes [34].

Inductive rhs := Placeholder | CurrentTimestamp.

(** The value an assignment stores: a bound parameter or the clock. *)
Inductive value := Bound (v : pyval) | Now.

Fixpoint split_commas_go (item : list ascii) (s : string) : list string :=
  match s with
  | EmptyString => [String.string_of_list_ascii (rev item)]
  | String c s' =>
      if decide (Py.code c = 44%N)
      then String.string_of_list_ascii (rev item) :: split_commas_go [] s'
      else split_commas_go (c :: item) s'
  end.

Definition split_commas (s : string) : list string := split_commas_go [] s.

Definition is_ident_char (c : ascii) : bool :=
  let n := Py.code c in
  (((97 <=? n) && (n <=? 122)) || ((65 <=? n) && (n <=? 90))
   || ((48 <=? n) && (n <=? 57)) || (n =? 95))%N.

Definition starts_with_digit (s : string) : bool :=
  match s with
  | String c _ => Py.isdigit c
  | EmptyString => false
  end.

(** The white space of SQLite's tokenizer: TAB, LF, FF, CR and the space. *)
Definition isspace (c : ascii) : bool :=
  let n := Py.code c in
  ((n =? 9) || (n =? 10) || (n =? 12) || (n =? 13) || (n =? 32))%N.

Definition lstrip (s : string) : string := Py.lstrip_class isspace s.

Definition strip (s : string) : string := Py.rstrip_class isspace (lstrip s).

Definition parse_assignment (item : string) : option (string * rhs) :=
  let item := strip item in
  let name := Py.take_while is_ident_char item in
  let rest := lstrip (Py.drop (String.length name) item) in
  if Py.is_empty name || starts_with_digit name then None
  else if Py.startswith "=" rest then
    let e := lstrip (Py.drop 1 rest) in
    if decide (e = "?") then Some (name, Placeholder)
    else if decide (e = "CURRENT_TIMESTAMP") then Some (name, CurrentTimestamp)
    else None
  else None.

Fixpoint parse_assignments (items : list string) : option (list (string * rhs)) :=
  match items with
  | [] => Some []
  | i :: rest =>
      match parse_assignment i, parse_assignments rest with
      | Some a, Some l => Some (a :: l)
      | _, _ => None
      end
  end.

Definition todos_columns : list string :=
  ["id"; "title"; "description"; "completed"; "priority"; "created_at"; "updated_at"].

(** The names that stand for the rowid of a table. *)
Definition rowid_aliases : list string := ["rowid"; "oid"; "_rowid_"].

(** The keywords of SQLite, in lower case. *)
Definition keywords : list string :=
  ["abort"; "action"; "add"; "after"; "all"; "alter"; "always"; "analyze"; "and"; "as";
   "asc"; "attach"; "autoincrement"; "before"; "begin"; "between"; "by"; "cascade";
   "case"; "cast"; "check"; "collate"; "column"; "commit"; "conflict"; "constraint";
   "create"; "cross"; "current"; "current_date"; "current_time"; "current_timestamp";
   "database"; "default"; "deferrable"; "deferred"; "delete"; "desc"; "detach";
   "distinct"; "do"; "drop"; "each"; "else"; "end"; "escape"; "except"; "exclude";
   "exclusive"; "exists"; "explain"; "fail"; "false"; "filter"; "first"; "following";
   "for"; "foreign"; "from"; "full"; "generated"; "glob"; "group"; "groups"; "having";
   "if"; "ignore"; "immediate"; "in"; "index"; "indexed"; "initially"; "inner";
   "insert"; "instead"; "intersect"; "into"; "is"; "isnull"; "join"; "key"; "last";
   "left"; "like"; "limit"; "match"; "materialized"; "natural"; "no"; "not";
   "nothing"; "notnull"; "null"; "nulls"; "of"; "offset"; "on"; "or"; "order";
   "others"; "outer"; "over"; "partition"; "plan"; "pragma"; "preceding"; "primary";
   "query"; "raise"; "range"; "recursive"; "references"; "regexp"; "reindex";
   "release"; "rename"; "replace"; "restrict"; "returning"; "right"; "rollback";
   "row"; "rows"; "savepoint"; "select"; "set"; "table"; "temp"; "temporary"; "then";
   "ties"; "to"; "transaction"; "trigger"; "true"; "unbounded"; "union"; "unique";
   "update"; "using"; "vacuum"; "values"; "view"; "virtual"; "when"; "where";
   "window"; "with"; "within"; "without"].

(** A name in the place of a column: a column of the table, whatever the
    case of its letters; or a name the table does not have; or a name whose
    reading is not described here (an alias of the rowid, a keyword). *)
Definition is_column (name : string) : bool :=
  bool_decide (Py.ascii_lower name ∈ todos_columns).

Definition is_beyond (name : string) : bool :=
  negb (is_column name)
  && (bool_decide (Py.ascii_lower name ∈ rowid_aliases)
      || bool_decide (Py.ascii_lower name ∈ keywords)).

(** The first name of the list that the table does not have. *)
Definition unknown_column (l : list (string * rhs)) : option string :=
  fst <$> find (fun a => negb (is_column (fst a))) l.

(** Compiling the assignments of [UPDATE todos SET ...]; the columns are
    returned by their names in the schema. *)
Definition prepare_set (text : string) : outcome (list (string * rhs)) :=
  match split_commas text with
  | [] => Unmodelled
  | (first :: _) as items =>
      if Py.is_empty (strip first)
      then Raised (OperationalError ("near " +:+ dquote +:+ "," +:+ dquote +:+ ": syntax error"))
      else
        match parse_assignments items with
        | None => Unmodelled
        | Some l =>
            if existsb (fun a => is_beyond (fst a)) l then Unmodelled
            else
              match unknown_column l with
              | Some c => Raised (OperationalError ("no such column: " +:+ c))
              | None => Returned (map (fun a => (Py.ascii_lower (fst a), snd a)) l)
              end
        end
  end.

(** An integer is bound as a 64-bit integer. *)
Definition fits_int64 (z : Z) : bool := ((- 2 ^ 63 <=? z) && (z <? 2 ^ 63))%Z.

Definition too_large : exn :=
  OverflowError "Python int too large to convert to SQLite INTEGER".

(** Converting the parameters, in order: an integer out of range raises;
    a value that is no integer, text, truth value or [None] is not
    described here. *)
Fixpoint convert_parameters (params : list pyval) : outcome unit :=
  match params with
  | [] => Returned tt
  | PyOther _ _ :: _ => Unmodelled
  | PyInt z :: params' =>
      if fits_int64 z then convert_parameters params' else Raised too_large
  | _ :: params' => convert_parameters params'
  end.

(** Binding the parameters, in order, to the placeholders. *)
Fixpoint bind_parameters (l : list (string * rhs)) (params : list pyval)
  : option (list (string * value) * list pyval) :=
  match l with
  | [] => Some ([], params)
  | (c, CurrentTimestamp) :: l' =>
      match bind_parameters l' params with
      | Some (r, rest) => Some ((c, Now) :: r, rest)
      | None => None
      end
  | (c, Placeholder) :: l' =>
      match params with
      | [] => None
      | v :: params' =>
          match bind_parameters l' params' with
          | Some (r, rest) => Some ((c, Bound v) :: r, rest)
          | None => None
          end
      end
  end.

(** A text without a digit is no number: a column of numeric affinity
    keeps it as text. *)
Definition has_digit (s : string) : bool :=
  existsb Py.isdigit (String.list_ascii_of_string s).

(** Storing one value in one column of a row; [None] where the stored
    form depends on SQLite's type affinity rules beyond this fragment: the
    two timestamp columns have numeric affinity, and a text that reads as a
    number is not kept as text there. *)
Definition store (now : string) (a : string * value) (r : Row.todo) : option Row.todo :=
  let '(Row.mk_todo i t d c p cr up) := r in
  match a with
  | ("title", Bound (PyStr s)) => Some (Row.mk_todo i s d c p cr up)
  | ("description", Bound (PyStr s)) => Some (Row.mk_todo i t (Some s) c p cr up)
  | ("description", Bound PyNone) => Some (Row.mk_todo i t None c p cr up)
  | ("completed", Bound (PyBool b)) => Some (Row.mk_todo i t d b p cr up)
  | ("completed", Bound (PyInt z)) => Some (Row.mk_todo i t d (negb (z =? 0)%Z) p cr up)
  | ("priority", Bound (PyStr s)) => Some (Row.mk_todo i t d c (Some s) cr up)
  | ("priority", Bound PyNone) => Some (Row.mk_todo i t d c None cr up)
  | ("created_at", Bound (PyStr s)) =>
      if has_digit s then None else Some (Row.mk_todo i t d c p s up)
  | ("created_at", Now) => Some (Row.mk_todo i t d c p now up)
  | ("updated_at", Bound (PyStr s)) =>
      if has_digit s then None else Some (Row.mk_todo i t d c p cr s)
  | ("updated_at", Now) => Some (Row.mk_todo i t d c p cr now)
  | _ => None
  end.

Fixpoint store_all (now : string) (l : list (string * value)) (r : Row.todo) : option Row.todo :=
  match l with
  | [] => Some r
  | a :: l' =>
      match store now a r with
      | Some r' => store_all now l' r'
      | None => None
      end
  end.

(** The rows after the update of the rows whose id is [target]. *)
Fixpoint update_rows (now : string) (l : list (string * value)) (target : nat)
         (rows : list Row.todo) : option (list Row.todo) :=
  match rows with
  | [] => Some []
  | r :: rows' =>
      match (if decide (Row.todo_id r = target) then store_all now l r else Some r),
            update_rows now l target rows' with
      | Some r', Some rest => Some (r' :: rest)
      | _, _ => None
      end
  end.

End Sql.

(** ** [TodoManager], [ChatManager] *)

(** [x or default] for a nullable text column. *)
Definition or_default (x : option string) (default : string) : string :=
  match x with
  | Some s => if Py.is_empty s then default else s
  | None => default
  end.

(** The [Todo(...)] that [get_todos] and [update_todo] build from a row. *)
Definition Todo_of_row (row : Row.todo) : Todo.t :=
  Todo.mk (Some (Row.todo_id row))
          (Row.todo_title row)
          (or_default (Row.todo_description row) "")
          (Row.todo_completed row)
          (or_default (Row.todo_priority row) "medium")
          (Some (Row.todo_created_at row))
          (Some (Row.todo_updated_at row)).

(** [ORDER BY created_at DESC]: text compares byte by byte; rows with equal
    keys keep the order of the table. *)
Fixpoint insert_by_created_at (r : Row.todo) (sorted : list Row.todo) : list Row.todo :=
  match sorted with
  | [] => [r]
  | x :: xs =>
      if String.ltb (Row.todo_created_at r) (Row.todo_created_at x)
      then x :: insert_by_created_at r xs
      else r :: sorted
  end.

Definition order_by_created_at_desc (rows : list Row.todo) : list Row.todo :=
  foldr insert_by_created_at [] rows.

(** [", ".join([f"{k} = ?" for k in updates.keys()])] *)
Definition set_clause (updates : list (string * pyval)) : string :=
  Py.join ", " (map (fun kv => fst kv +:+ " = ?") updates).

Section Managers.

Variable w : world.

(** [CURRENT_TIMESTAMP], read once for a statement. *)
Definition current_timestamp : M string :=
  n <- reading ;; ret (sql_now w n).

(** [datetime.now().isoformat()] *)
Definition datetime_now_isoformat : M string :=
  n <- reading ;; ret (py_now w n).

(** [INSERT INTO todos (title, description, completed, priority)]; the two
    timestamps take their default.  Returns [cursor.lastrowid]. *)
Definition insert_todo (title description : string) (completed : bool)
           (priority : string) : M nat :=
  now <- current_timestamp ;;
  rowid <- gets (fun st => S (todos_seq st)) ;;
  modify (fun st =>
    set_todos (todos st ++ [Row.mk_todo rowid title (Some description) completed
                                        (Some priority) now now])
              rowid st) ;;;
  ret rowid.

Definition create_todo (todo : Todo.t) : M Todo.t :=
  rowid <- insert_todo (Todo.title todo) (Todo.description todo)
                       (Todo.completed todo) (Todo.priority todo) ;;
  created_at <- datetime_now_isoformat ;;
  ret (Todo.mk (Some rowid) (Todo.title todo) (Todo.description todo)
               (Todo.completed todo) (Todo.priority todo)
               (Some created_at) (Some created_at)).

Definition get_todos : M (list Todo.t) :=
  rows <- gets (fun st => order_by_created_at_desc (todos st)) ;;
  ret (map Todo_of_row rows).

(** [cursor.execute("UPDATE todos SET {set_clause}, updated_at =
    CURRENT_TIMESTAMP WHERE id = ?", values)]; returns [cursor.rowcount]. *)
Definition execute_update_todos (set_clause : string) (values : list pyval)
           (todo_id : nat) : M nat :=
  match Sql.prepare_set (set_clause +:+ ", updated_at = CURRENT_TIMESTAMP") with
  | Raised e => raise e
  | Unmodelled => unmodelled
  | Returned assignments =>
      match Sql.bind_parameters assignments values with
      | Some (bound, []) =>
          match Sql.convert_parameters (values ++ [PyInt (Z.of_nat todo_id)]) with
          | Raised e => raise e
          | Unmodelled => unmodelled
          | Returned _ =>
              now <- current_timestamp ;;
              rows <- gets todos ;;
              match Sql.update_rows now bound todo_id rows with
              | Some rows' =>
                  modify (fun st => set_todos rows' (todos_seq st) st) ;;;
                  ret (length (filter (fun r => Row.todo_id r = todo_id) rows))
              | None => unmodelled
              end
          end
      | _ => unmodelled
      end
  end.

Definition update_todo (todo_id : nat) (updates : list (string * pyval))
  : M (option Todo.t) :=
  let set_clause := set_clause updates in
  let values := map snd updates in
  rowcount <- execute_update_todos set_clause values todo_id ;;
  if decide (rowcount = 0) then ret None
  else
    rows <- gets todos ;;
    match find (fun r => bool_decide (Row.todo_id r = todo_id)) rows with
    | Some row => ret (Some (Todo_of_row row))
    | None => unmodelled
    end.

(** [cursor.execute("DELETE FROM todos WHERE id = ?", (todo_id,))] does not
    bind an identifier that does not fit 64 bits. *)
Definition delete_todo (todo_id : nat) : M bool :=
  if Sql.fits_int64 (Z.of_nat todo_id) then
    rows <- gets todos ;;
    modify (fun st =>
      set_todos (filter (fun r => Row.todo_id r <> todo_id) rows) (todos_seq st) st) ;;;
    ret (bool_decide (0 < length (filter (fun r => Row.todo_id r = todo_id) rows)))
  else raise Sql.too_large.

Definition max_history : nat := 50.

(** [metadata] is the text [json.dumps] gives for the mapping; the default
    mapping [{}] gives ["{}"]. *)
Definition add_message (role content : string) (metadata : string) : M ChatMessage.t :=
  now <- current_timestamp ;;
  message_id <- gets (fun st => S (chat_messages_seq st)) ;;
  modify (fun st =>
    set_chat_messages
      (chat_messages st ++ [Row.mk_chat_message message_id role content now (Some metadata)])
      message_id st) ;;;
  timestamp <- datetime_now_isoformat ;;
  let message := ChatMessage.mk (Some message_id) role content (Some timestamp) metadata in
  modify (fun st =>
    let h := conversation_history st ++ [message] in
    set_conversation_history (if decide (max_history < length h) then tail h else h) st) ;;;
  ret message.

End Managers.

(** ** [AgentExecutor] *)

(** [params.get(key, "")] *)
Definition params_get (params : gmap string string) (key : string) : string :=
  default "" (params !! key).

(** [if stream: result += f"{label}\n{stream.decode()}\n"] *)
Definition stream_section (label : string) (s : stream) : M string :=
  match s with
  | Decoded text =>
      if Py.is_empty text then ret "" else ret (label +:+ Py.nl +:+ text +:+ Py.nl)
  | Undecodable description => raise (PyException description)
  end.

Section Runner.

Variable w : world.

Definition execute_action (action_type description : string)
           (params : gmap string string) : M AgentAction.t :=
  now <- current_timestamp w ;;
  rowid <- gets (fun st => S (agent_actions_seq st)) ;;
  modify (fun st =>
    set_agent_actions
      (agent_actions st ++ [Row.mk_agent_action rowid action_type description
                                                (Some "running") None now])
      rowid st) ;;;
  created_at <- datetime_now_isoformat w ;;
  let action := AgentAction.mk (Some rowid) action_type description "running" ""
                               (Some created_at) in
  modify (fun st => set_tasks (tasks st ++ [(action, params)]) st) ;;;
  ret action.

Definition _execute_command (command : string) : M string :=
  try_except
    (n <- reading ;;
     match subprocess_shell w n command with
     | SpawnRaised description => raise (PyException description)
     | Exited stdout stderr returncode =>
         out <- stream_section "Output:" stdout ;;
         err <- stream_section "Error:" stderr ;;
         ret ("Command: " +:+ command +:+ Py.nl +:+ out +:+ err
              +:+ "Exit code: " +:+ pretty returncode)
     end)
    (fun e => ret ("Command execution failed: " +:+ exn_str e)).

Definition _execute_file_op (params : gmap string string) : M string :=
  let operation := params_get params "operation" in
  let file_path := params_get params "file_path" in
  let content := params_get params "content" in
  try_except
    (if decide (operation = "read") then
       n <- reading ;;
       match file_read w n file_path with
       | inl text => ret text
       | inr description => raise (PyException description)
       end
     else if decide (operation = "write") then
       n <- reading ;;
       match file_write w n file_path content with
       | None => ret ("File written successfully: " +:+ file_path)
       | Some description => raise (PyException description)
       end
     else if decide (operation = "append") then
       n <- reading ;;
       match file_append w n file_path content with
       | None => ret ("Content appended to: " +:+ file_path)
       | Some description => raise (PyException description)
       end
     else ret ("Unknown file operation: " +:+ operation))
    (fun e => ret ("File operation failed: " +:+ exn_str e)).

Definition _execute_web_search (query : string) : M string :=
  ret ("Search results for '" +:+ query +:+ "':" +:+ Py.nl +:+ "1. Result 1"
       +:+ Py.nl +:+ "2. Result 2" +:+ Py.nl +:+ "3. Result 3").

Definition _execute_xfce_action (params : gmap string string) : M string :=
  let action := params_get params "action" in
  if decide (action = "screenshot") then
    ret "Screenshot taken and saved to /tmp/screenshot.png"
  else if decide (action = "open_terminal") then
    ret "Terminal opened in XFCE desktop"
  else if decide (action = "list_applications") then
    ret ("XFCE Applications:" +:+ Py.nl +:+ "- Firefox" +:+ Py.nl +:+ "- Thunar"
         +:+ Py.nl +:+ "- Terminal" +:+ Py.nl +:+ "- Text Editor")
  else ret ("XFCE action '" +:+ action +:+ "' executed").

(** [UPDATE agent_actions SET status = ?, result = ? WHERE id = ?] and the
    entry of [self.results]. *)
Definition _update_action_status (action_id : option nat) (status result : string)
  : M unit :=
  modify (fun st =>
    set_agent_actions
      (map (fun r =>
              if decide (Some (Row.action_id r) = action_id)
              then Row.mk_agent_action (Row.action_id r) (Row.action_type r)
                     (Row.action_description r) (Some status) (Some result)
                     (Row.action_created_at r)
              else r)
           (agent_actions st))
      (agent_actions_seq st) st) ;;;
  modify (fun st => set_results (<[action_id := (status, result)]> (results st)) st).

Definition _execute_action_async (action : AgentAction.t)
           (params : gmap string string) : M unit :=
  let action_type := AgentAction.action_type action in
  try_except
    (result <-
       (if decide (action_type = "command") then
          _execute_command (params_get params "command")
        else if decide (action_type = "file_operation") then
          _execute_file_op params
        else if decide (action_type = "web_search") then
          _execute_web_search (params_get params "query")
        else if decide (action_type = "xfce_action") then
          _execute_xfce_action params
        else ret ("Unknown action type: " +:+ action_type)) ;;
     _update_action_status (AgentAction.id action) "completed" result)
    (fun e => _update_action_status (AgentAction.id action) "failed" (exn_str e)).

(** The event loop runs the [i]-th task that [asyncio.create_task] left
    waiting; a task runs once. *)
Definition run_task (i : nat) : M unit :=
  ts <- gets tasks ;;
  match ts !! i with
  | None => ret tt
  | Some (action, params) =>
      modify (set_tasks (delete i ts)) ;;;
      _execute_action_async action params
  end.

End Runner.

(** ** The glyphs of the response strings, byte for byte as in the source *)

Module Glyph.
Definition clock : string := Py.str_of_bytes [239; 163; 191; 195; 188; 195; 175; 195; 170].
Definition camera : string := Py.str_of_bytes [239; 163; 191; 195; 188; 195; 172; 226; 136; 143].
Definition check : string := Py.str_of_bytes [226; 128; 154; 195; 186; 195; 150].
Definition pending : string := Py.str_of_bytes [226; 128; 154; 195; 168; 226; 137; 165].
Definition memo : string := Py.str_of_bytes [239; 163; 191; 195; 188; 195; 172; 195; 185].
Definition cross : string := Py.str_of_bytes [226; 128; 154; 195; 185; 195; 165].
Definition cycle : string := Py.str_of_bytes [239; 163; 191; 195; 188; 195; 174; 195; 145].
Definition desktop : string :=
  Py.str_of_bytes [239; 163; 191; 195; 188; 195; 177; 226; 128; 162; 195; 148;
                   226; 136; 143; 195; 168].
Definition magnifier : string := Py.str_of_bytes [239; 163; 191; 195; 188; 195; 174; 195; 167].
Definition globe : string := Py.str_of_bytes [239; 163; 191; 195; 188; 195; 165; 195; 170].
Definition link : string := Py.str_of_bytes [239; 163; 191; 195; 188; 195; 174; 195; 179].
End Glyph.

(** ** [XFCEController] and the remote-service facade *)

Definition lift {A} (o : outcome A) : M A := fun st => (o, st).

Section Services.

Variable w : world.

Definition xfce_take_screenshot : M string :=
  invoke XfceTakeScreenshot ;;;
  try_except
    (path <- getattr "XFCEController" XFCEController_init "screenshot_path" ;;
     ret ("Screenshot saved to " +:+ py_str path))
    (fun e => ret ("Screenshot failed: " +:+ exn_str e)).

Definition get_vnc_connection : M string :=
  invoke XfceGetVncConnection ;;;
  port <- getattr "XFCEController" XFCEController_init "vnc_port" ;;
  ret ("VNC server running on localhost:" +:+ py_str port).

Definition start_xfce_session : M bool :=
  invoke XfceStartSession ;;;
  n <- reading ;;
  match subprocess_shell w n "export DISPLAY=:1 && startxfce4 &" with
  | SpawnRaised _ => ret false
  | Exited _ _ _ => ret true
  end.

(** The body every client method shares: one request inside [try], the
    parsed body on status 200, whatever JSON value it is, and an error
    mapping otherwise. *)
Definition client_request (req : http_request) : M json :=
  try_except
    (n <- reading ;;
     match http w n req with
     | TransportFailure description => raise (PyException description)
     | HttpResponse status body =>
         if decide (status = 200%Z) then
           match body with
           | inr value => ret value
           | inl description => raise (PyException description)
           end
         else ret (JsonObject {[ "error" := PyStr ("HTTP " +:+ pretty status) ]})
     end)
    (fun e => ret (JsonObject {[ "error" := PyStr (exn_str e) ]})).

(** [MCPTimeClient.get_current_time] *)
Definition time_client_get_current_time (base_url timezone format : string)
  : M json :=
  client_request (mk_request "GET" (base_url +:+ "/api/time")
                             [("timezone", PyStr timezone); ("format", PyStr format)]).

(** [MCPPlaywrightClient.take_screenshot], [selector] left to [None] *)
Definition playwright_client_take_screenshot (base_url url : string)
  : M json :=
  client_request (mk_request "POST" (base_url +:+ "/api/screenshot")
                             [("url", PyStr url); ("selector", PyNone)]).

(** [MCPServices.get_current_time] *)
Definition get_current_time (timezone : string) : M string :=
  invoke (McpGetCurrentTime timezone) ;;;
  result <- time_client_get_current_time "http://localhost:8001" timezone "iso" ;;
  has_error <- json_contains "error" result ;;
  if has_error : bool then
    e <- json_getitem result "error" ;;
    ret ("Time service error: " +:+ py_str e)
  else
    current_time <- json_get result "current_time" (PyStr "Unknown time") ;;
    timezone_info <- json_get result "timezone" (PyStr timezone) ;;
    ret (Glyph.clock +:+ " Current time: " +:+ py_str current_time
         +:+ " (" +:+ py_str timezone_info +:+ ")").

(** [MCPServices.take_web_screenshot] *)
Definition take_web_screenshot (url : string) : M string :=
  invoke (McpTakeWebScreenshot url) ;;;
  result <- playwright_client_take_screenshot "http://localhost:8002" url ;;
  has_error <- json_contains "error" result ;;
  if has_error : bool then
    e <- json_getitem result "error" ;;
    ret ("Screenshot service error: " +:+ py_str e)
  else
    screenshot_path <- json_get result "screenshot_path" (PyStr "") ;;
    if py_truthy screenshot_path
    then ret (Glyph.camera +:+ " Screenshot saved: " +:+ py_str screenshot_path)
    else ret "Screenshot taken but path not available".

(** [think_about], [search_web] and [get_instant_answer] format lists of
    nested values; their text, or the exception they end with, is read from
    the world. *)
Definition think_about (problem : string) (steps : nat) : M string :=
  invoke (McpThinkAbout problem) ;;;
  n <- reading ;; lift (think_about_text w n problem steps).

Definition search_web (query : string) : M string :=
  invoke (McpSearchWeb query) ;;;
  n <- reading ;; lift (search_web_text w n query).

Definition get_instant_answer (query : string) : M string :=
  invoke (McpGetInstantAnswer query) ;;;
  n <- reading ;; lift (instant_answer_text w n query).

End Services.

(** ** [ChatBot] *)

(** The six intents of the cascade in [process_message]. *)
Inductive intent :=
  | IntentTodo
  | IntentAgent
  | IntentDesktop
  | IntentWebSearch
  | IntentRemoteService
  | IntentFallback.

(** The [if]/[elif] cascade of [process_message], on the lowered text. *)
Definition classify (message_lower : string) : intent :=
  if Py.contains "todo" message_lower || Py.contains "task" message_lower then
    IntentTodo
  else if Py.contains "execute" message_lower || Py.contains "run" message_lower then
    IntentAgent
  else if Py.contains "desktop" message_lower || Py.contains "screenshot" message_lower
          || Py.contains "xfce" message_lower then
    IntentDesktop
  else if Py.contains "search" message_lower || Py.contains "browse" message_lower then
    IntentWebSearch
  else if Py.contains_any ["time"; "current time"; "date"; "think"; "analyze"; "reason";
                           "screenshot"] message_lower then
    IntentRemoteService
  else IntentFallback.

(** [f"{x.id}"] *)
Definition id_str (i : option nat) : string :=
  match i with
  | Some n => pretty n
  | None => "None"
  end.

(** The [responses] of [_handle_general_chat], given the value of
    [self.vnc_port]. *)
Definition responses (vnc_port : pyval) : list (string * string) :=
  [("hello", "Hello! I'm your AI assistant. I can help with todos, execute commands, manage XFCE desktop, and more.");
   ("help", "I can help you with:" +:+ Py.nl
            +:+ Glyph.memo +:+ " Todo management: 'add todo buy groceries'" +:+ Py.nl
            +:+ Glyph.cycle +:+ " Commands: 'execute command ls -la'" +:+ Py.nl
            +:+ Glyph.desktop +:+ " Desktop: 'screenshot', 'start desktop'" +:+ Py.nl
            +:+ Glyph.magnifier +:+ " Web: 'search python tutorials'");
   ("status", "Service status:" +:+ Py.nl
              +:+ Glyph.desktop +:+ " XFCE VNC: localhost:" +:+ py_str vnc_port +:+ Py.nl
              +:+ Glyph.globe +:+ " Web Frontend: http://localhost:"
              +:+ pretty (PORTS !!! "web") +:+ Py.nl
              +:+ Glyph.link +:+ " API: http://localhost:" +:+ pretty (PORTS !!! "api"))].

Section ChatBot.

Variable w : world.

Definition _handle_todo_command (message : string) : M string :=
  if Py.contains "add" message || Py.contains "create" message then
    let title :=
      Py.strip (python w)
               (Py.replace "create todo" "" (Py.replace "add todo" "" message)) in
    if Py.is_empty title then
      ret "Please provide a todo title. Example: 'add todo buy groceries'"
    else
      created_todo <- create_todo w (Todo.new title) ;;
      ret (Glyph.check +:+ " Todo created: '" +:+ Todo.title created_todo
           +:+ "' (ID: " +:+ id_str (Todo.id created_todo) +:+ ")")
  else if Py.contains "list" message || Py.contains "show" message then
    todos <- get_todos ;;
    match todos with
    | [] => ret "No todos found. Create one with 'add todo [title]'"
    | _ =>
        ret (fold_left
               (fun response todo =>
                  let status := if Todo.completed todo then Glyph.check else Glyph.pending in
                  response +:+ status +:+ " " +:+ Todo.title todo
                  +:+ " (ID: " +:+ id_str (Todo.id todo) +:+ ")" +:+ Py.nl)
               todos (Glyph.memo +:+ " Your todos:" +:+ Py.nl))
    end
  else if Py.contains "complete" message || Py.contains "done" message then
    match Py.findall_digits (python w) message with
    | number :: _ =>
        match Py.int_of_digits (python w) number with
        | inl msg => raise (ValueError msg)
        | inr todo_id =>
            updated <- update_todo w todo_id [("completed", PyBool true)] ;;
            match updated with
            | Some todo => ret (Glyph.check +:+ " Todo completed: " +:+ Todo.title todo)
            | None => ret (Glyph.cross +:+ " Todo not found with ID: " +:+ pretty todo_id)
            end
        end
    | [] => ret "Please specify a todo ID. Example: 'complete todo 1'"
    end
  else ret "Todo commands: add todo [title], list todos, complete todo [id]".

Definition _handle_agent_command (message : string) : M string :=
  if Py.contains "command" message then
    let command :=
      Py.strip (python w)
               (Py.replace "run command" "" (Py.replace "execute command" "" message)) in
    if Py.is_empty command then
      ret "Please provide a command. Example: 'execute command ls -la'"
    else
      action <- execute_action w "command" ("Execute: " +:+ command)
                               {[ "command" := command ]} ;;
      ret (Glyph.cycle +:+ " Action started: " +:+ AgentAction.description action
           +:+ " (ID: " +:+ id_str (AgentAction.id action) +:+ ")")
  else if Py.contains "file" message then
    ret "File operation commands: read file [path], write file [path] [content], append file [path] [content]"
  else ret "Agent commands: execute command [command], file operations".

Definition _handle_xfce_command (message : string) : M string :=
  if Py.contains "screenshot" message then
    result <- xfce_take_screenshot ;;
    ret (Glyph.desktop +:+ " " +:+ result)
  else if Py.contains "vnc" message || Py.contains "connect" message then
    connection <- get_vnc_connection ;;
    ret (Glyph.desktop +:+ " " +:+ connection +:+ Py.nl +:+ "Use VNC client to connect")
  else if Py.contains "start" message || Py.contains "launch" message then
    success <- start_xfce_session w ;;
    if success : bool then ret (Glyph.desktop +:+ " XFCE desktop session started")
    else ret (Glyph.cross +:+ " Failed to start XFCE session")
  else ret "XFCE commands: screenshot, start desktop, show vnc connection".

Definition _handle_web_command (message : string) : M string :=
  if Py.contains "search" message then
    let query := Py.strip (python w) (Py.replace "search" "" message) in
    if Py.is_empty query then
      ret "Please provide a search query. Example: 'search python tutorials'"
    else
      action <- execute_action w "web_search" ("Search: " +:+ query)
                               {[ "query" := query ]} ;;
      ret (Glyph.magnifier +:+ " Search started: " +:+ query
           +:+ " (ID: " +:+ id_str (AgentAction.id action) +:+ ")")
  else ret "Web commands: search [query]".

Definition _handle_general_chat (message : string) : M string :=
  vnc_port <- getattr "ChatBot" ChatBot_init "vnc_port" ;;
  let responses := responses vnc_port in
  let message_lower := Py.lower (python w) message in
  match find (fun kr => Py.contains (fst kr) message_lower) responses with
  | Some (_, response) => ret response
  | None =>
      ret ("I understood: '" +:+ message
           +:+ "'. Try asking for help with specific tasks like todos, commands, or desktop operations.")
  end.

Definition _handle_mcp_command (message : string) : M string :=
  let message_lower := Py.lower (python w) message in
  if Py.contains_any ["time"; "date"; "clock"] message_lower then
    let timezone :=
      match find (fun tz => Py.contains tz message_lower)
                 ["utc"; "est"; "pst"; "gmt"; "jst"; "cet"] with
      | Some tz => Py.upper (python w) tz
      | None => "UTC"
      end in
    get_current_time w timezone
  else if Py.contains_any ["think"; "analyze"; "reason"; "reasoning"; "solve"]
                          message_lower then
    let problem :=
      Py.strip (python w) (Py.replace "reason about" ""
                  (Py.replace "analyze" "" (Py.replace "think about" "" message))) in
    let problem := if Py.is_empty problem then "the current situation" else problem in
    think_about w problem 3
  else if Py.contains "screenshot" message_lower
          && (Py.contains "web" message_lower || Py.contains "page" message_lower
              || Py.contains "website" message_lower) then
    match Py.findall_url (python w) message with
    | url :: _ => take_web_screenshot w url
    | [] =>
        ret "Please provide a valid URL for screenshot. Example: 'screenshot website https://example.com'"
    end
  else if Py.contains_any ["what is"; "how many"; "when did"; "where is"; "who is"]
                          message_lower then
    let query :=
      match find (fun prefix => Py.startswith prefix (Py.lower (python w) message))
                 ["what is"; "how many"; "when did"; "where is"; "who is"] with
      | Some prefix => Py.strip (python w) (Py.drop (String.length prefix) message)
      | None => message
      end in
    if Py.is_empty query then
      ret "Please provide a clear question. Example: 'what is python'"
    else get_instant_answer w query
  else if Py.contains "search" message_lower then
    let query :=
      Py.strip (python w) (Py.replace "search for" "" (Py.replace "search" "" message)) in
    if Py.is_empty query then
      ret "Please provide a search query. Example: 'search python tutorials'"
    else search_web w query
  else
    ret "MCP commands: time [timezone], think about [problem], screenshot web [url], what is [question], search [query]".

(** The handler each branch of the cascade calls. *)
Definition handler (i : intent) : string -> M string :=
  match i with
  | IntentTodo => _handle_todo_command
  | IntentAgent => _handle_agent_command
  | IntentDesktop => _handle_xfce_command
  | IntentWebSearch => _handle_web_command
  | IntentRemoteService => _handle_mcp_command
  | IntentFallback => _handle_general_chat
  end.

Definition process_message (message : string) : M string :=
  add_message w "user" message "{}" ;;;
  let message_lower := Py.lower (python w) message in
  handler (classify message_lower) message.

(** [PUT /api/todos/{todo_id}] *)
Definition api_update_todo (todo_id : nat) (updates : list (string * pyval))
  : M (option Todo.t) :=
  update_todo w todo_id updates.

End ChatBot.

(** ** Runs of the process *)

(** The entry points that change the state: a chat message, the todo routes,
    [POST /api/xfce/action], and the event loop running a waiting task. *)
Inductive op :=
  | SubmitMessage (message : string)
  | ApiCreateTodo (todo : Todo.t)
  | ApiUpdateTodo (todo_id : nat) (updates : list (string * pyval))
  | ApiDeleteTodo (todo_id : nat)
  | ApiXfceAction (action_type : string) (params : gmap string string)
  | RunTask (i : nat).

Definition exec (w : world) (o : op) (st : state) : state :=
  match o with
  | SubmitMessage message => snd (process_message w message st)
  | ApiCreateTodo todo => snd (create_todo w todo st)
  | ApiUpdateTodo todo_id updates => snd (api_update_todo w todo_id updates st)
  | ApiDeleteTodo todo_id => snd (delete_todo todo_id st)
  | ApiXfceAction action_type params =>
      snd (execute_action w "xfce_action" ("XFCE: " +:+ action_type)
                          (params ∪ {[ "action" := action_type ]}) st)
  | RunTask i => snd (run_task w i st)
  end.

Definition run (w : world) (ops : list op) : state :=
  fold_left (fun st o => exec w o st) ops initial_state.

(** The row of [agent_actions] with a given identifier. *)
Definition stored_action (st : state) (i : nat) : option Row.agent_action :=
  find (fun r => bool_decide (Row.action_id r = i)) (agent_actions st).

Definition is_terminal (status : option string) : Prop :=
  status = Some "completed" \/ status = Some "failed".

(** What one step may do to a stored action: nothing, or move it from
    "running" to a terminal status. *)
Definition action_step (r r' : Row.agent_action) : Prop :=
  r' = r \/
  (Row.action_status r = Some "running" /\ is_terminal (Row.action_status r')).

(** The row [execute_action] inserts and the action it returns. *)
Definition running_row (rowid : nat) (action_type description now : string)
  : Row.agent_action :=
  Row.mk_agent_action rowid action_type description (Some "running") None now.

Definition running_action (rowid : nat) (action_type description created_at : string)
  : AgentAction.t :=
  AgentAction.mk (Some rowid) action_type description "running" "" (Some created_at).

(** The part of the state the runner owns. *)
Definition runner_view (st : state)
  : list Row.agent_action * nat * list (AgentAction.t * gmap string string) :=
  (agent_actions st, agent_actions_seq st, tasks st).

(** [st'] is [st] after one [execute_action], as far as the runner sees. *)
Definition dispatched (st st' : state) : Prop :=
  exists action_type description now created_at params,
    let rowid := S (agent_actions_seq st) in
    runner_view st' =
      (agent_actions st ++ [running_row rowid action_type description now],
       rowid,
       tasks st ++ [(running_action rowid action_type description created_at, params)]).

(** The invariant of the runner. *)
Record runner_inv (st : state) : Prop := {
  inv_ids_nodup : NoDup (map Row.action_id (agent_actions st));
  inv_ids_bound : forall r, r ∈ agent_actions st -> Row.action_id r <= agent_actions_seq st;
  inv_status : forall r, r ∈ agent_actions st ->
      Row.action_status r = Some "running" \/ is_terminal (Row.action_status r);
  inv_tasks_nodup : NoDup (map (fun t => AgentAction.id (fst t)) (tasks st));
  inv_tasks_running : forall t, t ∈ tasks st ->
      exists r, r ∈ agent_actions st
                /\ AgentAction.id (fst t) = Some (Row.action_id r)
                /\ Row.action_status r = Some "running" }.

(** A computation leaves a view [f] of the state as it was. *)
Definition preserves {X A : Type} (f : state -> X) (c : M A) : Prop :=
  forall st, f (snd (c st)) = f st.

(** What a client method returns for a reply: the parsed body of a reply
    with status 200, an error mapping for everything else. *)
Definition client_result (reply : http_reply) : json :=
  match reply with
  | TransportFailure description => JsonObject {[ "error" := PyStr description ]}
  | HttpResponse status body =>
      if decide (status = 200%Z) then
        match body with
        | inr value => value
        | inl description => JsonObject {[ "error" := PyStr description ]}
        end
      else JsonObject {[ "error" := PyStr ("HTTP " +:+ pretty status) ]}
  end.

(** ** Worlds for the examples *)

(** No service answers, every command ends silently with exit code 0. *)
Definition offline_world : world :=
  mk_world Py.ascii_interpreter
           (fun _ => "2024-01-01 00:00:00") (fun _ => "2024-01-01T00:00:00.000000")
           (fun _ _ => TransportFailure "Cannot connect to host localhost:8001")
           (fun _ _ => Exited (Decoded "") (Decoded "") 0)
           (fun _ _ => inr "No such file or directory")
           (fun _ _ _ => None) (fun _ _ _ => None)
           (fun _ _ _ => Returned "No thinking steps available")
           (fun _ q => Returned ("No results found for '" +:+ q +:+ "'"))
           (fun _ q => Returned ("No instant answer found for '" +:+ q +:+ "'")).

(** As [offline_world], but the services answer every request with status
    200 and the JSON body [[]]. *)
Definition list_body_world : world :=
  mk_world (python offline_world)
           (sql_now offline_world) (py_now offline_world)
           (fun _ _ => HttpResponse 200 (inr (JsonArray [])))
           (subprocess_shell offline_world)
           (file_read offline_world) (file_write offline_world) (file_append offline_world)
           (think_about_text offline_world) (search_web_text offline_world)
           (instant_answer_text offline_world).


(** The time service answers every request with status 200 and a body. *)
Definition time_world : world :=
  mk_world (python offline_world)
           (sql_now offline_world) (py_now offline_world)
           (fun _ _ => HttpResponse 200
                         (inr (JsonObject
                                 (list_to_map [("current_time", PyStr "2024-01-01T12:00:00");
                                               ("timezone", PyStr "EST")]))))
           (subprocess_shell offline_world)
           (file_read offline_world) (file_write offline_world) (file_append offline_world)
           (think_about_text offline_world) (search_web_text offline_world)
           (instant_answer_text offline_world).

(** The state after [add_message "user" message]: the first step of
    [process_message]. *)
Definition logged (w : world) (message : string) (st : state) : state :=
  snd (add_message w "user" message "{}" st).

(** The row [_update_action_status] writes over a stored action. *)
Definition with_status (action_id : option nat) (status result : string)
           (r : Row.agent_action) : Row.agent_action :=
  if decide (Some (Row.action_id r) = action_id)
  then Row.mk_agent_action (Row.action_id r) (Row.action_type r)
         (Row.action_description r) (Some status) (Some result) (Row.action_created_at r)
  else r.
(** ** Which collaborators a computation may invoke *)

(** Every operation that [c] adds to the record of invocations satisfies
    [P]. *)
Definition invokes_only {A : Type} (P : call -> Prop) (c : M A) : Prop :=
  forall st, exists cs, calls (snd (c st)) = calls st ++ cs /\ Forall P cs.

(** The two facade operations that no chat message reaches. *)
Definition is_shadowed (c : call) : Prop :=
  match c with
  | McpTakeWebScreenshot _ | McpSearchWeb _ => True
  | _ => False
  end.

(** ** The identifiers of the todos *)

(** Stored todos have distinct identifiers, none above the sequence. *)
Definition todos_inv (st : state) : Prop :=
  NoDup (map Row.todo_id (todos st))
  /\ forall r, r ∈ todos st -> Row.todo_id r <= todos_seq st.

(** A computation keeps [todos_inv] and never lowers the sequence. *)
Definition keeps_todo_ids {A : Type} (c : M A) : Prop :=
  forall st, todos_inv st ->
             todos_inv (snd (c st)) /\ todos_seq st <= todos_seq (snd (c st)).

(** ** Runs inside the fragment *)

(** The step [o] from [st] does not leave the fragment of SQLite described
    in [Sql]. *)
Definition within_model (w : world) (o : op) (st : state) : Prop :=
  match o with
  | SubmitMessage message => fst (process_message w message st) <> Unmodelled
  | ApiUpdateTodo todo_id updates => fst (api_update_todo w todo_id updates st) <> Unmodelled
  | _ => True
  end.

Fixpoint run_within_model (w : world) (ops : list op) (st : state) : Prop :=
  match ops with
  | [] => True
  | o :: ops' => within_model w o st /\ run_within_model w ops' (exec w o st)
  end.

(** ** The todo routes *)

(** What [raise HTTPException(status_code=.., detail=..)] makes of a route:
    FastAPI answers with that status. *)
Inductive HTTPException := mk_HTTPException (status_code : Z) (detail : string).

(** [DELETE /api/todos/{todo_id}]: the exception raised, or the body. *)
Definition api_delete_todo (todo_id : nat) : M (HTTPException + gmap string string) :=
  success <- delete_todo todo_id ;;
  if negb success then ret (inl (mk_HTTPException 404 "Todo not found"))
  else ret (inr {[ "message" := "Todo deleted successfully" ]}).

(** The row [update_todo] leaves for a todo marked as completed at [now]. *)
Definition completed_row (now : string) (todo_id : nat) (r : Row.todo) : Row.todo :=
  if decide (Row.todo_id r = todo_id)
  then Row.mk_todo (Row.todo_id r) (Row.todo_title r) (Row.todo_description r) true
                   (Row.todo_priority r) (Row.todo_created_at r) now
  else r.

(** [a] may come before [b] under [ORDER BY created_at DESC]. *)
Definition not_older (a b : Row.todo) : Prop :=
  String.ltb (Row.todo_created_at a) (Row.todo_created_at b) = false.

(** ** The chat log and the in-memory history *)

(** What a stored chat message and a [ChatMessage] have in common. *)
Definition row_key (r : Row.chat_message) : option nat * string * string :=
  (Some (Row.chat_id r), Row.chat_role r, Row.chat_content r).

Definition message_key (m : ChatMessage.t) : option nat * string * string :=
  (ChatMessage.id m, ChatMessage.role m, ChatMessage.content m).

(** The process starts again: the database file is the one the earlier
    process left, and the objects built by [ChatBot.__init__] are new, so
    the in-memory history, the results and the tasks are empty. *)
Definition restart (st : state) : state :=
  mk_state (todos st) (todos_seq st) (chat_messages st) (chat_messages_seq st)
           (agent_actions st) (agent_actions_seq st) [] ∅ [] [] (readings st).

(** A run from any state. *)
Definition run_from (w : world) (st : state) (ops : list op) : state :=
  fold_left (fun st o => exec w o st) ops st.

(** The history is the end of the log and holds the messages logged since
    the process started, when the log had [n0] rows, up to [max_history]
    of them. *)
Definition history_inv (n0 : nat) (st : state) : Prop :=
  n0 <= length (chat_messages st)
  /\ exists older,
       map row_key (chat_messages st) = older ++ map message_key (conversation_history st)
       /\ length (conversation_history st)
          = Nat.min max_history (length (chat_messages st) - n0).

(** ** The body of a task *)

(** The branch of [_execute_action_async] that computes the result. *)
Definition action_body (w : world) (action : AgentAction.t)
           (params : gmap string string) : M string :=
  let action_type := AgentAction.action_type action in
  if decide (action_type = "command") then
    _execute_command w (params_get params "command")
  else if decide (action_type = "file_operation") then
    _execute_file_op w params
  else if decide (action_type = "web_search") then
    _execute_web_search (params_get params "query")
  else if decide (action_type = "xfce_action") then
    _execute_xfce_action params
  else ret ("Unknown action type: " +:+ action_type).


(** Every entry of [self.results] tells what the table holds. *)
Definition results_inv (st : state) : Prop :=
  forall k status text,
    results st !! Some k = Some (status, text) ->
    exists r, stored_action st k = Some r
              /\ Row.action_status r = Some status
              /\ Row.action_result r = Some text.

(** ** [WebSocketManager] and the chat endpoint *)

(** The state of the manager is [self.active_connections]; a websocket is
    known by a number. *)
Module WebSocketManager.

(** [l.remove(x)]: without the first occurrence of [x]. *)
Fixpoint remove (x : nat) (l : list nat) : list nat :=
  match l with
  | [] => []
  | y :: l' => if decide (x = y) then l' else y :: remove x l'
  end.

(** [connect], once [websocket.accept()] has returned. *)
Definition connect (websocket : nat) (active : list nat) : list nat :=
  active ++ [websocket].

Definition disconnect (websocket : nat) (active : list nat) : list nat :=
  if bool_decide (websocket ∈ active) then remove websocket active else active.

(** The first loop of [broadcast]: [sent k c] tells whether the [k]-th
    [send_text], the one to [c], went through; the connections for which it
    raised are collected. *)
Fixpoint disconnected (sent : nat -> nat -> bool) (k : nat) (l : list nat) : list nat :=
  match l with
  | [] => []
  | c :: l' =>
      if sent k c then disconnected sent (S k) l'
      else c :: disconnected sent (S k) l'
  end.

Definition broadcast (sent : nat -> nat -> bool) (active : list nat) : list nat :=
  fold_left (fun acc c => disconnect c acc) (disconnected sent 0 active) active.

End WebSocketManager.

(** How one turn of the loop of [websocket_endpoint] ends. *)
Inductive turn :=
  | Answered (response : string)
  | Closed.

(** One turn: [data] is the text received, or [None] when [receive_text]
    raised; [sent] tells whether [send_text] went through.  The bare
    [except] takes every exception and disconnects. *)
Definition websocket_turn (w : world) (websocket : nat) (data : option string)
           (sent : bool) (active : list nat) : M (turn * list nat) :=
  fun st =>
    match data with
    | None => (Returned (Closed, WebSocketManager.disconnect websocket active), st)
    | Some text =>
        match process_message w text st with
        | (Returned response, st') =>
            if sent then (Returned (Answered response, active), st')
            else (Returned (Closed, WebSocketManager.disconnect websocket active), st')
        | (Raised _, st') =>
            (Returned (Closed, WebSocketManager.disconnect websocket active), st')
        | (Unmodelled, st') => (Unmodelled, st')
        end
    end.

(** ** [POST /api/xfce/action] *)

(** The route: the action is dispatched with the parameters
    [{"action": action_type, **params}], in which an entry of [params]
    named "action" comes last; the body of the answer is
    [{"action_id": result.id, "message": "Action started"}]. *)
Definition api_xfce_action (w : world) (action_type : string)
           (params : gmap string string) : M (option nat * string) :=
  result <- execute_action w "xfce_action" ("XFCE: " +:+ action_type)
                           (params ∪ {[ "action" := action_type ]}) ;;
  ret (AgentAction.id result, "Action started").

(** * Properties *)

(** ** The string operations on examples *)

Example lower_example (u : Py.interpreter) : Py.lower u "ADD Todo 7" = "add todo 7".
Proof. reflexivity. Qed.

Example replace_strip_example (u : Py.interpreter) :
  Py.strip u (Py.replace "create todo" "" (Py.replace "add todo" "" "add todo  buy milk "))
  = "buy milk".
Proof. reflexivity. Qed.

Example findall_digits_example (u : Py.interpreter) :
  Py.findall_digits u "complete todo 07 and 12x3" = ["07"; "12"; "3"].
Proof. reflexivity. Qed.

Example findall_url_example (u : Py.interpreter) :
  Py.findall_url u "screenshot website https://example.com and http://a.b/c http:// x"
  = ["https://example.com"; "http://a.b/c"].
Proof. reflexivity. Qed.

Example int_of_digits_example : Py.int_of_digits Py.ascii_interpreter "07" = inr 7.
Proof. reflexivity. Qed.

Example set_clause_example :
  set_clause [("title", PyStr "x"); ("completed", PyBool true)] = "title = ?, completed = ?".
Proof. reflexivity. Qed.

(** ** The todo store *)

(** C9. From a store without todos, creating the todo "buy milk" and then
    listing gives exactly one entry: that title, not completed, priority
    "medium", and a creation timestamp equal to the update timestamp.  The
    object [create_todo] returns has equal timestamps as well. *)
Theorem create_then_list_roundtrip (w : world) (st : state) :
  todos st = [] ->
  let created := create_todo w (Todo.new "buy milk") st in
  exists t c,
    fst (get_todos (snd created)) = Returned [t]
    /\ Todo.title t = "buy milk"
    /\ Todo.completed t = false
    /\ Todo.priority t = "medium"
    /\ is_Some (Todo.created_at t)
    /\ Todo.created_at t = Todo.updated_at t
    /\ fst created = Returned c
    /\ Todo.created_at c = Todo.updated_at c.
Proof.
  intros Hempty created.
  unfold created, create_todo, insert_todo, get_todos, current_timestamp,
    datetime_now_isoformat, bind, gets, modify, reading, ret.
  cbn. rewrite Hempty. cbn.
  do 2 eexists. repeat split; eauto.
Qed.

Lemma create_then_list_roundtrip_witness :
  exists t c,
    fst (get_todos (snd (create_todo offline_world (Todo.new "buy milk") initial_state)))
      = Returned [t]
    /\ Todo.title t = "buy milk"
    /\ Todo.completed t = false
    /\ Todo.priority t = "medium"
    /\ is_Some (Todo.created_at t)
    /\ Todo.created_at t = Todo.updated_at t
    /\ fst (create_todo offline_world (Todo.new "buy milk") initial_state) = Returned c
    /\ Todo.created_at c = Todo.updated_at c.
Proof. apply (create_then_list_roundtrip offline_world initial_state). reflexivity. Defined.

(** C10. With an empty mapping the SET clause starts with a comma, so
    [update_todo] raises for every identifier, and so does the route
    [PUT /api/todos/{todo_id}]; the store is left as it was. *)
Theorem update_todo_empty_mapping_raises (w : world) (st : state) (todo_id : nat) :
  let e := OperationalError ("near " +:+ Sql.dquote +:+ "," +:+ Sql.dquote +:+ ": syntax error") in
  set_clause [] = ""
  /\ update_todo w todo_id [] st = (Raised e, st)
  /\ api_update_todo w todo_id [] st = (Raised e, st).
Proof. repeat split. Qed.

(** ** The remote-service facade *)

Lemma client_request_eq (w : world) (req : http_request) (st : state) :
  client_request w req st
  = (Returned (client_result (http w (readings st) req)),
     set_readings (S (readings st)) st).
Proof.
  unfold client_request, client_result, try_except, bind, reading, ret, raise.
  destruct (http w (readings st) req) as [d | status [d | value]]; [reflexivity | |];
    destruct (decide (status = 200%Z)); reflexivity.
Qed.

(** [MCPServices.get_current_time] after the request: what it does with
    the value the client returned. *)
Lemma get_current_time_unfold (w : world) (st : state) (timezone : string) :
  let req := mk_request "GET" "http://localhost:8001/api/time"
                        [("timezone", PyStr timezone); ("format", PyStr "iso")] in
  let result := client_result (http w (readings st) req) in
  get_current_time w timezone st
  = (has_error <- json_contains "error" result ;;
     if has_error : bool then
       e <- json_getitem result "error" ;;
       ret ("Time service error: " +:+ py_str e)
     else
       current_time <- json_get result "current_time" (PyStr "Unknown time") ;;
       timezone_info <- json_get result "timezone" (PyStr timezone) ;;
       ret (Glyph.clock +:+ " Current time: " +:+ py_str current_time
            +:+ " (" +:+ py_str timezone_info +:+ ")"))
      (set_readings (S (readings st))
         (set_calls (calls st ++ [McpGetCurrentTime timezone]) st)).
Proof.
  intros req result. subst req result.
  unfold get_current_time, time_client_get_current_time, invoke, modify.
  unfold bind at 1. unfold bind at 1. rewrite client_request_eq. reflexivity.
Qed.

(** What [MCPServices.get_current_time] does with what the client returns:
    the error string or the display string for a mapping, and an exception
    for every other JSON value, since neither [in] nor [get] is inside a
    [try]. *)
Lemma get_current_time_outcome (w : world) (st : state) (timezone : string) :
  let req := mk_request "GET" "http://localhost:8001/api/time"
                        [("timezone", PyStr timezone); ("format", PyStr "iso")] in
  match client_result (http w (readings st) req) with
  | JsonObject members =>
      fst (get_current_time w timezone st)
      = Returned
          match members !! "error" with
          | Some e => "Time service error: " +:+ py_str e
          | None =>
              Glyph.clock +:+ " Current time: "
              +:+ py_str (default (PyStr "Unknown time") (members !! "current_time"))
              +:+ " (" +:+ py_str (default (PyStr timezone) (members !! "timezone")) +:+ ")"
          end
  | _ => exists e, fst (get_current_time w timezone st) = Raised e
  end.
Proof.
  intros req. subst req. rewrite get_current_time_unfold. cbv zeta.
  generalize (set_readings (S (readings st))
                (set_calls (calls st ++ [McpGetCurrentTime timezone]) st)).
  intros st'.
  destruct (client_result _) as [members | items | s | z | t | b |];
    unfold bind, json_contains, json_getitem, json_get, ret, raise; cbv beta iota.
  - destruct (members !! "error") as [e |]; reflexivity.
  - destruct (existsb _ items); cbn [fst]; eauto.
  - destruct (Py.contains "error" s); cbn [fst]; eauto.
  - eauto.
  - eauto.
  - eauto.
  - eauto.
Qed.

(** C8, as the code has it.  For every timezone, a query against a time
    service that cannot be reached returns "Time service error: " and the
    failure text; a status other than 200 gives "Time service error: HTTP
    <status>"; a 200 body that does not parse gives the error string with
    the text of the parse error; a 200 body that is a JSON object gives the
    display string made from it, or the error string when it carries
    "error".  In all these cases nothing is raised.  The hypothesis leaves
    out the 200 bodies that are JSON but no object: the client returns them
    as they are, in the place of the [Dict] it declares. *)
Theorem get_current_time_returns_for_object_bodies
        (w : world) (st : state) (timezone : string) :
  let req := mk_request "GET" "http://localhost:8001/api/time"
                        [("timezone", PyStr timezone); ("format", PyStr "iso")] in
  (forall value, http w (readings st) req = HttpResponse 200 (inr value) ->
                 exists members, value = JsonObject members) ->
  exists text,
    fst (get_current_time w timezone st) = Returned text
    /\ match http w (readings st) req with
       | TransportFailure description => text = "Time service error: " +:+ description
       | HttpResponse status body =>
           if decide (status = 200%Z) then
             match body with
             | inl description => text = "Time service error: " +:+ description
             | inr (JsonObject members) =>
                 match members !! "error" with
                 | Some e => text = "Time service error: " +:+ py_str e
                 | None =>
                     text = Glyph.clock +:+ " Current time: "
                            +:+ py_str (default (PyStr "Unknown time")
                                                (members !! "current_time"))
                            +:+ " ("
                            +:+ py_str (default (PyStr timezone) (members !! "timezone"))
                            +:+ ")"
                 end
             | inr _ => True
             end
           else text = "Time service error: HTTP " +:+ pretty status
       end.
Proof.
  intros req Hobject. pose proof (get_current_time_outcome w st timezone) as H.
  cbv zeta in H. fold req in H. unfold client_result in H.
  destruct (http w (readings st) req) as [d | status [d | value]].
  - rewrite lookup_singleton_eq in H. eauto.
  - destruct (decide (status = 200%Z)); rewrite lookup_singleton_eq in H; eauto.
  - destruct (decide (status = 200%Z)) as [-> |].
    + destruct (Hobject value eq_refl) as [members ->].
      destruct (members !! "error"); eauto.
    + rewrite lookup_singleton_eq in H. eauto.
Qed.

Lemma get_current_time_returns_for_object_bodies_witness :
  (exists text,
     fst (get_current_time time_world "UTC" initial_state) = Returned text
     /\ text = Glyph.clock +:+ " Current time: 2024-01-01T12:00:00 (EST)")
  /\ (exists text,
        fst (get_current_time offline_world "UTC" initial_state) = Returned text
        /\ text = "Time service error: Cannot connect to host localhost:8001").
Proof.
  split.
  - destruct (get_current_time_returns_for_object_bodies time_world initial_state "UTC")
      as (text & Hret & Htext).
    + intros value Hreply. injection Hreply as <-. eexists. reflexivity.
    + exists text. split; [exact Hret | exact Htext].
  - destruct (get_current_time_returns_for_object_bodies offline_world initial_state "UTC")
      as (text & Hret & Htext).
    + intros value Hreply. discriminate Hreply.
    + exists text. split; [exact Hret | exact Htext].
Defined.

(** When the time service answers with status 200 and a body that is JSON
    but no object, the client returns the parsed value as it is, and
    [MCPServices.get_current_time] raises: ["error" in result] or
    [result.get] fails, outside every [try].  For the body [[]] the
    exception is the [AttributeError] of [list.get]. *)
Lemma time_body_that_is_no_object_raises
      (w : world) (st : state) (timezone : string) (value : json) :
  let req := mk_request "GET" "http://localhost:8001/api/time"
                        [("timezone", PyStr timezone); ("format", PyStr "iso")] in
  http w (readings st) req = HttpResponse 200 (inr value) ->
  (forall members, value <> JsonObject members) ->
  (exists e, fst (get_current_time w timezone st) = Raised e)
  /\ (value = JsonArray [] ->
      fst (get_current_time w timezone st) = Raised (AttributeError "list" "get")).
Proof.
  intros req Hreply Hvalue. pose proof (get_current_time_outcome w st timezone) as H.
  cbv zeta in H. fold req in H. rewrite Hreply in H. cbn [client_result] in H.
  rewrite decide_True in H by reflexivity.
  split.
  - destruct value; try exact H. destruct (Hvalue members). reflexivity.
  - intros ->. clear H Hvalue. rewrite get_current_time_unfold. cbv zeta.
    fold req. rewrite Hreply. reflexivity.
Qed.

(** C8 as the specification states it fails: the time service answers
    with status 200 and the body [[]], the query raises, and the exception
    leaves [process_message] too. *)
Lemma time_list_body_is_raised :
  fst (get_current_time list_body_world "UTC" initial_state)
  = Raised (AttributeError "list" "get")
  /\ fst (process_message list_body_world "what time is it" initial_state)
     = Raised (AttributeError "list" "get")
  /\ ~ (exists text,
          fst (get_current_time list_body_world "UTC" initial_state) = Returned text).
Proof.
  split; [reflexivity |]. split; [reflexivity |].
  intros (text & Htext). discriminate Htext.
Qed.

Example time_query_unreachable :
  fst (get_current_time offline_world "EST" initial_state)
  = Returned "Time service error: Cannot connect to host localhost:8001".
Proof. reflexivity. Qed.

Example time_query_answered :
  fst (get_current_time time_world "UTC" initial_state)
  = Returned (Glyph.clock +:+ " Current time: 2024-01-01T12:00:00 (EST)").
Proof. reflexivity. Qed.

(** ** The handlers *)

(** C6. When the parameter of a command is missing, the handler answers
    with its guidance string, raises nothing and leaves the whole state,
    hence the todos and the actions, as it was: an empty title on the
    add/create path, no digits on the complete/done path, an empty command,
    an empty search query. *)
Theorem missing_parameter_gives_guidance (w : world) (st : state) (message : string) :
  (Py.contains "add" message || Py.contains "create" message = true ->
   Py.strip (python w) (Py.replace "create todo" "" (Py.replace "add todo" "" message))
   = "" ->
   _handle_todo_command w message st
   = (Returned "Please provide a todo title. Example: 'add todo buy groceries'", st))
  /\ (Py.contains "add" message || Py.contains "create" message = false ->
      Py.contains "list" message || Py.contains "show" message = false ->
      Py.contains "complete" message || Py.contains "done" message = true ->
      Py.findall_digits (python w) message = [] ->
      _handle_todo_command w message st
      = (Returned "Please specify a todo ID. Example: 'complete todo 1'", st))
  /\ (Py.contains "command" message = true ->
      Py.strip (python w)
               (Py.replace "run command" "" (Py.replace "execute command" "" message))
      = "" ->
      _handle_agent_command w message st
      = (Returned "Please provide a command. Example: 'execute command ls -la'", st))
  /\ (Py.contains "search" message = true ->
      Py.strip (python w) (Py.replace "search" "" message) = "" ->
      _handle_web_command w message st
      = (Returned "Please provide a search query. Example: 'search python tutorials'", st)).
Proof.
  repeat split.
  - intros Hadd Htitle. unfold _handle_todo_command. rewrite Hadd, Htitle. reflexivity.
  - intros Hadd Hlist Hdone Hdigits. unfold _handle_todo_command.
    rewrite Hadd, Hlist, Hdone, Hdigits. reflexivity.
  - intros Hcommand Hempty. unfold _handle_agent_command.
    rewrite Hcommand, Hempty. reflexivity.
  - intros Hsearch Hempty. unfold _handle_web_command.
    rewrite Hsearch, Hempty. reflexivity.
Qed.

Lemma missing_parameter_gives_guidance_witness :
  _handle_todo_command offline_world "add todo" initial_state
  = (Returned "Please provide a todo title. Example: 'add todo buy groceries'", initial_state)
  /\ _handle_todo_command offline_world "complete todo" initial_state
     = (Returned "Please specify a todo ID. Example: 'complete todo 1'", initial_state)
  /\ _handle_agent_command offline_world "execute command" initial_state
     = (Returned "Please provide a command. Example: 'execute command ls -la'", initial_state)
  /\ _handle_web_command offline_world " search " initial_state
     = (Returned "Please provide a search query. Example: 'search python tutorials'",
        initial_state).
Proof.
  split; [| split; [| split]].
  - apply (missing_parameter_gives_guidance offline_world initial_state "add todo");
      reflexivity.
  - apply (missing_parameter_gives_guidance offline_world initial_state "complete todo");
      reflexivity.
  - apply (missing_parameter_gives_guidance offline_world initial_state "execute command");
      reflexivity.
  - apply (missing_parameter_gives_guidance offline_world initial_state " search ");
      reflexivity.
Defined.

(** The same through [process_message]: the guidance string comes back and
    only the chat log has grown. *)
Example add_todo_without_title :
  let r := process_message offline_world "add todo" initial_state in
  fst r = Returned "Please provide a todo title. Example: 'add todo buy groceries'"
  /\ todos (snd r) = [] /\ agent_actions (snd r) = [] /\ tasks (snd r) = [].
Proof. repeat split. Qed.

Lemma process_message_unfold (w : world) (message : string) (st : state) :
  process_message w message st
  = handler w (classify (Py.lower (python w) message)) message (logged w message st).
Proof. reflexivity. Qed.

Lemma logged_todos w message st : todos (logged w message st) = todos st.
Proof. reflexivity. Qed.

Lemma logged_todos_seq w message st : todos_seq (logged w message st) = todos_seq st.
Proof. reflexivity. Qed.

Lemma logged_calls w message st : calls (logged w message st) = calls st.
Proof. reflexivity. Qed.

Lemma logged_readings w message st : readings (logged w message st) = S (S (readings st)).
Proof. reflexivity. Qed.

(** C7. The sub-action tests of the todo handler read the text as it was
    typed: "ADD TODO BUY MILK" reaches the todo handler, as its lower-case
    form does, but there takes the usage branch and creates nothing, while
    "add todo buy milk" creates the todo "buy milk". *)
Theorem upper_case_add_todo_creates_nothing (w : world) (st : state) :
  let upper := process_message w "ADD TODO BUY MILK" st in
  let lower := process_message w "add todo buy milk" st in
  classify (Py.lower (python w) "ADD TODO BUY MILK")
  = classify (Py.lower (python w) "add todo buy milk")
  /\ fst upper
     = Returned "Todo commands: add todo [title], list todos, complete todo [id]"
  /\ todos (snd upper) = todos st
  /\ fst lower
     = Returned (Glyph.check +:+ " Todo created: 'buy milk' (ID: "
                 +:+ pretty (S (todos_seq st)) +:+ ")")
  /\ todos (snd lower)
     = todos st ++ [Row.mk_todo (S (todos_seq st)) "buy milk" (Some "") false
                                (Some "medium") (sql_now w (S (S (readings st))))
                                (sql_now w (S (S (readings st))))].
Proof.
  intros upper lower. subst upper lower.
  rewrite !process_message_unfold.
  repeat split.
Qed.

(** Only the branch of [_handle_mcp_command] that needs "screenshot" in the
    lowered text calls [take_web_screenshot]; the cascade sends every such
    text to the desktop handler first. *)
Lemma screenshot_is_never_remote (message_lower : string) :
  Py.contains "screenshot" message_lower = true ->
  classify message_lower <> IntentRemoteService.
Proof.
  intros H. unfold classify. rewrite H.
  destruct (_ || _); [discriminate |].
  destruct (_ || _); [discriminate |].
  rewrite orb_true_r. cbn. discriminate.
Qed.

(** The remote-service handler, given that text, takes the web screenshot of
    its URL. *)
Lemma mcp_screenshot_branch (w : world) :
  _handle_mcp_command w "screenshot website https://example.com"
  = take_web_screenshot w "https://example.com".
Proof. vm_compute. reflexivity. Qed.

(** [take_web_screenshot] records itself and nothing else. *)
Lemma take_web_screenshot_calls (w : world) (url : string) (st : state) :
  calls (snd (take_web_screenshot w url st)) = calls st ++ [McpTakeWebScreenshot url].
Proof.
  unfold take_web_screenshot, playwright_client_take_screenshot, invoke, modify.
  unfold bind at 1. unfold bind at 1. rewrite client_request_eq.
  destruct (client_result _) as [members | items | s | z | t | b |];
    unfold bind, json_contains, json_getitem, json_get, ret, raise; cbv beta iota;
    repeat match goal with
      | |- context [?m !! "error"] => destruct (m !! "error"); cbn -[lookup pretty]
      | |- context [if ?b then _ else _] => destruct b; cbn -[lookup pretty]
      end;
    reflexivity.
Qed.

(** C1. "screenshot website https://example.com" holds "screenshot",
    "website" and a URL and no keyword of a higher tier, yet
    [process_message] answers it on the desktop path: the only collaborator
    invoked is the desktop screenshot, and the web screenshot of that URL,
    which the remote-service handler would take for this text, is not. *)
Theorem web_screenshot_request_takes_desktop_path (w : world) (st : state) :
  let message := "screenshot website https://example.com" in
  let r := process_message w message st in
  Py.contains_any ["todo"; "task"; "execute"; "run"] (Py.lower (python w) message) = false
  /\ Py.findall_url (python w) message = ["https://example.com"]
  /\ classify (Py.lower (python w) message) = IntentDesktop
  /\ fst r = Returned (Glyph.desktop +:+ " Screenshot saved to /tmp/screenshot.png")
  /\ calls (snd r) = calls st ++ [XfceTakeScreenshot]
  /\ calls (snd (_handle_mcp_command w message st))
     = calls st ++ [McpTakeWebScreenshot "https://example.com"].
Proof.
  intros message r. subst message r.
  rewrite process_message_unfold.
  split; [vm_compute; reflexivity |]. split; [vm_compute; reflexivity |]. split; [vm_compute; reflexivity |].
  split; [reflexivity |]. split; [reflexivity |].
  rewrite mcp_screenshot_branch. apply take_web_screenshot_calls.
Qed.

(** C3, the cascade.  [classify] is a total function into the six intents,
    made of the five keyword tests in their order. *)
Lemma classify_first_match (message_lower : string) :
  let has k := Py.contains k message_lower in
  classify message_lower =
    if has "todo" || has "task" then IntentTodo
    else if has "execute" || has "run" then IntentAgent
    else if has "desktop" || has "screenshot" || has "xfce" then IntentDesktop
    else if has "search" || has "browse" then IntentWebSearch
    else if has "time" || has "current time" || has "date" || has "think"
            || has "analyze" || has "reason" || has "screenshot"
         then IntentRemoteService
    else IntentFallback.
Proof.
  cbn zeta. unfold classify, Py.contains_any. cbn [existsb].
  rewrite orb_false_r, !orb_assoc. reflexivity.
Qed.

(** C3. Text that matches no keyword tier reaches the fallback handler,
    and the fallback handler does not answer: building its table of
    responses reads [self.vnc_port], which a [ChatBot] does not have, so
    [process_message] raises [AttributeError] for every such text. *)
Theorem fallback_handler_raises (w : world) (st : state) (message : string) :
  classify (Py.lower (python w) message) = IntentFallback ->
  ChatBot_init !! "vnc_port" = None
  /\ fst (process_message w message st) = Raised (AttributeError "ChatBot" "vnc_port").
Proof.
  intros Hfallback. split; [reflexivity |].
  rewrite process_message_unfold, Hfallback. reflexivity.
Qed.

Lemma fallback_handler_raises_witness :
  ChatBot_init !! "vnc_port" = None
  /\ fst (process_message offline_world "how are you" initial_state)
     = Raised (AttributeError "ChatBot" "vnc_port").
Proof.
  apply (fallback_handler_raises offline_world initial_state "how are you").
  reflexivity.
Defined.

(** ** Frame rules: what a computation leaves alone *)

Section Frame.

Context {X : Type} (f : state -> X).

Lemma preserves_ret {A} (a : A) : preserves f (ret a).
Proof. intros st. reflexivity. Qed.

Lemma preserves_raise {A} (e : exn) : preserves f (@raise A e).
Proof. intros st. reflexivity. Qed.

Lemma preserves_unmodelled {A} : preserves f (@unmodelled A).
Proof. intros st. reflexivity. Qed.

Lemma preserves_lift {A} (o : outcome A) : preserves f (lift o).
Proof. intros st. reflexivity. Qed.

Lemma preserves_gets {A} (g : state -> A) : preserves f (gets g).
Proof. intros st. reflexivity. Qed.

Lemma preserves_modify (g : state -> state) :
  (forall st, f (g st) = f st) -> preserves f (modify g).
Proof. intros Hg st. apply Hg. Qed.

Lemma preserves_bind {A B} (c : M A) (k : A -> M B) :
  preserves f c -> (forall a, preserves f (k a)) -> preserves f (bind c k).
Proof.
  intros Hc Hk st. unfold bind. specialize (Hc st).
  destruct (c st) as [[a | e |] st']; cbn in *; [rewrite Hk |..]; exact Hc.
Qed.

Lemma preserves_try_except {A} (c : M A) (h : exn -> M A) :
  preserves f c -> (forall e, preserves f (h e)) -> preserves f (try_except c h).
Proof.
  intros Hc Hh st. unfold try_except. specialize (Hc st).
  destruct (c st) as [[a | e |] st']; cbn in *; [| rewrite Hh |]; exact Hc.
Qed.

Lemma preserves_getattr (cls : string) (self : gmap string pyval) (name : string) :
  preserves f (getattr cls self name).
Proof. intros st. unfold getattr. destruct (self !! name); reflexivity. Qed.

Lemma preserves_reading :
  (forall st n, f (set_readings n st) = f st) -> preserves f reading.
Proof. intros H st. apply H. Qed.

End Frame.

Create HintDb frame.

#[local] Hint Unfold
  current_timestamp datetime_now_isoformat insert_todo create_todo get_todos
  execute_update_todos update_todo delete_todo api_update_todo
  invoke stream_section json_contains json_getitem json_get
  _execute_command _execute_file_op _execute_web_search _execute_xfce_action
  xfce_take_screenshot get_vnc_connection start_xfce_session client_request
  time_client_get_current_time playwright_client_take_screenshot
  get_current_time take_web_screenshot think_about search_web get_instant_answer
  _handle_todo_command _handle_xfce_command _handle_general_chat _handle_mcp_command
  : frame.

(** Decompose a goal [preserves f c] along the structure of [c]; what is
    left are the steps that do touch the view [f]. *)
Ltac frame_step :=
  lazymatch goal with
  | |- preserves _ (bind _ _) => apply preserves_bind; [| intros ?]
  | |- preserves _ (try_except _ _) => apply preserves_try_except; [| intros ?]
  | |- preserves _ (ret _) => apply preserves_ret
  | |- preserves _ (raise _) => apply preserves_raise
  | |- preserves _ unmodelled => apply preserves_unmodelled
  | |- preserves _ (lift _) => apply preserves_lift
  | |- preserves _ (gets _) => apply preserves_gets
  | |- preserves _ (getattr _ _ _) => apply preserves_getattr
  | |- preserves _ (modify _) => apply preserves_modify; intros ?; reflexivity
  | |- preserves _ reading => apply preserves_reading; intros ? ?; reflexivity
  | |- preserves _ (if ?b then _ else _) => destruct b
  | |- preserves _ (match ?x with _ => _ end) => destruct x
  | |- preserves _ _ => progress (autounfold with frame; cbv zeta)
  end.

Ltac frame := repeat frame_step.

(** The handlers other than the two that dispatch leave the runner alone,
    and no handler writes to the chat log. *)
Lemma handler_preserves_chat_messages (w : world) (i : intent) (message : string) :
  preserves (fun st => (chat_messages st, chat_messages_seq st)) (handler w i message).
Proof.
  destruct i; cbn [handler]; frame.
  - unfold _handle_agent_command, execute_action; frame.
  - unfold _handle_web_command, execute_action; frame.
Qed.

(** ** The chat log *)

(** C2, as the code has it.  [process_message] stores the inbound text as
    a "user" message before it looks at it, and stores nothing else: once
    it returns (or raises) the chat log is the old log and that one row. *)
Theorem process_message_logs_user_message_only (w : world) (st : state) (message : string) :
  chat_messages (snd (process_message w message st))
  = chat_messages st
      ++ [Row.mk_chat_message (S (chat_messages_seq st)) "user" message
                              (sql_now w (readings st)) (Some "{}")].
Proof.
  rewrite process_message_unfold.
  pose proof (handler_preserves_chat_messages w (classify (Py.lower (python w) message)) message
                (logged w message st)) as H.
  cbn beta in H. apply (f_equal fst) in H. cbn [fst] in H. rewrite H. reflexivity.
Qed.

(** C2 fails as stated: after "list todos" has been answered, the log
    holds the user's message and no "assistant" message, although a
    response was returned. *)
Lemma response_is_not_logged :
  let r := process_message offline_world "list todos" initial_state in
  fst r = Returned "No todos found. Create one with 'add todo [title]'"
  /\ map Row.chat_role (chat_messages (snd r)) = ["user"]
  /\ ~ (exists row, row ∈ chat_messages (snd r) /\ Row.chat_role row = "assistant").
Proof.
  split; [reflexivity |]. split; [reflexivity |].
  intros (row & Hin & Hrole).
  apply list_elem_of_singleton in Hin. subst row. discriminate Hrole.
Qed.

(** ** The background runner *)

(** [_execute_command] always returns a text; only a reading is consumed. *)
Lemma execute_command_spec (w : world) (command : string) (st : state) :
  exists text,
    _execute_command w command st = (Returned text, set_readings (S (readings st)) st)
    /\ match subprocess_shell w (readings st) command with
       | SpawnRaised description => text = "Command execution failed: " +:+ description
       | Exited (Undecodable description) _ _ =>
           text = "Command execution failed: " +:+ description
       | Exited (Decoded _) (Undecodable description) _ =>
           text = "Command execution failed: " +:+ description
       | Exited (Decoded out) (Decoded err) returncode =>
           text = "Command: " +:+ command +:+ Py.nl
                  +:+ (if Py.is_empty out then ""
                       else "Output:" +:+ Py.nl +:+ out +:+ Py.nl)
                  +:+ (if Py.is_empty err then ""
                       else "Error:" +:+ Py.nl +:+ err +:+ Py.nl)
                  +:+ "Exit code: " +:+ pretty returncode
       end.
Proof.
  unfold _execute_command, stream_section, try_except, bind, reading, ret, raise.
  cbn [readings set_readings fst snd].
  destruct (subprocess_shell w (readings st) command) as [d | [out | d] [err | d'] rc];
    try destruct (Py.is_empty out); try destruct (Py.is_empty err);
    eexists; split; reflexivity.
Qed.

Lemma run_task_unfold (w : world) (st : state) (i : nat) (action : AgentAction.t)
      (params : gmap string string) :
  tasks st !! i = Some (action, params) ->
  run_task w i st
  = _execute_action_async w action params (set_tasks (delete i (tasks st)) st).
Proof. intros H. unfold run_task, bind, gets. rewrite H. reflexivity. Qed.

Lemma update_action_status_eq (action_id : option nat) (status result : string) (st : state) :
  _update_action_status action_id status result st
  = (Returned tt,
     set_results (<[action_id := (status, result)]> (results st))
       (set_agent_actions (map (with_status action_id status result) (agent_actions st))
                          (agent_actions_seq st) st)).
Proof. reflexivity. Qed.




(** ** The status of a dispatched action *)

Lemma map_fmap {A B} (f : A -> B) (l : list A) : map f l = f <$> l.
Proof. reflexivity. Qed.

Lemma with_status_id action_id status result r :
  Row.action_id (with_status action_id status result r) = Row.action_id r.
Proof. unfold with_status. case_decide; reflexivity. Qed.

Lemma with_status_other action_id status result r :
  Some (Row.action_id r) <> action_id -> with_status action_id status result r = r.
Proof. intros H. unfold with_status. rewrite decide_False by exact H. reflexivity. Qed.

Lemma with_status_hit action_id status result r :
  Some (Row.action_id r) = action_id ->
  Row.action_status (with_status action_id status result r) = Some status.
Proof. intros H. unfold with_status. rewrite decide_True by exact H. reflexivity. Qed.

Lemma stored_action_elem st i r :
  stored_action st i = Some r -> r ∈ agent_actions st /\ Row.action_id r = i.
Proof.
  unfold stored_action. intros H. apply find_some in H as [Hin Hid].
  apply bool_decide_eq_true in Hid. split; [| exact Hid].
  apply list_elem_of_In. exact Hin.
Qed.

Lemma find_action_app (rows extra : list Row.agent_action) i r :
  find (fun r => bool_decide (Row.action_id r = i)) rows = Some r ->
  find (fun r => bool_decide (Row.action_id r = i)) (rows ++ extra) = Some r.
Proof.
  induction rows as [| x rows IH]; cbn; [discriminate |].
  destruct (bool_decide (Row.action_id x = i)); auto.
Qed.

Lemma find_action_map action_id status result (rows : list Row.agent_action) i :
  find (fun r => bool_decide (Row.action_id r = i))
       (map (with_status action_id status result) rows)
  = with_status action_id status result
      <$> find (fun r => bool_decide (Row.action_id r = i)) rows.
Proof.
  induction rows as [| x rows IH]; cbn; [reflexivity |].
  rewrite with_status_id.
  destruct (bool_decide (Row.action_id x = i)); [reflexivity | exact IH].
Qed.

(** With distinct identifiers, a row is determined by its identifier. *)
Lemma row_by_id (rows : list Row.agent_action) r1 r2 :
  NoDup (map Row.action_id rows) ->
  r1 ∈ rows -> r2 ∈ rows -> Row.action_id r1 = Row.action_id r2 -> r1 = r2.
Proof.
  induction rows as [| x rows IH]; cbn; intros Hnd H1 H2 Hid.
  - inversion H1.
  - apply NoDup_cons in Hnd as [Hx Hnd].
    apply elem_of_cons in H1 as [-> | H1]; apply elem_of_cons in H2 as [-> | H2].
    + reflexivity.
    + exfalso. apply Hx. rewrite map_fmap, Hid. apply list_elem_of_fmap_2. exact H2.
    + exfalso. apply Hx. rewrite map_fmap, <- Hid. apply list_elem_of_fmap_2. exact H1.
    + apply IH; assumption.
Qed.

Lemma execute_action_eq (w : world) (action_type description : string)
      (params : gmap string string) (st : state) :
  let rowid := S (agent_actions_seq st) in
  let action := running_action rowid action_type description (py_now w (S (readings st))) in
  execute_action w action_type description params st
  = (Returned action,
     set_tasks (tasks st ++ [(action, params)])
       (set_readings (S (S (readings st)))
          (set_agent_actions
             (agent_actions st
                ++ [running_row rowid action_type description (sql_now w (readings st))])
             rowid st))).
Proof. reflexivity. Qed.

Lemma execute_action_dispatched (w : world) (action_type description : string)
      (params : gmap string string) (st : state) :
  dispatched st (snd (execute_action w action_type description params st)).
Proof.
  exists action_type, description, (sql_now w (readings st)),
    (py_now w (S (readings st))), params.
  reflexivity.
Qed.

Lemma dispatched_same_view st0 st st' :
  runner_view st0 = runner_view st -> dispatched st0 st' -> dispatched st st'.
Proof.
  unfold dispatched, runner_view. intros Hview (ty & desc & now & created & ps & H).
  injection Hview as Hrows Hseq Htasks.
  exists ty, desc, now, created, ps. cbn zeta in *.
  rewrite <- Hrows, <- Hseq, <- Htasks. exact H.
Qed.

(** *** What each entry point does to the runner *)

Lemma preserves_apply {X A} (f : state -> X) (c : M A) (st : state) :
  preserves f c -> f (snd (c st)) = f st.
Proof. intros H. apply H. Qed.

Lemma execute_then_ret {B} (w : world) (action_type description : string)
      (params : gmap string string) (g : AgentAction.t -> B) (st : state) :
  snd (bind (execute_action w action_type description params) (fun a => ret (g a)) st)
  = snd (execute_action w action_type description params st).
Proof. unfold bind. rewrite execute_action_eq. reflexivity. Qed.

Lemma handler_runner (w : world) (i : intent) (message : string) (st : state) :
  runner_view (snd (handler w i message st)) = runner_view st
  \/ dispatched st (snd (handler w i message st)).
Proof.
  destruct i; cbn [handler];
    try (left; apply preserves_apply; frame; fail).
  - unfold _handle_agent_command.
    repeat match goal with
      | |- context [if ?b then _ else _] => destruct b
      end; try (left; reflexivity).
    right. rewrite execute_then_ret. apply execute_action_dispatched.
  - unfold _handle_web_command.
    repeat match goal with
      | |- context [if ?b then _ else _] => destruct b
      end; try (left; reflexivity).
    right. rewrite execute_then_ret. apply execute_action_dispatched.
Qed.

Lemma front_end_runner (w : world) (o : op) (st : state) :
  (forall i, o <> RunTask i) ->
  runner_view (exec w o st) = runner_view st \/ dispatched st (exec w o st).
Proof.
  intros Hfront. destruct o as [message | todo | todo_id updates | todo_id | ty ps | i];
    cbn [exec].
  - rewrite process_message_unfold.
    destruct (handler_runner w (classify (Py.lower (python w) message)) message
                (logged w message st))
      as [H | H].
    + left. rewrite H. reflexivity.
    + right. apply (dispatched_same_view (logged w message st)); [reflexivity | exact H].
  - left. apply preserves_apply. frame.
  - left. apply preserves_apply. frame.
  - left. apply preserves_apply. frame.
  - right. apply execute_action_dispatched.
  - destruct (Hfront i). reflexivity.
Qed.

(** The body of a task returns a text and consumes readings only; the
    task then stores a terminal status. *)
Lemma execute_action_async_spec (w : world) (action : AgentAction.t)
      (params : gmap string string) (st : state) :
  exists status text n,
    is_terminal (Some status)
    /\ _execute_action_async w action params st
       = _update_action_status (AgentAction.id action) status text (set_readings n st).
Proof.
  assert (forall (body : M string),
            (exists text n, body st = (Returned text, set_readings n st)) ->
            exists status text n,
              is_terminal (Some status)
              /\ try_except
                   (result <- body ;;
                    _update_action_status (AgentAction.id action) "completed" result)
                   (fun e => _update_action_status (AgentAction.id action) "failed"
                                                   (exn_str e)) st
                 = _update_action_status (AgentAction.id action) status text
                                         (set_readings n st)) as Hbody.
  { intros body (text & n & Hb). exists "completed", text, n. split; [left; reflexivity |].
    unfold try_except, bind. rewrite Hb. rewrite !update_action_status_eq. reflexivity. }
  unfold _execute_action_async. apply Hbody.
  assert (forall text : string, exists t n, ret text st = (Returned t, set_readings n st))
    as Hret.
  { intros text. exists text, (readings st). destruct st; reflexivity. }
  repeat case_decide.
  - destruct (execute_command_spec w (params_get params "command") st)
      as (text & Hcommand & _).
    eauto.
  - unfold _execute_file_op, try_except, bind, reading, raise.
    repeat case_decide; try apply Hret.
    + destruct (file_read w (readings st) _); eexists _, _; reflexivity.
    + destruct (file_write w (readings st) _ _); eexists _, _; reflexivity.
    + destruct (file_append w (readings st) _ _); eexists _, _; reflexivity.
  - apply Hret.
  - unfold _execute_xfce_action. repeat case_decide; apply Hret.
  - apply Hret.
Qed.

(** *** The invariant is kept *)

Lemma same_view_inv (st st' : state) :
  runner_view st' = runner_view st -> runner_inv st -> runner_inv st'.
Proof.
  unfold runner_view. intros Hview [H1 H2 H3 H4 H5].
  injection Hview as Hrows Hseq Htasks.
  split; rewrite ?Hrows, ?Hseq, ?Htasks; assumption.
Qed.

Lemma same_view_stored (st st' : state) (i : nat) :
  runner_view st' = runner_view st -> stored_action st' i = stored_action st i.
Proof.
  unfold runner_view, stored_action. intros Hview.
  injection Hview as Hrows _ _. rewrite Hrows. reflexivity.
Qed.

Lemma initial_state_inv : runner_inv initial_state.
Proof.
  split; cbn.
  - constructor.
  - intros r Hr. inversion Hr.
  - intros r Hr. inversion Hr.
  - constructor.
  - intros t Ht. inversion Ht.
Qed.

Lemma dispatched_inv (st st' : state) :
  runner_inv st -> dispatched st st' -> runner_inv st'.
Proof.
  intros [Hnd Hbound Hstatus Htnd Htrun] (ty & desc & now & created & ps & Hview).
  cbn zeta in Hview. unfold runner_view in Hview.
  injection Hview as Hrows Hseq Htasks.
  assert (forall t, t ∈ tasks st ->
            AgentAction.id (fst t) <> Some (S (agent_actions_seq st))) as Hfresh.
  { intros t Ht Heq. destruct (Htrun t Ht) as (r & Hr & Hid & _).
    rewrite Hid in Heq. injection Heq as Heq.
    specialize (Hbound r Hr). lia. }
  split; rewrite ?Hrows, ?Hseq, ?Htasks.
  - rewrite map_app. apply NoDup_app. split; [exact Hnd |]. split.
    + intros x Hx Hin. cbn in Hin. apply list_elem_of_singleton in Hin. subst x.
      rewrite map_fmap in Hx. apply list_elem_of_fmap in Hx as (r & Hid & Hr).
      specialize (Hbound r Hr). lia.
    + cbn. apply NoDup_singleton.
  - intros r Hr. apply elem_of_app in Hr as [Hr | Hr].
    + specialize (Hbound r Hr). lia.
    + apply list_elem_of_singleton in Hr. subst r. cbn. lia.
  - intros r Hr. apply elem_of_app in Hr as [Hr | Hr].
    + apply Hstatus. exact Hr.
    + apply list_elem_of_singleton in Hr. subst r. left. reflexivity.
  - rewrite map_app. apply NoDup_app. split; [exact Htnd |]. split.
    + intros x Hx Hin. cbn in Hin. apply list_elem_of_singleton in Hin. subst x.
      rewrite map_fmap in Hx. apply list_elem_of_fmap in Hx as (t & Hid & Ht).
      apply (Hfresh t Ht). symmetry. exact Hid.
    + cbn. apply NoDup_singleton.
  - intros t Ht. apply elem_of_app in Ht as [Ht | Ht].
    + destruct (Htrun t Ht) as (r & Hr & Hid & Hrun).
      exists r. split; [apply elem_of_app; left; exact Hr |]. split; assumption.
    + apply list_elem_of_singleton in Ht. subst t.
      eexists. split; [apply elem_of_app; right; apply list_elem_of_singleton; reflexivity |].
      split; reflexivity.
Qed.

Lemma dispatched_stored (st st' : state) (i : nat) (r : Row.agent_action) :
  dispatched st st' -> stored_action st i = Some r -> stored_action st' i = Some r.
Proof.
  intros (ty & desc & now & created & ps & Hview) Hr.
  cbn zeta in Hview. unfold runner_view in Hview.
  injection Hview as Hrows _ _.
  unfold stored_action in *. rewrite Hrows. apply find_action_app. exact Hr.
Qed.

(** *** Running a task *)

Lemma run_task_view (w : world) (i : nat) (st : state) :
  snd (run_task w i st) = st
  \/ exists action params status text,
       tasks st !! i = Some (action, params)
       /\ is_terminal (Some status)
       /\ runner_view (snd (run_task w i st))
          = (map (with_status (AgentAction.id action) status text) (agent_actions st),
             agent_actions_seq st,
             delete i (tasks st)).
Proof.
  destruct (tasks st !! i) as [[action params] |] eqn:Htask.
  - right. exists action, params.
    rewrite (run_task_unfold w st i action params Htask).
    destruct (execute_action_async_spec w action params
                (set_tasks (delete i (tasks st)) st)) as (status & text & n & Hterm & ->).
    exists status, text. split; [reflexivity |]. split; [exact Hterm |].
    rewrite update_action_status_eq. reflexivity.
  - left. unfold run_task, bind, gets. rewrite Htask. reflexivity.
Qed.

Lemma map_with_status_ids action_id status text (rows : list Row.agent_action) :
  map Row.action_id (map (with_status action_id status text) rows)
  = map Row.action_id rows.
Proof.
  induction rows as [| r rows IH]; cbn; [reflexivity |].
  rewrite with_status_id, IH. reflexivity.
Qed.

(** In a list without two equal keys, what is left after deleting the
    [i]-th element has not the key of that element. *)
Lemma deleted_key_gone {A K} (key : A -> K) (l : list A) (i : nat) (x y : A) :
  NoDup (map key l) -> l !! i = Some x -> y ∈ delete i l -> key y <> key x.
Proof.
  intros Hnd Hi Hy Heq.
  rewrite <- (take_drop_middle l i x Hi), map_app in Hnd. cbn in Hnd.
  apply NoDup_app in Hnd as (_ & Hdisjoint & Hright).
  apply NoDup_cons in Hright as [Hx _].
  rewrite delete_take_drop in Hy. apply elem_of_app in Hy as [Hy | Hy].
  - apply (Hdisjoint (key y)).
    + rewrite map_fmap. apply list_elem_of_fmap_2. exact Hy.
    + rewrite Heq. apply elem_of_cons. left. reflexivity.
  - apply Hx. rewrite <- Heq, map_fmap. apply list_elem_of_fmap_2. exact Hy.
Qed.

Lemma run_task_inv (w : world) (i : nat) (st : state) :
  runner_inv st -> runner_inv (snd (run_task w i st)).
Proof.
  intros Hinv.
  destruct (run_task_view w i st)
    as [-> | (action & params & status & text & Htask & Hterm & Hview)];
    [exact Hinv |].
  destruct Hinv as [Hnd Hbound Hstatus Htnd Htrun].
  unfold runner_view in Hview. injection Hview as Hrows Hseq Htasks.
  split; rewrite ?Hrows, ?Hseq, ?Htasks.
  - rewrite map_with_status_ids. exact Hnd.
  - intros r' Hr'. rewrite map_fmap in Hr'.
    apply list_elem_of_fmap in Hr' as (r & -> & Hr).
    rewrite with_status_id. apply Hbound. exact Hr.
  - intros r' Hr'. rewrite map_fmap in Hr'.
    apply list_elem_of_fmap in Hr' as (r & -> & Hr).
    destruct (decide (Some (Row.action_id r) = AgentAction.id action)) as [Hhit | Hmiss].
    + right. rewrite (with_status_hit _ _ _ _ Hhit). exact Hterm.
    + rewrite (with_status_other _ _ _ _ Hmiss). apply Hstatus. exact Hr.
  - rewrite map_fmap, list_fmap_delete.
    eapply sublist_NoDup; [| apply sublist_delete]. rewrite <- map_fmap. exact Htnd.
  - intros t Ht.
    pose proof (deleted_key_gone (fun t => AgentAction.id (fst t)) (tasks st) i
                  (action, params) t Htnd Htask Ht) as Hother.
    apply list_elem_of_delete_inv in Ht.
    destruct (Htrun t Ht) as (r & Hr & Hid & Hrun).
    exists r. cbn in Hother. rewrite Hid in Hother.
    split; [| split; assumption].
    rewrite <- (with_status_other (AgentAction.id action) status text r Hother).
    rewrite map_fmap. apply list_elem_of_fmap_2. exact Hr.
Qed.

Lemma run_task_step (w : world) (i : nat) (st : state) (k : nat) (r : Row.agent_action) :
  runner_inv st ->
  stored_action st k = Some r ->
  exists r', stored_action (snd (run_task w i st)) k = Some r' /\ action_step r r'.
Proof.
  intros Hinv Hr.
  destruct (run_task_view w i st)
    as [-> | (action & params & status & text & Htask & Hterm & Hview)].
  { exists r. split; [exact Hr | left; reflexivity]. }
  unfold runner_view in Hview. injection Hview as Hrows _ _.
  exists (with_status (AgentAction.id action) status text r). split.
  - unfold stored_action in *. rewrite Hrows, find_action_map, Hr. reflexivity.
  - destruct (decide (Some (Row.action_id r) = AgentAction.id action)) as [Hhit | Hmiss].
    + right. split; [| rewrite (with_status_hit _ _ _ _ Hhit); exact Hterm].
      destruct Hinv as [Hnd _ _ _ Htrun].
      assert ((action, params) ∈ tasks st) as Hin
        by (apply list_elem_of_lookup; exists i; exact Htask).
      destruct (Htrun _ Hin) as (r0 & Hr0 & Hid & Hrun). cbn in Hid.
      apply stored_action_elem in Hr as [Hr _].
      rewrite <- Hhit in Hid. injection Hid as Hid.
      rewrite (row_by_id _ r r0 Hnd Hr Hr0 Hid). exact Hrun.
    + left. apply with_status_other. exact Hmiss.
Qed.

(** *** Every step *)

Lemma op_cases (o : op) : (exists i, o = RunTask i) \/ (forall i, o <> RunTask i).
Proof. destruct o; try (right; discriminate). left. eauto. Qed.

Lemma exec_inv (w : world) (o : op) (st : state) :
  runner_inv st -> runner_inv (exec w o st).
Proof.
  intros Hinv.
  destruct (op_cases o) as [[i ->] | Hfront].
  - apply run_task_inv. exact Hinv.
  - destruct (front_end_runner w o st Hfront) as [Hsame | Hdisp].
    + apply (same_view_inv st); assumption.
    + apply (dispatched_inv st); assumption.
Qed.

Lemma run_inv (w : world) (ops : list op) : runner_inv (run w ops).
Proof.
  unfold run. generalize initial_state_inv. generalize initial_state.
  induction ops as [| o ops IH]; intros st Hinv; cbn; [exact Hinv |].
  apply IH. apply exec_inv. exact Hinv.
Qed.

Lemma exec_step (w : world) (o : op) (st : state) (k : nat) (r : Row.agent_action) :
  runner_inv st ->
  stored_action st k = Some r ->
  exists r', stored_action (exec w o st) k = Some r' /\ action_step r r'.
Proof.
  intros Hinv Hr.
  destruct (op_cases o) as [[i ->] | Hfront].
  - apply run_task_step; assumption.
  - exists r. split; [| left; reflexivity].
    destruct (front_end_runner w o st Hfront) as [Hsame | Hdisp].
    + rewrite (same_view_stored st _ k Hsame). exact Hr.
    + apply (dispatched_stored st); assumption.
Qed.

(** C4. [execute_action] stores the action as "running", returns it with
    its identifier and leaves the work to a task that has not run yet.
    Along every run of the process each stored action is "running" or
    terminal, a step either leaves it as it was or takes it from "running"
    to "completed" or "failed", and a terminal action never changes again:
    its status is written at most once and never goes back to "running". *)
Theorem dispatched_action_status_is_monotone (w : world) :
  (forall st action_type description params,
     let r := execute_action w action_type description params st in
     let rowid := S (agent_actions_seq st) in
     exists action,
       fst r = Returned action
       /\ AgentAction.id action = Some rowid
       /\ AgentAction.status action = "running"
       /\ agent_actions (snd r)
          = agent_actions st
              ++ [running_row rowid action_type description (sql_now w (readings st))]
       /\ tasks (snd r) = tasks st ++ [(action, params)]
       /\ results (snd r) = results st)
  /\ (forall ops o i r,
        stored_action (run w ops) i = Some r ->
        (Row.action_status r = Some "running" \/ is_terminal (Row.action_status r))
        /\ exists r',
             stored_action (exec w o (run w ops)) i = Some r'
             /\ action_step r r'
             /\ (is_terminal (Row.action_status r) -> r' = r)).
Proof.
  split.
  - intros st action_type description params. cbn zeta.
    rewrite execute_action_eq. eexists. repeat split.
  - intros ops o i r Hr.
    pose proof (run_inv w ops) as Hinv. split.
    + apply (inv_status _ Hinv). apply (stored_action_elem _ i). exact Hr.
    + destruct (exec_step w o (run w ops) i r Hinv Hr) as (r' & Hr' & Hstep).
      exists r'. split; [exact Hr' |]. split; [exact Hstep |].
      intros Hterm. destruct Hstep as [-> | [Hrunning _]]; [reflexivity |].
      rewrite Hrunning in Hterm. destruct Hterm; discriminate.
Qed.

Lemma dispatched_action_status_is_monotone_witness :
  let ops := [ApiXfceAction "screenshot" ∅] in
  let r := running_row 1 "xfce_action" "XFCE: screenshot" "2024-01-01 00:00:00" in
  (Row.action_status r = Some "running" \/ is_terminal (Row.action_status r))
  /\ exists r',
       stored_action (exec offline_world (RunTask 0) (run offline_world ops)) 1 = Some r'
       /\ action_step r r'
       /\ (is_terminal (Row.action_status r) -> r' = r).
Proof.
  apply (proj2 (dispatched_action_status_is_monotone offline_world)
               [ApiXfceAction "screenshot" ∅] (RunTask 0) 1).
  reflexivity.
Defined.

Example action_runs_to_completed :
  let st1 := run offline_world [ApiXfceAction "screenshot" ∅] in
  let st2 := exec offline_world (RunTask 0) st1 in
  let st3 := exec offline_world (RunTask 0) st2 in
  map Row.action_status (agent_actions st1) = [Some "running"]
  /\ map Row.action_status (agent_actions st2) = [Some "completed"]
  /\ map Row.action_result (agent_actions st2)
     = [Some "Screenshot taken and saved to /tmp/screenshot.png"]
  /\ agent_actions st3 = agent_actions st2.
Proof. repeat split. Qed.

(** ** More on the cascade *)

Lemma lower_upper_char (c : ascii) : Py.lower_char (Py.upper_char c) = Py.lower_char c.
Proof.
  destruct c as [[] [] [] [] [] [] [] []]; reflexivity.
Qed.

Lemma ascii_lower_upper (s : string) :
  Py.ascii_lower (Py.ascii_upper s) = Py.ascii_lower s.
Proof.
  induction s as [| c s IH]; cbn; [reflexivity |].
  rewrite lower_upper_char, IH. reflexivity.
Qed.

Lemma lower_lower_char (c : ascii) : Py.lower_char (Py.lower_char c) = Py.lower_char c.
Proof.
  destruct c as [[] [] [] [] [] [] [] []]; reflexivity.
Qed.

Lemma ascii_lower_lower (s : string) :
  Py.ascii_lower (Py.ascii_lower s) = Py.ascii_lower s.
Proof.
  induction s as [| c s IH]; cbn; [reflexivity |].
  rewrite lower_lower_char, IH. reflexivity.
Qed.

Lemma upper_char_ascii (c : ascii) :
  (Py.code c <? 128)%N = true -> (Py.code (Py.upper_char c) <? 128)%N = true.
Proof.
  destruct c as [[] [] [] [] [] [] [] []]; intros H; try exact H; reflexivity.
Qed.

Lemma lower_char_ascii (c : ascii) :
  (Py.code c <? 128)%N = true -> (Py.code (Py.lower_char c) <? 128)%N = true.
Proof.
  destruct c as [[] [] [] [] [] [] [] []]; intros H; try exact H; reflexivity.
Qed.

Lemma is_ascii_upper (s : string) :
  Py.is_ascii s = true -> Py.is_ascii (Py.ascii_upper s) = true.
Proof.
  induction s as [| c s IH]; cbn [Py.is_ascii Py.ascii_upper]; [reflexivity |].
  intros H. apply andb_prop in H as [Hc Hs].
  rewrite (upper_char_ascii c Hc), (IH Hs). reflexivity.
Qed.

Lemma is_ascii_lower (s : string) :
  Py.is_ascii s = true -> Py.is_ascii (Py.ascii_lower s) = true.
Proof.
  induction s as [| c s IH]; cbn [Py.is_ascii Py.ascii_lower]; [reflexivity |].
  intros H. apply andb_prop in H as [Hc Hs].
  rewrite (lower_char_ascii c Hc), (IH Hs). reflexivity.
Qed.

(** On ASCII text the operations are the computed ones, whatever the
    tables. *)
Lemma lower_ascii (u : Py.interpreter) (s : string) :
  Py.is_ascii s = true -> Py.lower u s = Py.ascii_lower s.
Proof. intros H. unfold Py.lower. rewrite H. reflexivity. Qed.

Lemma upper_ascii (u : Py.interpreter) (s : string) :
  Py.is_ascii s = true -> Py.upper u s = Py.ascii_upper s.
Proof. intros H. unfold Py.upper. rewrite H. reflexivity. Qed.

(** X1. The tier of a message of ASCII characters does not depend on the
    case of its letters: its upper-case form is routed to the handler that
    the message itself selects, and so is its lower-case form.  (Outside
    ASCII this fails: the upper-case form of a long s is an S.) *)
Theorem tier_ignores_case (w : world) (message : string) (st : state) :
  Py.is_ascii message = true ->
  classify (Py.lower (python w) (Py.upper (python w) message))
  = classify (Py.lower (python w) message)
  /\ classify (Py.lower (python w) (Py.lower (python w) message))
     = classify (Py.lower (python w) message)
  /\ process_message w (Py.upper (python w) message) st
     = handler w (classify (Py.lower (python w) message)) (Py.upper (python w) message)
               (logged w (Py.upper (python w) message) st).
Proof.
  intros Hascii.
  assert (Py.lower (python w) (Py.upper (python w) message)
          = Py.lower (python w) message) as Hupper.
  { rewrite (upper_ascii _ _ Hascii), (lower_ascii _ _ (is_ascii_upper _ Hascii)),
      (lower_ascii _ _ Hascii).
    apply ascii_lower_upper. }
  assert (Py.lower (python w) (Py.lower (python w) message)
          = Py.lower (python w) message) as Hlower.
  { rewrite !(lower_ascii _ _ Hascii), (lower_ascii _ _ (is_ascii_lower _ Hascii)).
    apply ascii_lower_lower. }
  rewrite process_message_unfold, Hupper, Hlower. repeat split.
Qed.

Lemma tier_ignores_case_witness :
  Py.is_ascii "List my Tasks" = true
  /\ classify (Py.lower (python offline_world)
                        (Py.upper (python offline_world) "List my Tasks"))
     = IntentTodo
  /\ classify (Py.lower (python offline_world) "List my Tasks") = IntentTodo.
Proof.
  split; [reflexivity |].
  destruct (tier_ignores_case offline_world "List my Tasks" initial_state eq_refl)
    as (Hupper & _ & _).
  split; [rewrite Hupper |]; reflexivity.
Defined.

(** ** Which collaborators a message can reach *)

Section Invokes.

Context (P : call -> Prop).

Lemma invokes_only_same {A} (c : M A) :
  preserves calls c -> invokes_only P c.
Proof.
  intros H st. exists []. rewrite H, app_nil_r. split; [reflexivity | constructor].
Qed.

Lemma invokes_only_invoke (c : call) : P c -> invokes_only P (invoke c).
Proof.
  intros H st. exists [c]. split; [reflexivity |]. constructor; [exact H | constructor].
Qed.

Lemma invokes_only_bind {A B} (c : M A) (k : A -> M B) :
  invokes_only P c -> (forall a, invokes_only P (k a)) -> invokes_only P (bind c k).
Proof.
  intros Hc Hk st. unfold bind. destruct (Hc st) as (cs & Hcs & HP).
  destruct (c st) as [[a | e |] st']; cbn in *; try (exists cs; split; assumption).
  destruct (Hk a st') as (cs' & Hcs' & HP').
  exists (cs ++ cs'). split.
  - rewrite Hcs', Hcs, app_assoc. reflexivity.
  - apply Forall_app. split; assumption.
Qed.

Lemma invokes_only_try_except {A} (c : M A) (h : exn -> M A) :
  invokes_only P c -> (forall e, invokes_only P (h e)) -> invokes_only P (try_except c h).
Proof.
  intros Hc Hh st. unfold try_except. destruct (Hc st) as (cs & Hcs & HP).
  destruct (c st) as [[a | e |] st']; cbn in *; try (exists cs; split; assumption).
  destruct (Hh e st') as (cs' & Hcs' & HP').
  exists (cs ++ cs'). split.
  - rewrite Hcs', Hcs, app_assoc. reflexivity.
  - apply Forall_app. split; assumption.
Qed.

End Invokes.

(** Decompose a goal [invokes_only P c] along the structure of [c]; the
    invocations are left as goals [P c]. *)
Ltac invokes_step :=
  lazymatch goal with
  | |- invokes_only _ (bind _ _) => apply invokes_only_bind; [| intros ?]
  | |- invokes_only _ (try_except _ _) => apply invokes_only_try_except; [| intros ?]
  | |- invokes_only _ (invoke _) => apply invokes_only_invoke
  | |- invokes_only _ (ret _) => apply invokes_only_same; frame
  | |- invokes_only _ (raise _) => apply invokes_only_same; frame
  | |- invokes_only _ unmodelled => apply invokes_only_same; frame
  | |- invokes_only _ (lift _) => apply invokes_only_same; frame
  | |- invokes_only _ (gets _) => apply invokes_only_same; frame
  | |- invokes_only _ (getattr _ _ _) => apply invokes_only_same; frame
  | |- invokes_only _ (modify _) => apply invokes_only_same; frame
  | |- invokes_only _ reading => apply invokes_only_same; frame
  | |- invokes_only _ (if ?b then _ else _) => destruct b
  | |- invokes_only _ (match ?x with _ => _ end) => destruct x
  end.

Ltac invokes := repeat invokes_step.

Create HintDb invokes.

#[local] Hint Unfold
  current_timestamp datetime_now_isoformat insert_todo create_todo get_todos
  execute_update_todos update_todo execute_action
  json_contains json_getitem json_get
  xfce_take_screenshot get_vnc_connection start_xfce_session client_request
  time_client_get_current_time playwright_client_take_screenshot
  get_current_time take_web_screenshot think_about search_web get_instant_answer
  _handle_todo_command _handle_agent_command _handle_xfce_command
  _handle_web_command _handle_general_chat
  : invokes.

Ltac invokes_all :=
  repeat first [invokes_step | progress (autounfold with invokes; cbv zeta)].

Lemma classify_remote_service (message_lower : string) :
  classify message_lower = IntentRemoteService ->
  Py.contains "screenshot" message_lower = false
  /\ Py.contains "search" message_lower = false.
Proof.
  unfold classify.
  destruct (Py.contains "todo" message_lower || Py.contains "task" message_lower);
    [discriminate |].
  destruct (Py.contains "execute" message_lower || Py.contains "run" message_lower);
    [discriminate |].
  destruct (Py.contains "screenshot" message_lower).
  { rewrite orb_true_r. discriminate. }
  destruct (Py.contains "search" message_lower).
  { rewrite !orb_false_r. cbn [orb]. destruct (_ || _); discriminate. }
  split; reflexivity.
Qed.

Lemma handler_invokes (w : world) (i : intent) (message : string) :
  classify (Py.lower (python w) message) = i ->
  invokes_only (fun c => ~ is_shadowed c) (handler w i message).
Proof.
  intros Hclass. destruct i; cbn [handler];
    try (invokes_all; cbn; tauto).
  destruct (classify_remote_service _ Hclass) as [Hscreenshot Hsearch].
  unfold _handle_mcp_command. cbv zeta. rewrite Hscreenshot, Hsearch.
  cbn [andb]. cbv iota.
  invokes_all; cbn; tauto.
Qed.

(** X2. No chat message reaches the web screenshot or the web search of
    the remote-service facade: whatever the text, [process_message] invokes
    neither [take_web_screenshot] nor [search_web], because the tiers
    "desktop" and "web-search" take every text with "screenshot" or
    "search" before the remote-service handler is tried. *)
Theorem chat_never_reaches_web_screenshot_or_search
        (w : world) (message : string) (st : state) :
  exists cs,
    calls (snd (process_message w message st)) = calls st ++ cs
    /\ Forall (fun c => ~ is_shadowed c) cs
    /\ (forall url, McpTakeWebScreenshot url ∉ cs)
    /\ (forall query, McpSearchWeb query ∉ cs).
Proof.
  rewrite process_message_unfold.
  destruct (handler_invokes w (classify (Py.lower (python w) message)) message eq_refl
              (logged w message st)) as (cs & Hcs & HP).
  exists cs. split; [exact Hcs |]. split; [exact HP |].
  rewrite Forall_forall in HP.
  split; intros x Hin; apply (HP _ Hin); exact I.
Qed.

(** ** Which tier writes to which table *)

Lemma handler_preserves_todos (w : world) (i : intent) (message : string) :
  i <> IntentTodo ->
  preserves (fun st => (todos st, todos_seq st)) (handler w i message).
Proof.
  intros Hi. destruct i; cbn [handler]; try (destruct (Hi eq_refl)); frame.
  - unfold _handle_agent_command, execute_action; frame.
  - unfold _handle_web_command, execute_action; frame.
Qed.

(** X3. A chat message changes the todo table only when it falls in the
    todo tier, and dispatches an action only in the agent and web-search
    tiers; in every other tier the table of todos, the table of actions and
    the waiting tasks are left as they were. *)
Theorem tiers_keep_to_their_tables (w : world) (message : string) (st : state) :
  let st' := snd (process_message w message st) in
  (classify (Py.lower (python w) message) <> IntentTodo ->
   todos st' = todos st /\ todos_seq st' = todos_seq st)
  /\ (classify (Py.lower (python w) message) <> IntentAgent ->
      classify (Py.lower (python w) message) <> IntentWebSearch ->
      agent_actions st' = agent_actions st
      /\ agent_actions_seq st' = agent_actions_seq st
      /\ tasks st' = tasks st).
Proof.
  cbn zeta. rewrite process_message_unfold. split.
  - intros Hi.
    pose proof (handler_preserves_todos w _ message Hi (logged w message st)) as H.
    cbn beta in H. injection H as H1 H2. rewrite H1, H2. split; reflexivity.
  - intros Hagent Hweb.
    assert (runner_view (snd (handler w (classify (Py.lower (python w) message)) message
                                      (logged w message st)))
            = runner_view (logged w message st)) as H.
    { apply preserves_apply.
      destruct (classify (Py.lower (python w) message)); cbn [handler];
        try (destruct (Hagent eq_refl)); try (destruct (Hweb eq_refl)); frame. }
    unfold runner_view in H. injection H as H1 H2 H3. rewrite H1, H2, H3.
    repeat split.
Qed.

Lemma tiers_keep_to_their_tables_witness :
  let st' := snd (process_message offline_world "take a screenshot" initial_state) in
  (todos st' = todos initial_state /\ todos_seq st' = todos_seq initial_state)
  /\ (agent_actions st' = agent_actions initial_state
      /\ agent_actions_seq st' = agent_actions_seq initial_state
      /\ tasks st' = tasks initial_state).
Proof.
  destruct (tiers_keep_to_their_tables offline_world "take a screenshot" initial_state)
    as [Htodos Hactions].
  split.
  - apply Htodos. discriminate.
  - apply Hactions; discriminate.
Defined.

(** ** The time branch *)

(** X4. In its time branch the remote-service handler asks the time
    service for one of six zones and nothing else: the upper-case form of
    the first of "utc", "est", "pst", "gmt", "jst", "cet" that occurs in
    the lowered text, and "UTC" when none occurs.  The text of the user
    never becomes the zone. *)
Theorem time_branch_zone (w : world) (message : string) (st : state) :
  Py.contains_any ["time"; "date"; "clock"] (Py.lower (python w) message) = true ->
  exists timezone,
    _handle_mcp_command w message st = get_current_time w timezone st
    /\ timezone ∈ ["UTC"; "EST"; "PST"; "GMT"; "JST"; "CET"]
    /\ (Py.contains_any ["utc"; "est"; "pst"; "gmt"; "jst"; "cet"]
                        (Py.lower (python w) message) = false ->
        timezone = "UTC")
    /\ (Py.contains "utc" (Py.lower (python w) message) = true -> timezone = "UTC").
Proof.
  intros Htime. unfold _handle_mcp_command. cbv zeta. rewrite Htime.
  unfold Py.contains_any. cbn [find existsb].
  destruct (Py.contains "utc" (Py.lower (python w) message));
    [| destruct (Py.contains "est" (Py.lower (python w) message));
       [| destruct (Py.contains "pst" (Py.lower (python w) message));
          [| destruct (Py.contains "gmt" (Py.lower (python w) message));
             [| destruct (Py.contains "jst" (Py.lower (python w) message));
                [| destruct (Py.contains "cet" (Py.lower (python w) message))]]]]];
    eexists; (split; [reflexivity |]);
    (split; [cbn; set_solver |]); split; intros H; try discriminate H; reflexivity.
Qed.

Lemma time_branch_zone_witness :
  exists timezone,
    _handle_mcp_command offline_world "what time is it in Tokyo, JST?" initial_state
    = get_current_time offline_world timezone initial_state
    /\ timezone ∈ ["UTC"; "EST"; "PST"; "GMT"; "JST"; "CET"]
    /\ (Py.contains_any ["utc"; "est"; "pst"; "gmt"; "jst"; "cet"]
                        (Py.lower (python offline_world) "what time is it in Tokyo, JST?")
        = false ->
        timezone = "UTC")
    /\ (Py.contains "utc" (Py.lower (python offline_world) "what time is it in Tokyo, JST?")
        = true ->
        timezone = "UTC").
Proof.
  apply (time_branch_zone offline_world "what time is it in Tokyo, JST?" initial_state).
  reflexivity.
Defined.

Example time_zone_is_a_substring_match :
  calls (snd (process_message offline_world "what is the time out west" initial_state))
  = [McpGetCurrentTime "EST"].
Proof. reflexivity. Qed.

(** ** Todo identifiers *)

Lemma store_id (now : string) (a : string * Sql.value) (r r' : Row.todo) :
  Sql.store now a r = Some r' -> Row.todo_id r' = Row.todo_id r.
Proof.
  destruct r as [i t d c p cr up]. destruct a as [col v].
  unfold Sql.store. intros H.
  repeat match type of H with
    | context [match ?x with _ => _ end] => destruct x; try discriminate H
    end;
  injection H as <-; reflexivity.
Qed.

Lemma store_all_id (now : string) (l : list (string * Sql.value)) (r r' : Row.todo) :
  Sql.store_all now l r = Some r' -> Row.todo_id r' = Row.todo_id r.
Proof.
  revert r. induction l as [| a l IH]; cbn; intros r H.
  - injection H as <-. reflexivity.
  - destruct (Sql.store now a r) as [r1 |] eqn:Hstore; [| discriminate].
    rewrite (IH _ H). apply (store_id _ _ _ _ Hstore).
Qed.

Lemma update_rows_ids (now : string) (l : list (string * Sql.value)) (target : nat)
      (rows rows' : list Row.todo) :
  Sql.update_rows now l target rows = Some rows' ->
  map Row.todo_id rows' = map Row.todo_id rows.
Proof.
  revert rows'. induction rows as [| r rows IH]; cbn; intros rows' H.
  - injection H as <-. reflexivity.
  - destruct (decide (Row.todo_id r = target)).
    + destruct (Sql.store_all now l r) as [r1 |] eqn:Hstore; [| discriminate].
      destruct (Sql.update_rows now l target rows) as [rest |]; [| discriminate].
      injection H as <-. cbn. rewrite (store_all_id _ _ _ _ Hstore), (IH _ eq_refl).
      reflexivity.
    + destruct (Sql.update_rows now l target rows) as [rest |]; [| discriminate].
      injection H as <-. cbn. rewrite (IH _ eq_refl). reflexivity.
Qed.

Lemma todos_inv_same_ids (st st' : state) :
  map Row.todo_id (todos st') = map Row.todo_id (todos st) ->
  todos_seq st' = todos_seq st ->
  todos_inv st -> todos_inv st'.
Proof.
  intros Hids Hseq [Hnd Hbound]. split; [rewrite Hids; exact Hnd |].
  intros r Hr. rewrite Hseq.
  assert (Row.todo_id r ∈ map Row.todo_id (todos st)) as Hin.
  { rewrite <- Hids, map_fmap. apply list_elem_of_fmap_2. exact Hr. }
  rewrite map_fmap in Hin. apply list_elem_of_fmap in Hin as (r0 & -> & Hr0).
  apply Hbound. exact Hr0.
Qed.

Section Keeps.

Lemma keeps_of_preserves {A} (c : M A) :
  preserves (fun st => (todos st, todos_seq st)) c -> keeps_todo_ids c.
Proof.
  intros H st Hinv. specialize (H st). cbn beta in H. injection H as Hrows Hseq.
  split; [| lia].
  apply (todos_inv_same_ids st); [rewrite Hrows; reflexivity | exact Hseq | exact Hinv].
Qed.

Lemma keeps_bind {A B} (c : M A) (k : A -> M B) :
  keeps_todo_ids c -> (forall a, keeps_todo_ids (k a)) -> keeps_todo_ids (bind c k).
Proof.
  intros Hc Hk st Hinv. unfold bind. destruct (Hc st Hinv) as [Hinv' Hle].
  destruct (c st) as [[a | e |] st']; cbn in *; try (split; assumption).
  destruct (Hk a st' Hinv') as [Hinv'' Hle']. split; [exact Hinv'' | lia].
Qed.

Lemma insert_todo_eq (w : world) (title description : string) (completed : bool)
      (priority : string) (st : state) :
  insert_todo w title description completed priority st
  = (Returned (S (todos_seq st)),
     set_todos (todos st ++ [Row.mk_todo (S (todos_seq st)) title (Some description)
                                         completed (Some priority)
                                         (sql_now w (readings st)) (sql_now w (readings st))])
               (S (todos_seq st))
               (set_readings (S (readings st)) st)).
Proof. reflexivity. Qed.

Lemma keeps_insert_todo (w : world) (title description : string) (completed : bool)
      (priority : string) :
  keeps_todo_ids (insert_todo w title description completed priority).
Proof.
  intros st [Hnd Hbound]. rewrite insert_todo_eq. unfold todos_inv.
  cbn [snd todos todos_seq set_todos set_readings].
  split; [split |]; [| | lia].
  - rewrite map_app. apply NoDup_app. split; [exact Hnd |]. split.
    + intros x Hx Hin. cbn in Hin. apply list_elem_of_singleton in Hin. subst x.
      rewrite map_fmap in Hx. apply list_elem_of_fmap in Hx as (r & Hid & Hr).
      specialize (Hbound r Hr). lia.
    + cbn. apply NoDup_singleton.
  - intros r Hr. apply elem_of_app in Hr as [Hr | Hr].
    + specialize (Hbound r Hr). lia.
    + apply list_elem_of_singleton in Hr. subst r. cbn. lia.
Qed.

Lemma keeps_execute_update_todos (w : world) (clause : string) (values : list pyval)
      (todo_id : nat) :
  keeps_todo_ids (execute_update_todos w clause values todo_id).
Proof.
  assert (forall A (o : outcome A) st, todos_inv st ->
            todos_inv (snd (o, st)) /\ todos_seq st <= todos_seq (snd (o, st))) as Hsame.
  { intros A o st Hinv. cbn. split; [exact Hinv | lia]. }
  intros st Hinv. unfold execute_update_todos.
  destruct (Sql.prepare_set _) as [assignments | e |]; try (apply Hsame; exact Hinv).
  destruct (Sql.bind_parameters assignments values) as [[bound [| v rest]] |];
    try (apply Hsame; exact Hinv).
  destruct (Sql.convert_parameters _) as [[] | e |]; try (apply Hsame; exact Hinv).
  unfold current_timestamp, bind, gets, modify, reading, ret, unmodelled. cbn.
  destruct (Sql.update_rows _ bound todo_id (todos st)) as [rows' |] eqn:Hrows; cbn.
  - split; [| lia].
    apply (todos_inv_same_ids st); [| reflexivity | exact Hinv].
    cbn. apply (update_rows_ids _ _ _ _ _ Hrows).
  - split; [| lia]. apply (todos_inv_same_ids st); [reflexivity | reflexivity | exact Hinv].
Qed.

Lemma keeps_delete_todo (todo_id : nat) : keeps_todo_ids (delete_todo todo_id).
Proof.
  intros st [Hnd Hbound]. unfold todos_inv, delete_todo.
  destruct (Sql.fits_int64 _); [| cbn; split; [split; assumption | lia]].
  cbn. split; [split |]; [| | lia].
  - rewrite map_fmap.
    apply (sublist_NoDup _ (Row.todo_id <$> todos st));
      [rewrite <- map_fmap; exact Hnd | apply fmap_sublist, sublist_filter].
  - intros r Hr. apply list_elem_of_filter in Hr as [_ Hr]. apply Hbound. exact Hr.
Qed.

End Keeps.

Ltac keeps_step :=
  lazymatch goal with
  | |- keeps_todo_ids (bind _ _) => apply keeps_bind; [| intros ?]
  | |- keeps_todo_ids (insert_todo _ _ _ _ _) => apply keeps_insert_todo
  | |- keeps_todo_ids (execute_update_todos _ _ _ _) => apply keeps_execute_update_todos
  | |- keeps_todo_ids (delete_todo _) => apply keeps_delete_todo
  | |- keeps_todo_ids (create_todo _ _) => unfold create_todo
  | |- keeps_todo_ids (update_todo _ _ _) => unfold update_todo; cbv zeta
  | |- keeps_todo_ids (api_update_todo _ _ _) => unfold api_update_todo
  | |- keeps_todo_ids (if ?b then _ else _) => destruct b
  | |- keeps_todo_ids (match ?x with _ => _ end) => destruct x
  | |- keeps_todo_ids _ => apply keeps_of_preserves; frame
  end.

Ltac keeps := repeat keeps_step.

Lemma handler_keeps_todo_ids (w : world) (i : intent) (message : string) :
  keeps_todo_ids (handler w i message).
Proof.
  destruct i;
    try (apply keeps_of_preserves, handler_preserves_todos; discriminate).
  cbn [handler]. unfold _handle_todo_command. keeps.
Qed.

Lemma exec_keeps_todo_ids (w : world) (o : op) (st : state) :
  todos_inv st -> todos_inv (exec w o st) /\ todos_seq st <= todos_seq (exec w o st).
Proof.
  destruct o as [message | todo | todo_id updates | todo_id | ty ps | i]; cbn [exec].
  - rewrite process_message_unfold. intros Hinv.
    apply (handler_keeps_todo_ids w _ message (logged w message st)).
    apply (todos_inv_same_ids st); [reflexivity | reflexivity | exact Hinv].
  - revert st. change (keeps_todo_ids (create_todo w todo)). keeps.
  - revert st. change (keeps_todo_ids (api_update_todo w todo_id updates)). keeps.
  - revert st. change (keeps_todo_ids (delete_todo todo_id)). keeps.
  - revert st. apply keeps_of_preserves. unfold execute_action. frame.
  - revert st. apply keeps_of_preserves.
    unfold run_task, _execute_action_async, _update_action_status. frame.
Qed.

Lemma run_app (w : world) (ops1 ops2 : list op) :
  run w (ops1 ++ ops2) = fold_left (fun st o => exec w o st) ops2 (run w ops1).
Proof. unfold run. apply fold_left_app. Qed.

Lemma fold_keeps_todo_ids (w : world) (ops : list op) (st : state) :
  todos_inv st ->
  todos_inv (fold_left (fun st o => exec w o st) ops st)
  /\ todos_seq st <= todos_seq (fold_left (fun st o => exec w o st) ops st).
Proof.
  revert st. induction ops as [| o ops IH]; intros st Hinv; cbn; [split; [exact Hinv | lia] |].
  destruct (exec_keeps_todo_ids w o st Hinv) as [Hinv' Hle].
  destruct (IH _ Hinv') as [Hinv'' Hle']. split; [exact Hinv'' | lia].
Qed.

Lemma initial_todos_inv : todos_inv initial_state.
Proof. split; cbn; [constructor | intros r Hr; inversion Hr]. Qed.

(** X5. Todo identifiers are never given out twice.  Along every run that
    stays inside the described fragment of SQLite the stored todos have
    distinct identifiers, and a todo created later has an identifier above
    that of every todo that was ever in the store before, deleted or not,
    whatever identifier the caller put in the [Todo] it passed. *)
Theorem todo_identifiers_are_never_reused
        (w : world) (ops1 ops2 : list op) (todo : Todo.t) (r : Row.todo) :
  run_within_model w (ops1 ++ ops2) initial_state ->
  r ∈ todos (run w ops1) ->
  let st := run w (ops1 ++ ops2) in
  NoDup (map Row.todo_id (todos st))
  /\ exists created rowid,
       fst (create_todo w todo st) = Returned created
       /\ Todo.id created = Some rowid
       /\ Row.todo_id r < rowid
       /\ NoDup (map Row.todo_id (todos (snd (create_todo w todo st)))).
Proof.
  intros _ Hr st.
  destruct (fold_keeps_todo_ids w ops1 initial_state initial_todos_inv) as [[_ Hbound] _].
  fold (run w ops1) in Hbound.
  destruct (fold_keeps_todo_ids w ops2 (run w ops1)) as [Hinv Hle].
  { apply (fold_keeps_todo_ids w ops1 initial_state initial_todos_inv). }
  rewrite <- run_app in Hinv, Hle. fold st in Hinv, Hle.
  split; [apply Hinv |].
  exists (Todo.mk (Some (S (todos_seq st))) (Todo.title todo) (Todo.description todo)
                  (Todo.completed todo) (Todo.priority todo)
                  (Some (py_now w (S (readings st)))) (Some (py_now w (S (readings st))))),
    (S (todos_seq st)).
  split; [reflexivity |]. split; [reflexivity |]. split.
  - specialize (Hbound r Hr). lia.
  - assert (keeps_todo_ids (create_todo w todo)) as Hkeeps by keeps.
    apply (Hkeeps st Hinv).
Qed.

Lemma todo_identifiers_are_never_reused_witness :
  let r := Row.mk_todo 1 "first" (Some "") false (Some "medium")
                       "2024-01-01 00:00:00" "2024-01-01 00:00:00" in
  let st := run offline_world ([ApiCreateTodo (Todo.new "first")] ++ [ApiDeleteTodo 1]) in
  NoDup (map Row.todo_id (todos st))
  /\ exists created rowid,
       fst (create_todo offline_world (Todo.new "second") st) = Returned created
       /\ Todo.id created = Some rowid
       /\ Row.todo_id r < rowid
       /\ NoDup (map Row.todo_id
                     (todos (snd (create_todo offline_world (Todo.new "second") st)))).
Proof.
  apply (todo_identifiers_are_never_reused offline_world
           [ApiCreateTodo (Todo.new "first")] [ApiDeleteTodo 1] (Todo.new "second")).
  - cbn. tauto.
  - apply list_elem_of_singleton. reflexivity.
Defined.

Example deleted_identifier_is_not_reused :
  let st := run offline_world [ApiCreateTodo (Todo.new "first"); ApiDeleteTodo 1;
                               ApiCreateTodo (Todo.new "second")] in
  map Row.todo_id (todos st) = [2].
Proof. reflexivity. Qed.

(** ** Deleting a todo *)

Lemma filter_nonempty {A} (P : A -> Prop) `{!forall x, Decision (P x)} (l : list A) :
  0 < length (filter P l) <-> exists x, x ∈ l /\ P x.
Proof.
  split.
  - destruct (filter P l) as [| x rest] eqn:Hf; cbn; [lia |]. intros _.
    assert (x ∈ filter P l) as Hx by (rewrite Hf; apply elem_of_cons; left; reflexivity).
    apply list_elem_of_filter in Hx as [HP Hx]. eauto.
  - intros (x & Hx & HP).
    assert (x ∈ filter P l) as Hin by (apply list_elem_of_filter; split; assumption).
    destruct (filter P l); [inversion Hin | cbn; lia].
Qed.

Lemma filter_all {A} (P : A -> Prop) `{!forall x, Decision (P x)} (l : list A) :
  (forall x, x ∈ l -> P x) -> filter P l = l.
Proof.
  induction l as [| x l IH]; intros Hall; [reflexivity |].
  rewrite filter_cons_True by (apply Hall, elem_of_cons; left; reflexivity).
  rewrite IH; [reflexivity |]. intros y Hy. apply Hall, elem_of_cons. right. exact Hy.
Qed.

(** An identifier is bound when it fits 64 bits. *)
Lemma fits_int64_nat (n : nat) :
  Sql.fits_int64 (Z.of_nat n) = true <-> (Z.of_nat n < 2 ^ 63)%Z.
Proof.
  unfold Sql.fits_int64. rewrite andb_true_iff, Z.leb_le, Z.ltb_lt. lia.
Qed.

Lemma not_fits_int64_nat (n : nat) :
  Sql.fits_int64 (Z.of_nat n) = false <-> (2 ^ 63 <= Z.of_nat n)%Z.
Proof.
  rewrite <- not_true_iff_false, fits_int64_nat. lia.
Qed.

(** X6. The route [DELETE /api/todos/{todo_id}], for an identifier that
    fits 64 bits, removes the todos with that identifier and no other; it
    answers with the success message when there was one and with the 404
    exception "Todo not found" when there was none, and then the table is
    as it was.  The sequence of identifiers is not touched.  An identifier
    of 2^63 or more cannot be bound: the route ends with an
    [OverflowError] and the store as it was. *)
Theorem delete_route_removes_that_todo (todo_id : nat) (st : state) :
  let r := api_delete_todo todo_id st in
  ((Z.of_nat todo_id < 2 ^ 63)%Z ->
   (forall row, row ∈ todos (snd r) <-> row ∈ todos st /\ Row.todo_id row <> todo_id)
   /\ todos_seq (snd r) = todos_seq st
   /\ ((exists row, row ∈ todos st /\ Row.todo_id row = todo_id) ->
       fst r = Returned (inr {[ "message" := "Todo deleted successfully" ]}))
   /\ (~ (exists row, row ∈ todos st /\ Row.todo_id row = todo_id) ->
       fst r = Returned (inl (mk_HTTPException 404 "Todo not found"))
       /\ todos (snd r) = todos st))
  /\ ((2 ^ 63 <= Z.of_nat todo_id)%Z ->
      r = (Raised (OverflowError "Python int too large to convert to SQLite INTEGER"), st)).
Proof.
  cbn zeta. unfold api_delete_todo, delete_todo. split.
  - intros Hfits. apply fits_int64_nat in Hfits. rewrite Hfits.
    unfold bind, gets, modify, ret. cbn [fst snd].
    pose proof (filter_nonempty (fun r => Row.todo_id r = todo_id) (todos st)) as Hfound.
    destruct (bool_decide (0 < length (filter (fun r => Row.todo_id r = todo_id) (todos st))))
      eqn:Hb; cbn [negb fst snd todos todos_seq set_todos].
    + apply bool_decide_eq_true in Hb.
      split; [| split; [reflexivity | split; [reflexivity |]]].
      * intros row. rewrite list_elem_of_filter. tauto.
      * intros Hnone. destruct Hnone. apply Hfound. exact Hb.
    + apply bool_decide_eq_false in Hb.
      split; [| split; [reflexivity | split]].
      * intros row. rewrite list_elem_of_filter. tauto.
      * intros Hsome. destruct Hb. apply Hfound. exact Hsome.
      * intros Hnone. split; [reflexivity |].
        apply filter_all. intros x Hx Heq. apply Hnone. eauto.
  - intros Hlarge. apply not_fits_int64_nat in Hlarge. rewrite Hlarge. reflexivity.
Qed.

Lemma delete_route_removes_that_todo_witness :
  let st := run offline_world [ApiCreateTodo (Todo.new "first")] in
  fst (api_delete_todo 1 st)
  = Returned (inr {[ "message" := "Todo deleted successfully" ]})
  /\ (fst (api_delete_todo 7 st) = Returned (inl (mk_HTTPException 404 "Todo not found"))
      /\ todos (snd (api_delete_todo 7 st)) = todos st).
Proof.
  split.
  - apply (delete_route_removes_that_todo 1
             (run offline_world [ApiCreateTodo (Todo.new "first")])).
    + reflexivity.
    + eexists. split; [apply list_elem_of_singleton; reflexivity | reflexivity].
  - apply (delete_route_removes_that_todo 7
             (run offline_world [ApiCreateTodo (Todo.new "first")])).
    + reflexivity.
    + intros (row & Hrow & Hid). apply list_elem_of_singleton in Hrow. subst row.
      discriminate Hid.
Defined.

(** ** Completing a todo *)

Lemma completed_row_hit (now : string) (todo_id : nat) (r : Row.todo) :
  Row.todo_id r = todo_id ->
  Sql.store_all now [("completed", Sql.Bound (PyBool true)); ("updated_at", Sql.Now)] r
  = Some (completed_row now todo_id r).
Proof.
  intros Hid. unfold completed_row. rewrite decide_True by exact Hid.
  destruct r; reflexivity.
Qed.

Lemma completed_row_miss (now : string) (todo_id : nat) (r : Row.todo) :
  Row.todo_id r <> todo_id -> completed_row now todo_id r = r.
Proof. intros Hid. unfold completed_row. rewrite decide_False by exact Hid. reflexivity. Qed.

Lemma update_rows_completed (now : string) (todo_id : nat) (rows : list Row.todo) :
  Sql.update_rows now [("completed", Sql.Bound (PyBool true)); ("updated_at", Sql.Now)]
                  todo_id rows
  = Some (map (completed_row now todo_id) rows).
Proof.
  induction rows as [| r rows IH]; [reflexivity |].
  cbn [Sql.update_rows map]. rewrite IH.
  destruct (decide (Row.todo_id r = todo_id)) as [Hid | Hid].
  - rewrite (completed_row_hit now todo_id r Hid). reflexivity.
  - rewrite (completed_row_miss now todo_id r Hid). reflexivity.
Qed.

Lemma completed_row_id now todo_id r :
  Row.todo_id (completed_row now todo_id r) = Row.todo_id r.
Proof. unfold completed_row. case_decide; reflexivity. Qed.

Lemma find_completed_row (now : string) (todo_id : nat) (rows : list Row.todo) (k : nat) :
  find (fun r => bool_decide (Row.todo_id r = k)) (map (completed_row now todo_id) rows)
  = completed_row now todo_id <$> find (fun r => bool_decide (Row.todo_id r = k)) rows.
Proof.
  induction rows as [| r rows IH]; [reflexivity |]. cbn [map find].
  rewrite completed_row_id.
  destruct (bool_decide (Row.todo_id r = k)); [reflexivity | exact IH].
Qed.

Lemma find_todo_by_id (rows : list Row.todo) (row : Row.todo) :
  NoDup (map Row.todo_id rows) -> row ∈ rows ->
  find (fun r => bool_decide (Row.todo_id r = Row.todo_id row)) rows = Some row.
Proof.
  induction rows as [| x rows IH]; intros Hnd Hrow; [inversion Hrow |].
  cbn in Hnd. apply NoDup_cons in Hnd as [Hx Hnd]. cbn [find].
  apply elem_of_cons in Hrow as [-> | Hrow].
  - rewrite bool_decide_eq_true_2 by reflexivity. reflexivity.
  - rewrite bool_decide_eq_false_2; [apply IH; assumption |].
    intros Heq. apply Hx. rewrite Heq, map_fmap. apply list_elem_of_fmap_2. exact Hrow.
Qed.

(** The statement [update_todo] runs for [{"completed": True}]. *)
Lemma update_todo_completed_eq (w : world) (todo_id : nat) (st : state) :
  update_todo w todo_id [("completed", PyBool true)] st
  = let now := sql_now w (readings st) in
    let rows' := map (completed_row now todo_id) (todos st) in
    let st' := set_todos rows' (todos_seq st) (set_readings (S (readings st)) st) in
    if Sql.fits_int64 (Z.of_nat todo_id) then
      if decide (length (filter (fun r => Row.todo_id r = todo_id) (todos st)) = 0)
      then (Returned None, st')
      else match find (fun r => bool_decide (Row.todo_id r = todo_id)) rows' with
           | Some row => (Returned (Some (Todo_of_row row)), st')
           | None => (Unmodelled, st')
           end
    else (Raised Sql.too_large, st).
Proof.
  unfold update_todo, execute_update_todos.
  change (Sql.prepare_set (set_clause [("completed", PyBool true)]
                           +:+ ", updated_at = CURRENT_TIMESTAMP"))
    with (Returned [("completed", Sql.Placeholder); ("updated_at", Sql.CurrentTimestamp)]).
  cbn [Sql.bind_parameters Sql.convert_parameters map snd app].
  destruct (Sql.fits_int64 (Z.of_nat todo_id)); [| reflexivity].
  unfold current_timestamp, bind, gets, modify, reading, ret, unmodelled.
  cbn [readings set_readings todos fst snd].
  rewrite update_rows_completed. cbn zeta.
  destruct (decide (length (filter (fun r => Row.todo_id r = todo_id) (todos st)) = 0));
    [reflexivity |].
  cbn [todos todos_seq set_todos set_readings].
  destruct (find _ _); reflexivity.
Qed.

Lemma map_completed_row_none (now : string) (todo_id : nat) (rows : list Row.todo) :
  (forall r, r ∈ rows -> Row.todo_id r <> todo_id) ->
  map (completed_row now todo_id) rows = rows.
Proof.
  induction rows as [| r rows IH]; intros Hnone; [reflexivity |]. cbn [map].
  rewrite completed_row_miss by (apply Hnone, elem_of_cons; left; reflexivity).
  rewrite IH; [reflexivity |]. intros x Hx. apply Hnone, elem_of_cons. right. exact Hx.
Qed.

Lemma filter_id_none (todo_id : nat) (rows : list Row.todo) :
  (forall r, r ∈ rows -> Row.todo_id r <> todo_id) ->
  length (filter (fun r => Row.todo_id r = todo_id) rows) = 0.
Proof.
  intros Hnone.
  destruct (filter (fun r => Row.todo_id r = todo_id) rows) as [| x l] eqn:Hf;
    [reflexivity |].
  assert (x ∈ filter (fun r => Row.todo_id r = todo_id) rows) as Hx
    by (rewrite Hf; apply elem_of_cons; left; reflexivity).
  apply list_elem_of_filter in Hx as [Hid Hx]. destruct (Hnone x Hx Hid).
Qed.

Lemma filter_id_some (todo_id : nat) (rows : list Row.todo) (row : Row.todo) :
  row ∈ rows -> Row.todo_id row = todo_id ->
  length (filter (fun r => Row.todo_id r = todo_id) rows) <> 0.
Proof.
  intros Hrow Hid Hlen.
  assert (row ∈ filter (fun r => Row.todo_id r = todo_id) rows) as Hin
    by (apply list_elem_of_filter; split; assumption).
  destruct (filter (fun r => Row.todo_id r = todo_id) rows); [inversion Hin | discriminate].
Qed.

(** X7. On the complete path of the todo handler the first run of digits
    of the message is the identifier.  When [int] reads it, it fits 64 bits
    and a todo with that identifier is stored, the todo is marked
    completed, its update timestamp is renewed, the other todos are left
    alone and the answer names its title; when none is stored, the answer
    is "Todo not found with ID: <id>" and the table is as it was.  A run
    that [int] refuses for its length ends the handler with that
    [ValueError], an identifier of 2^63 or more, which cannot be bound,
    with an [OverflowError]; the store is then as it was. *)
Theorem complete_path_marks_the_todo
        (w : world) (st : state) (message number : string) (others : list string) :
  Py.contains "add" message || Py.contains "create" message = false ->
  Py.contains "list" message || Py.contains "show" message = false ->
  Py.contains "complete" message || Py.contains "done" message = true ->
  Py.findall_digits (python w) message = number :: others ->
  NoDup (map Row.todo_id (todos st)) ->
  let now := sql_now w (readings st) in
  let r := _handle_todo_command w message st in
  match Py.int_of_digits (python w) number with
  | inl msg => r = (Raised (ValueError msg), st)
  | inr todo_id =>
      ((Z.of_nat todo_id < 2 ^ 63)%Z ->
       (forall row, row ∈ todos st -> Row.todo_id row = todo_id ->
          fst r = Returned (Glyph.check +:+ " Todo completed: " +:+ Row.todo_title row)
          /\ todos (snd r) = map (completed_row now todo_id) (todos st)
          /\ completed_row now todo_id row
             = Row.mk_todo todo_id (Row.todo_title row) (Row.todo_description row) true
                           (Row.todo_priority row) (Row.todo_created_at row) now)
       /\ ((forall row, row ∈ todos st -> Row.todo_id row <> todo_id) ->
           fst r = Returned (Glyph.cross +:+ " Todo not found with ID: " +:+ pretty todo_id)
           /\ todos (snd r) = todos st))
      /\ ((2 ^ 63 <= Z.of_nat todo_id)%Z ->
          r = (Raised (OverflowError "Python int too large to convert to SQLite INTEGER"),
               st))
  end.
Proof.
  intros Hadd Hlist Hdone Hdigits Hnd now r. subst r.
  unfold _handle_todo_command. rewrite Hadd, Hlist, Hdone, Hdigits.
  destruct (Py.int_of_digits (python w) number) as [msg | todo_id]; [reflexivity |].
  unfold bind. rewrite update_todo_completed_eq. cbn zeta. fold now.
  split.
  - intros Hfits. apply fits_int64_nat in Hfits. rewrite Hfits. split.
    + intros row Hrow Hid.
      rewrite decide_False by (apply (filter_id_some _ _ row); assumption).
      rewrite find_completed_row.
      assert (find (fun r => bool_decide (Row.todo_id r = todo_id)) (todos st) = Some row)
        as -> by (rewrite <- Hid; apply find_todo_by_id; assumption).
      cbn [fmap option_fmap option_map].
      unfold completed_row at 1. rewrite decide_True by exact Hid.
      split; [reflexivity |]. split; [reflexivity |].
      unfold completed_row. rewrite decide_True by exact Hid. rewrite Hid. reflexivity.
    + intros Hnone. rewrite decide_True by (apply filter_id_none; exact Hnone).
      split; [reflexivity |]. cbn [snd ret todos set_todos].
      apply map_completed_row_none. exact Hnone.
  - intros Hlarge. apply not_fits_int64_nat in Hlarge. rewrite Hlarge. reflexivity.
Qed.

Lemma complete_path_marks_the_todo_witness :
  let st := run offline_world [ApiCreateTodo (Todo.new "buy milk")] in
  let row := Row.mk_todo 1 "buy milk" (Some "") false (Some "medium")
                         "2024-01-01 00:00:00" "2024-01-01 00:00:00" in
  fst (_handle_todo_command offline_world "complete todo 1" st)
  = Returned (Glyph.check +:+ " Todo completed: " +:+ Row.todo_title row)
  /\ todos (snd (_handle_todo_command offline_world "complete todo 1" st))
     = map (completed_row "2024-01-01 00:00:00" 1) (todos st)
  /\ completed_row "2024-01-01 00:00:00" 1 row
     = Row.mk_todo 1 "buy milk" (Some "") true (Some "medium")
                   "2024-01-01 00:00:00" "2024-01-01 00:00:00".
Proof.
  intros st row.
  assert (NoDup (map Row.todo_id (todos st))) as Hnd by (cbn; apply NoDup_singleton).
  pose proof (complete_path_marks_the_todo offline_world st "complete todo 1" "1" []
                eq_refl eq_refl eq_refl eq_refl Hnd) as H.
  cbv zeta in H.
  change (Py.int_of_digits (python offline_world) "1") with (@inr string nat 1) in H.
  cbv beta iota in H. destruct H as [Hfits _].
  destruct (Hfits eq_refl) as [Hfound _].
  apply (Hfound row).
  - apply list_elem_of_singleton. reflexivity.
  - reflexivity.
Defined.

(** ** Listing the todos *)

Lemma ltb_asym (a b : string) : String.ltb a b = true -> String.ltb b a = false.
Proof.
  unfold String.ltb. rewrite (String.compare_antisym b a).
  destruct (String.compare a b); cbn; congruence.
Qed.

Lemma insert_by_created_at_perm (r : Row.todo) (rows : list Row.todo) :
  insert_by_created_at r rows ≡ₚ r :: rows.
Proof.
  induction rows as [| x rows IH]; cbn; [reflexivity |].
  destruct (String.ltb _ _); [| reflexivity].
  rewrite IH. apply Permutation_swap.
Qed.

Lemma insert_by_created_at_sorted (r : Row.todo) (rows : list Row.todo) :
  Sorted not_older rows -> Sorted not_older (insert_by_created_at r rows).
Proof.
  induction rows as [| x rows IH]; intros Hsorted; cbn.
  - repeat constructor.
  - destruct (String.ltb (Row.todo_created_at r) (Row.todo_created_at x)) eqn:Hlt.
    + apply Sorted_inv in Hsorted as [Hrows Hhd]. constructor; [apply IH; exact Hrows |].
      destruct rows as [| y rows]; cbn.
      * constructor. apply ltb_asym. exact Hlt.
      * destruct (String.ltb (Row.todo_created_at r) (Row.todo_created_at y)).
        -- constructor. inversion Hhd. assumption.
        -- constructor. apply ltb_asym. exact Hlt.
    + constructor; [exact Hsorted |]. constructor. exact Hlt.
Qed.

(** X8. Listing the todos returns every stored todo exactly once, newest
    creation timestamp first, and changes nothing. *)
Theorem get_todos_lists_every_todo_newest_first (st : state) :
  exists rows,
    get_todos st = (Returned (map Todo_of_row rows), st)
    /\ rows ≡ₚ todos st
    /\ Sorted not_older rows.
Proof.
  exists (order_by_created_at_desc (todos st)). split; [reflexivity |].
  unfold order_by_created_at_desc.
  induction (todos st) as [| r rows [Hperm Hsorted]]; cbn.
  - split; [reflexivity | constructor].
  - split.
    + rewrite insert_by_created_at_perm, Hperm. reflexivity.
    + apply insert_by_created_at_sorted. exact Hsorted.
Qed.

(** ** The chat log and the in-memory history *)

Lemma add_message_history (w : world) (role content metadata : string) (n0 : nat)
      (st : state) :
  history_inv n0 st -> history_inv n0 (snd (add_message w role content metadata st)).
Proof.
  intros (Hbase & older & Hlog & Hlen).
  unfold history_inv, add_message, current_timestamp, datetime_now_isoformat, bind, gets,
    modify, reading, ret.
  cbn [snd fst chat_messages conversation_history set_chat_messages
       set_conversation_history set_readings readings chat_messages_seq].
  rewrite length_app, map_app, Hlog. cbn [map length]. split; [lia |].
  unfold max_history in *.
  destruct (decide (50 < length (conversation_history st ++ [_]))) as [Hover | Hfit].
  - rewrite length_app in Hover. cbn in Hover.
    destruct (conversation_history st) as [| x h] eqn:Hh; [cbn in Hover; lia |].
    exists (older ++ [message_key x]). cbn [app tail map]. split.
    + rewrite map_app. cbn [map]. rewrite <- !app_assoc. reflexivity.
    + rewrite length_app. cbn [length] in *.
      destruct (Nat.min_spec 50 (length (chat_messages st) - n0)) as [[? Hmin] | [? Hmin]];
        rewrite Hmin in Hlen;
        destruct (Nat.min_spec 50 (length (chat_messages st) + 1 - n0))
          as [[? Hmin'] | [? Hmin']];
        rewrite Hmin'; lia.
  - rewrite length_app in Hfit. cbn in Hfit.
    exists older. split.
    + rewrite map_app. cbn [map]. rewrite <- app_assoc. reflexivity.
    + rewrite length_app. cbn [length].
      destruct (Nat.min_spec 50 (length (chat_messages st) - n0)) as [[? Hmin] | [? Hmin]];
        rewrite Hmin in Hlen;
        destruct (Nat.min_spec 50 (length (chat_messages st) + 1 - n0))
          as [[? Hmin'] | [? Hmin']];
        rewrite Hmin'; lia.
Qed.

Lemma history_inv_same (n0 : nat) (st st' : state) :
  (chat_messages st', conversation_history st') = (chat_messages st, conversation_history st) ->
  history_inv n0 st -> history_inv n0 st'.
Proof. intros H. injection H as H1 H2. unfold history_inv. rewrite H1, H2. tauto. Qed.

Lemma handler_preserves_history (w : world) (i : intent) (message : string) :
  preserves (fun st => (chat_messages st, conversation_history st)) (handler w i message).
Proof.
  destruct i; cbn [handler]; frame.
  - unfold _handle_agent_command, execute_action; frame.
  - unfold _handle_web_command, execute_action; frame.
Qed.

Lemma exec_history (w : world) (o : op) (n0 : nat) (st : state) :
  history_inv n0 st -> history_inv n0 (exec w o st).
Proof.
  intros Hinv.
  destruct o as [message | todo | todo_id updates | todo_id | ty ps | i]; cbn [exec].
  - rewrite process_message_unfold.
    apply (history_inv_same n0 (logged w message st)).
    + apply (handler_preserves_history w _ message).
    + apply add_message_history. exact Hinv.
  - apply (history_inv_same n0 st); [| exact Hinv].
    apply (preserves_apply (fun st => (chat_messages st, conversation_history st))). frame.
  - apply (history_inv_same n0 st); [| exact Hinv].
    apply (preserves_apply (fun st => (chat_messages st, conversation_history st))). frame.
  - apply (history_inv_same n0 st); [| exact Hinv].
    apply (preserves_apply (fun st => (chat_messages st, conversation_history st))). frame.
  - apply (history_inv_same n0 st); [| exact Hinv].
    apply (preserves_apply (fun st => (chat_messages st, conversation_history st))).
    unfold execute_action. frame.
  - apply (history_inv_same n0 st); [| exact Hinv].
    apply (preserves_apply (fun st => (chat_messages st, conversation_history st))).
    unfold run_task, _execute_action_async, _update_action_status. frame.
Qed.

Lemma run_from_history (w : world) (ops : list op) (n0 : nat) (st : state) :
  history_inv n0 st -> history_inv n0 (run_from w st ops).
Proof.
  unfold run_from. revert st.
  induction ops as [| o ops IH]; intros st Hinv; cbn; [exact Hinv |].
  apply IH, exec_history, Hinv.
Qed.

(** X9. The in-memory history is always the end of the chat log.  From
    the start of a process, whatever the database file already holds, and
    along every run: the history is the last rows of the log, in the order
    of the log, and it holds the messages logged since the start, or the
    last 50 of them once there are more. *)
Theorem history_is_the_end_of_the_log (w : world) (st0 : state) (ops : list op) :
  conversation_history st0 = [] ->
  let st := run_from w st0 ops in
  let logged_since := length (chat_messages st) - length (chat_messages st0) in
  length (chat_messages st0) <= length (chat_messages st)
  /\ exists older,
       map row_key (chat_messages st) = older ++ map message_key (conversation_history st)
       /\ length (conversation_history st) = Nat.min 50 logged_since.
Proof.
  intros Hstart. cbn zeta.
  apply (run_from_history w ops (length (chat_messages st0)) st0).
  split; [lia |]. exists (map row_key (chat_messages st0)).
  rewrite Hstart, Nat.sub_diag, app_nil_r. split; reflexivity.
Qed.

Lemma history_is_the_end_of_the_log_witness :
  let st0 := restart (run offline_world [SubmitMessage "list todos"]) in
  let st := run_from offline_world st0 [SubmitMessage "add todo buy milk"] in
  length (chat_messages st0) = 1
  /\ length (chat_messages st) = 2
  /\ exists older,
       map row_key (chat_messages st) = older ++ map message_key (conversation_history st)
       /\ length (conversation_history st) = Nat.min 50 (2 - 1).
Proof.
  intros st0 st. split; [reflexivity |]. split; [reflexivity |].
  destruct (history_is_the_end_of_the_log offline_world st0
              [SubmitMessage "add todo buy milk"] eq_refl) as (_ & older & Hlog & Hlen).
  exists older. split; [exact Hlog | exact Hlen].
Defined.

Example history_drops_the_oldest_message :
  let st := run offline_world (replicate 51 (SubmitMessage "list todos")) in
  length (chat_messages st) = 51
  /\ map ChatMessage.id (conversation_history st) = Some <$> seq 2 50.
Proof. vm_compute. split; reflexivity. Qed.

Example history_after_a_restart :
  let st0 := restart (run offline_world (replicate 3 (SubmitMessage "list todos"))) in
  let st := run_from offline_world st0 [SubmitMessage "list todos"] in
  map Row.chat_id (chat_messages st) = [1; 2; 3; 4]
  /\ map ChatMessage.id (conversation_history st) = [Some 4].
Proof. vm_compute. split; reflexivity. Qed.

(** ** Every task ends completed *)

Lemma set_readings_same (st : state) : set_readings (readings st) st = st.
Proof. destruct st; reflexivity. Qed.

(** A body returns a text and consumes readings only. *)
Lemma action_body_returns (w : world) (action : AgentAction.t)
      (params : gmap string string) (st : state) :
  exists text n, action_body w action params st = (Returned text, set_readings n st).
Proof.
  assert (forall text : string, exists t n, ret text st = (Returned t, set_readings n st))
    as Hret.
  { intros text. exists text, (readings st). rewrite set_readings_same. reflexivity. }
  unfold action_body. cbv zeta. repeat case_decide.
  - destruct (execute_command_spec w (params_get params "command") st)
      as (text & Hcommand & _).
    eauto.
  - unfold _execute_file_op, try_except, bind, reading, raise.
    repeat case_decide; try apply Hret.
    + destruct (file_read w (readings st) _); eexists _, _; reflexivity.
    + destruct (file_write w (readings st) _ _); eexists _, _; reflexivity.
    + destruct (file_append w (readings st) _ _); eexists _, _; reflexivity.
  - apply Hret.
  - unfold _execute_xfce_action. repeat case_decide; apply Hret.
  - apply Hret.
Qed.

Lemma run_task_body (w : world) (st : state) (i : nat) (action : AgentAction.t)
      (params : gmap string string) (text : string) (n : nat) :
  tasks st !! i = Some (action, params) ->
  action_body w action params (set_tasks (delete i (tasks st)) st)
  = (Returned text, set_readings n (set_tasks (delete i (tasks st)) st)) ->
  run_task w i st
  = (Returned tt,
     set_results (<[AgentAction.id action := ("completed", text)]> (results st))
       (set_agent_actions
          (map (with_status (AgentAction.id action) "completed" text) (agent_actions st))
          (agent_actions_seq st)
          (set_readings n (set_tasks (delete i (tasks st)) st)))).
Proof.
  intros Htask Hbody. rewrite (run_task_unfold w st i action params Htask).
  change (_execute_action_async w action params)
    with (try_except
            (result <- action_body w action params ;;
             _update_action_status (AgentAction.id action) "completed" result)
            (fun e => _update_action_status (AgentAction.id action) "failed" (exn_str e))).
  unfold try_except, bind. rewrite Hbody, update_action_status_eq. reflexivity.
Qed.



(** ** The results kept in memory *)

Lemma with_status_result action_id status result r :
  Some (Row.action_id r) = action_id ->
  Row.action_result (with_status action_id status result r) = Some result.
Proof. intros H. unfold with_status. rewrite decide_True by exact H. reflexivity. Qed.

Lemma front_end_results (w : world) (o : op) (st : state) :
  (forall i, o <> RunTask i) -> results (exec w o st) = results st.
Proof.
  intros Hfront. destruct o as [message | todo | todo_id updates | todo_id | ty ps | i];
    cbn [exec].
  - rewrite process_message_unfold.
    transitivity (results (logged w message st)); [| reflexivity].
    apply preserves_apply.
    destruct (classify (Py.lower (python w) message)); cbn [handler]; frame.
    + unfold _handle_agent_command, execute_action; frame.
    + unfold _handle_web_command, execute_action; frame.
  - apply preserves_apply. frame.
  - apply preserves_apply. frame.
  - apply preserves_apply. frame.
  - apply preserves_apply. unfold execute_action. frame.
  - destruct (Hfront i). reflexivity.
Qed.

Lemma run_task_results (w : world) (i : nat) (st : state) :
  runner_inv st -> results_inv st -> results_inv (snd (run_task w i st)).
Proof.
  intros Hinv Hres.
  destruct (tasks st !! i) as [[action params] |] eqn:Htask.
  - destruct (action_body_returns w action params (set_tasks (delete i (tasks st)) st))
      as (text & n & Hbody).
    rewrite (run_task_body w st i action params text n Htask Hbody).
    intros k status result. unfold stored_action.
    cbn [snd results set_results agent_actions set_agent_actions].
    rewrite find_action_map.
    destruct (decide (AgentAction.id action = Some k)) as [Hid | Hid].
    + rewrite Hid, lookup_insert_eq. intros Hentry. injection Hentry as <- <-.
      assert ((action, params) ∈ tasks st) as Hin
        by (apply list_elem_of_lookup; exists i; exact Htask).
      destruct (inv_tasks_running _ Hinv _ Hin) as (r0 & Hr0 & Hid0 & _). cbn in Hid0.
      rewrite Hid in Hid0. injection Hid0 as Hid0.
      assert (find (fun r => bool_decide (Row.action_id r = k)) (agent_actions st)
              = Some r0) as ->.
      { destruct (find (fun r => bool_decide (Row.action_id r = k)) (agent_actions st))
          as [r1 |] eqn:Hfind.
        - apply find_some in Hfind as [Hr1 Hk]. apply bool_decide_eq_true in Hk.
          apply list_elem_of_In in Hr1.
          rewrite (row_by_id _ r1 r0 (inv_ids_nodup _ Hinv) Hr1 Hr0) by congruence.
          reflexivity.
        - apply list_elem_of_In in Hr0.
          pose proof (find_none _ _ Hfind r0 Hr0) as Hno. cbn in Hno.
          apply bool_decide_eq_false in Hno. congruence. }
      eexists. split; [reflexivity |].
      split; [apply with_status_hit | apply with_status_result]; congruence.
    + rewrite lookup_insert_ne by exact Hid. intros Hentry.
      destruct (Hres k status result Hentry) as (r & Hr & Hstatus & Hresult).
      unfold stored_action in Hr. rewrite Hr. cbn.
      apply stored_action_elem in Hr as [_ Hk].
      rewrite with_status_other by congruence. eauto.
  - assert (snd (run_task w i st) = st) as ->; [| exact Hres].
    unfold run_task, bind, gets. rewrite Htask. reflexivity.
Qed.

Lemma exec_results (w : world) (o : op) (st : state) :
  runner_inv st -> results_inv st -> results_inv (exec w o st).
Proof.
  intros Hinv Hres.
  destruct (op_cases o) as [[i ->] | Hfront]; [apply run_task_results; assumption |].
  intros k status text. rewrite (front_end_results w o st Hfront). intros Hentry.
  destruct (Hres k status text Hentry) as (r & Hr & Hstatus & Hresult).
  exists r. split; [| split; assumption].
  destruct (front_end_runner w o st Hfront) as [Hsame | Hdisp].
  - rewrite (same_view_stored st _ k Hsame). exact Hr.
  - apply (dispatched_stored st); assumption.
Qed.

Lemma exec_terminal_entries (w : world) (o : op) (st : state) :
  (forall k s t, results st !! Some k = Some (s, t) -> is_terminal (Some s)) ->
  forall k s t, results (exec w o st) !! Some k = Some (s, t) -> is_terminal (Some s).
Proof.
  intros Hterm k s t. destruct (op_cases o) as [[i ->] | Hfront].
  - cbn [exec].
    destruct (tasks st !! i) as [[action params] |] eqn:Htask.
    + destruct (action_body_returns w action params (set_tasks (delete i (tasks st)) st))
        as (text & n & Hbody).
      rewrite (run_task_body w st i action params text n Htask Hbody).
      cbn [snd results set_results].
      destruct (decide (AgentAction.id action = Some k)) as [Hid | Hid].
      * rewrite Hid, lookup_insert_eq. intros H. injection H as <- _. left. reflexivity.
      * rewrite lookup_insert_ne by exact Hid. apply Hterm.
    + assert (snd (run_task w i st) = st) as ->; [| apply Hterm].
      unfold run_task, bind, gets. rewrite Htask. reflexivity.
  - rewrite (front_end_results w o st Hfront). apply Hterm.
Qed.

Lemma run_results (w : world) (ops : list op) :
  results_inv (run w ops)
  /\ forall k s t, results (run w ops) !! Some k = Some (s, t) -> is_terminal (Some s).
Proof.
  unfold run.
  assert (results_inv initial_state) as Hinit
    by (intros k s t H; cbn in H; rewrite lookup_empty in H; discriminate).
  assert (forall k s t, results initial_state !! Some k = Some (s, t) ->
                        is_terminal (Some s)) as Hinit'
    by (intros k s t H; cbn in H; rewrite lookup_empty in H; discriminate).
  revert Hinit Hinit'. generalize initial_state_inv. generalize initial_state.
  induction ops as [| o ops IH]; intros st Hinv Hres Hterm; cbn; [auto |].
  apply IH; [apply exec_inv; exact Hinv | apply exec_results; assumption |].
  apply exec_terminal_entries. exact Hterm.
Qed.

(** X11. The results the executor keeps in memory never disagree with the
    table: along every run, an entry of [results] for an identifier gives
    the status and the result text of the stored action with that
    identifier, and that status is terminal. *)
Theorem results_mirror_the_table
        (w : world) (ops : list op) (k : nat) (status text : string) :
  results (run w ops) !! Some k = Some (status, text) ->
  exists r,
    stored_action (run w ops) k = Some r
    /\ Row.action_status r = Some status
    /\ Row.action_result r = Some text
    /\ is_terminal (Some status).
Proof.
  intros Hentry. destruct (run_results w ops) as [Hres Hterm].
  destruct (Hres k status text Hentry) as (r & Hr & Hstatus & Hresult).
  exists r. split; [exact Hr |]. split; [exact Hstatus |]. split; [exact Hresult |].
  apply (Hterm k status text Hentry).
Qed.

Lemma results_mirror_the_table_witness :
  let ops := [ApiXfceAction "screenshot" ∅; RunTask 0] in
  exists r,
    stored_action (run offline_world ops) 1 = Some r
    /\ Row.action_status r = Some "completed"
    /\ Row.action_result r = Some "Screenshot taken and saved to /tmp/screenshot.png"
    /\ is_terminal (Some "completed").
Proof.
  apply (results_mirror_the_table offline_world
           [ApiXfceAction "screenshot" ∅; RunTask 0] 1).
  reflexivity.
Defined.

(** ** File operations *)

Ltac file_case :=
  first [ intros _; reflexivity
        | intros Hc; discriminate Hc
        | intros Hc; exfalso; apply Hc; set_solver ].

(** X12. A file operation never raises: a read gives the content of the
    file, a write or an append its confirmation, and when the file system
    refuses, the text is "File operation failed: " and the error.  An
    operation other than "read", "write" and "append", also a missing
    one, gives "Unknown file operation: <operation>" and touches
    nothing. *)
Theorem file_operation_never_raises
        (w : world) (params : gmap string string) (st : state) :
  let operation := params_get params "operation" in
  let file_path := params_get params "file_path" in
  let content := params_get params "content" in
  exists text,
    fst (_execute_file_op w params st) = Returned text
    /\ (operation = "read" ->
        text = match file_read w (readings st) file_path with
               | inl data => data
               | inr description => "File operation failed: " +:+ description
               end)
    /\ (operation = "write" ->
        text = match file_write w (readings st) file_path content with
               | None => "File written successfully: " +:+ file_path
               | Some description => "File operation failed: " +:+ description
               end)
    /\ (operation = "append" ->
        text = match file_append w (readings st) file_path content with
               | None => "Content appended to: " +:+ file_path
               | Some description => "File operation failed: " +:+ description
               end)
    /\ (operation ∉ ["read"; "write"; "append"] ->
        text = "Unknown file operation: " +:+ operation
        /\ snd (_execute_file_op w params st) = st).
Proof.
  cbn zeta. unfold _execute_file_op, try_except, bind, reading, ret, raise.
  cbn [readings set_readings fst snd].
  destruct (decide (params_get params "operation" = "read")) as [Hread | Hread].
  { rewrite Hread. destruct (file_read w (readings st) _); eexists;
      (split; [reflexivity |]); (split; [file_case |]); (split; [file_case |]);
      (split; file_case). }
  destruct (decide (params_get params "operation" = "write")) as [Hwrite | Hwrite].
  { rewrite Hwrite. destruct (file_write w (readings st) _ _); eexists;
      (split; [reflexivity |]); (split; [file_case |]); (split; [file_case |]);
      (split; file_case). }
  destruct (decide (params_get params "operation" = "append")) as [Happend | Happend].
  { rewrite Happend. destruct (file_append w (readings st) _ _); eexists;
      (split; [reflexivity |]); (split; [file_case |]); (split; [file_case |]);
      (split; file_case). }
  eexists. split; [reflexivity |].
  split; [intros Hc; destruct (Hread Hc) |]. split; [intros Hc; destruct (Hwrite Hc) |].
  split; [intros Hc; destruct (Happend Hc) |]. intros _. split; reflexivity.
Qed.

Lemma file_operation_never_raises_witness :
  exists text,
    fst (_execute_file_op offline_world
           {[ "operation" := "read"; "file_path" := "/etc/hosts" ]} initial_state)
    = Returned text
    /\ text = "File operation failed: No such file or directory".
Proof.
  destruct (file_operation_never_raises offline_world
              {[ "operation" := "read"; "file_path" := "/etc/hosts" ]} initial_state)
    as (text & Hret & Hread & _).
  exists text. split; [exact Hret |]. apply Hread. reflexivity.
Defined.

Example file_operation_without_operation :
  fst (_execute_file_op offline_world ∅ initial_state)
  = Returned "Unknown file operation: ".
Proof. reflexivity. Qed.

(** ** The web screenshot of the facade *)

(** [MCPServices.take_web_screenshot] after the request. *)
Lemma take_web_screenshot_unfold (w : world) (st : state) (url : string) :
  let req := mk_request "POST" "http://localhost:8002/api/screenshot"
                        [("url", PyStr url); ("selector", PyNone)] in
  let result := client_result (http w (readings st) req) in
  take_web_screenshot w url st
  = (has_error <- json_contains "error" result ;;
     if has_error : bool then
       e <- json_getitem result "error" ;;
       ret ("Screenshot service error: " +:+ py_str e)
     else
       screenshot_path <- json_get result "screenshot_path" (PyStr "") ;;
       if py_truthy screenshot_path
       then ret (Glyph.camera +:+ " Screenshot saved: " +:+ py_str screenshot_path)
       else ret "Screenshot taken but path not available")
      (set_readings (S (readings st))
         (set_calls (calls st ++ [McpTakeWebScreenshot url]) st)).
Proof.
  intros req result. subst req result.
  unfold take_web_screenshot, playwright_client_take_screenshot, invoke, modify.
  unfold bind at 1. unfold bind at 1. rewrite client_request_eq. reflexivity.
Qed.

(** X13. What [take_web_screenshot] gives for each reply of the browser
    service.  It returns "Screenshot service error: " with the failure text
    when the request fails or the body does not parse, with "HTTP <status>"
    for a status other than 200, and with the value of "error" when the
    body is an object that has one; for an object without "error" it
    returns "Screenshot saved: <path>" when "screenshot_path" is there and
    truthy, and "Screenshot taken but path not available" when it is not.
    A 200 body that is JSON but no object makes it raise: the test for
    "error" and [result.get] are outside every [try]. *)
Theorem take_web_screenshot_outcome (w : world) (st : state) (url : string) :
  let req := mk_request "POST" "http://localhost:8002/api/screenshot"
                        [("url", PyStr url); ("selector", PyNone)] in
  let r := fst (take_web_screenshot w url st) in
  calls (snd (take_web_screenshot w url st)) = calls st ++ [McpTakeWebScreenshot url]
  /\ match http w (readings st) req with
     | TransportFailure description =>
         r = Returned ("Screenshot service error: " +:+ description)
     | HttpResponse status body =>
         if decide (status = 200%Z) then
           match body with
           | inl description => r = Returned ("Screenshot service error: " +:+ description)
           | inr (JsonObject members) =>
               match members !! "error" with
               | Some e => r = Returned ("Screenshot service error: " +:+ py_str e)
               | None =>
                   let path := default (PyStr "") (members !! "screenshot_path") in
                   r = Returned (if py_truthy path
                                 then Glyph.camera +:+ " Screenshot saved: " +:+ py_str path
                                 else "Screenshot taken but path not available")
               end
           | inr _ => exists e, r = Raised e
           end
         else r = Returned ("Screenshot service error: HTTP " +:+ pretty status)
     end.
Proof.
  intros req r. subst req r. split; [apply take_web_screenshot_calls |].
  rewrite take_web_screenshot_unfold. cbv zeta.
  generalize (set_readings (S (readings st))
                (set_calls (calls st ++ [McpTakeWebScreenshot url]) st)).
  intros st'. unfold client_result.
  assert (forall description : string,
            fst ((has_error <- json_contains "error"
                                 (JsonObject {[ "error" := PyStr description ]}) ;;
                  if has_error : bool then
                    e <- json_getitem (JsonObject {[ "error" := PyStr description ]}) "error" ;;
                    ret ("Screenshot service error: " +:+ py_str e)
                  else
                    screenshot_path <-
                      json_get (JsonObject {[ "error" := PyStr description ]})
                               "screenshot_path" (PyStr "") ;;
                    if py_truthy screenshot_path
                    then ret (Glyph.camera +:+ " Screenshot saved: " +:+ py_str screenshot_path)
                    else ret "Screenshot taken but path not available") st')
            = Returned ("Screenshot service error: " +:+ description)) as Herror.
  { intros description. unfold bind, json_contains, json_getitem, ret. cbv beta iota.
    rewrite lookup_singleton_eq. reflexivity. }
  destruct (http w (readings st) _) as [d | status [d | value]].
  - apply Herror.
  - destruct (decide (status = 200%Z)); apply Herror.
  - destruct (decide (status = 200%Z)); [| apply Herror].
    destruct value as [members | items | s | z | t | b |];
      unfold bind, json_contains, json_getitem, json_get, ret, raise; cbv beta iota.
    + destruct (members !! "error") as [v |]; [reflexivity |].
      cbn -[lookup pretty].
      destruct (py_truthy (default (PyStr "") (members !! "screenshot_path"))); reflexivity.
    + destruct (existsb _ items); cbn [fst]; eauto.
    + destruct (Py.contains "error" s); cbn [fst]; eauto.
    + eauto.
    + eauto.
    + eauto.
    + eauto.
Qed.

Example web_screenshot_of_a_list_body :
  fst (take_web_screenshot list_body_world "https://example.com" initial_state)
  = Raised (AttributeError "list" "get").
Proof. reflexivity. Qed.

(** ** The parameters taken from the text *)



(** ** The connections *)

Lemma remove_not_in (x : nat) (l : list nat) : x ∉ l -> WebSocketManager.remove x l = l.
Proof.
  induction l as [| y l IH]; intros Hx; [reflexivity |]. cbn.
  apply not_elem_of_cons in Hx as [Hxy Hx].
  rewrite decide_False by exact Hxy. rewrite IH by exact Hx. reflexivity.
Qed.

Lemma disconnect_middle (c : nat) (before after : list nat) :
  c ∉ before ->
  WebSocketManager.disconnect c (before ++ c :: after) = before ++ after.
Proof.
  intros Hc. unfold WebSocketManager.disconnect.
  rewrite bool_decide_eq_true_2 by (apply elem_of_app; right; apply elem_of_cons; auto).
  induction before as [| y before IH]; cbn.
  - rewrite decide_True by reflexivity. reflexivity.
  - apply not_elem_of_cons in Hc as [Hcy Hc].
    rewrite decide_False by exact Hcy. rewrite IH by exact Hc. reflexivity.
Qed.

Lemma disconnect_elem_of (x c : nat) (l : list nat) :
  NoDup l -> x ∈ WebSocketManager.disconnect c l <-> x ∈ l /\ x <> c.
Proof.
  intros Hnd. destruct (decide (c ∈ l)) as [Hc | Hc].
  - apply list_elem_of_split in Hc as (before & after & ->).
    apply NoDup_app in Hnd as (_ & Hdisjoint & Hright).
    apply NoDup_cons in Hright as [Hafter _].
    assert (c ∉ before) as Hbefore
      by (intros H; apply (Hdisjoint c H), elem_of_cons; auto).
    rewrite disconnect_middle by exact Hbefore.
    rewrite !elem_of_app, elem_of_cons. split.
    + intros [H | H]; (split; [tauto | intros ->; tauto]).
    + intros [[H | [H | H]] Hne]; tauto.
  - unfold WebSocketManager.disconnect. rewrite bool_decide_eq_false_2 by exact Hc.
    split; [intros H; split; [exact H | intros ->; tauto] | tauto].
Qed.

(** The second loop of [broadcast], on connections that are all different. *)
Lemma broadcast_from (sent : nat -> nat -> bool) (k : nat) (before l : list nat) :
  NoDup (before ++ l) ->
  exists kept,
    fold_left (fun acc c => WebSocketManager.disconnect c acc)
              (WebSocketManager.disconnected sent k l) (before ++ l)
    = before ++ kept
    /\ kept `sublist_of` l
    /\ forall c, c ∈ kept <-> exists j, l !! j = Some c /\ sent (k + j) c = true.
Proof.
  revert k before. induction l as [| c l IH]; intros k before Hnd.
  - exists []. cbn. split; [reflexivity |]. split; [reflexivity |].
    intros c. split; [intros H; inversion H | intros (j & H & _); discriminate].
  - cbn [WebSocketManager.disconnected].
    assert ((c ∉ before) /\ (c ∉ l)) as [Hbefore Hl].
    { apply NoDup_app in Hnd as (_ & Hdisjoint & Hright).
      apply NoDup_cons in Hright as [Hl _]. split; [| exact Hl].
      intros H. apply (Hdisjoint c H), elem_of_cons. auto. }
    destruct (sent k c) eqn:Hsent.
    + destruct (IH (S k) (before ++ [c])) as (kept & Hfold & Hsub & Hkept).
      { rewrite <- app_assoc. exact Hnd. }
      exists (c :: kept). rewrite <- app_assoc in Hfold. cbn in Hfold.
      split; [rewrite Hfold, <- app_assoc; reflexivity |].
      split; [apply sublist_skip; exact Hsub |].
      intros x. rewrite elem_of_cons, Hkept. split.
      * intros [-> | (j & Hj & Hs)].
        -- exists 0. rewrite Nat.add_0_r. split; [reflexivity | exact Hsent].
        -- exists (S j). rewrite Nat.add_succ_r. split; [exact Hj | exact Hs].
      * intros ([| j] & Hj & Hs).
        -- left. cbn in Hj. congruence.
        -- right. exists j. rewrite Nat.add_succ_r in Hs. split; [exact Hj | exact Hs].
    + cbn [fold_left]. rewrite disconnect_middle by exact Hbefore.
      destruct (IH (S k) before) as (kept & Hfold & Hsub & Hkept).
      { apply NoDup_app in Hnd as (Hb & Hdisjoint & Hright).
        apply NoDup_cons in Hright as [_ Hright].
        apply NoDup_app. split; [exact Hb |]. split; [| exact Hright].
        intros x Hx Hin. apply (Hdisjoint x Hx), elem_of_cons. auto. }
      exists kept. split; [exact Hfold |].
      split; [apply sublist_cons; exact Hsub |].
      intros x. rewrite Hkept. split.
      * intros (j & Hj & Hs). exists (S j). rewrite Nat.add_succ_r.
        split; [exact Hj | exact Hs].
      * intros ([| j] & Hj & Hs).
        -- cbn in Hj. injection Hj as <-. rewrite Nat.add_0_r in Hs. congruence.
        -- exists j. rewrite Nat.add_succ_r in Hs. split; [exact Hj | exact Hs].
Qed.

Lemma disconnected_none (sent : nat -> nat -> bool) (k : nat) (l : list nat) :
  (forall j c, l !! j = Some c -> sent (k + j) c = true) ->
  WebSocketManager.disconnected sent k l = [].
Proof.
  revert k. induction l as [| c l IH]; intros k Hall; [reflexivity |]. cbn.
  rewrite <- (Nat.add_0_r k) at 1. rewrite (Hall 0 c eq_refl).
  apply IH. intros j x Hj. rewrite Nat.add_succ_l, <- Nat.add_succ_r. apply Hall. exact Hj.
Qed.

(** X15. With connections that are all different, [broadcast] leaves
    exactly the connections whose [send_text] went through, in their order:
    a connection stays if and only if its own send succeeded, and none is
    added. *)
Theorem broadcast_keeps_the_connections_it_reached
        (sent : nat -> nat -> bool) (active : list nat) :
  NoDup active ->
  let after := WebSocketManager.broadcast sent active in
  after `sublist_of` active
  /\ (forall c, c ∈ after <-> exists k, active !! k = Some c /\ sent k c = true)
  /\ ((forall k c, active !! k = Some c -> sent k c = true) -> after = active).
Proof.
  intros Hnd after. subst after. unfold WebSocketManager.broadcast.
  destruct (broadcast_from sent 0 [] active Hnd) as (kept & Hfold & Hsub & Hkept).
  cbn [app] in Hfold. rewrite Hfold. split; [exact Hsub |]. split; [exact Hkept |].
  intros Hall. rewrite <- Hfold, disconnected_none by exact Hall. reflexivity.
Qed.

Lemma broadcast_keeps_the_connections_it_reached_witness :
  let sent := fun (k c : nat) => negb (c =? 7) in
  let after := WebSocketManager.broadcast sent [3; 7; 9] in
  after `sublist_of` [3; 7; 9]
  /\ (forall c, c ∈ after <-> exists k, [3; 7; 9] !! k = Some c /\ sent k c = true)
  /\ ((forall k c, [3; 7; 9] !! k = Some c -> sent k c = true) -> after = [3; 7; 9]).
Proof.
  apply (broadcast_keeps_the_connections_it_reached (fun k c => negb (c =? 7)) [3; 7; 9]).
  apply (bool_decide_unpack _). reflexivity.
Defined.

Example broadcast_drops_the_failed_connection :
  WebSocketManager.broadcast (fun k c => negb (c =? 7)) [3; 7; 9] = [3; 9].
Proof. reflexivity. Qed.

(** ** The chat endpoint *)

(** X16. A turn of the chat endpoint ends with an answer, which is what
    [process_message] returned for the text received, sent through, with
    the connections as they were; or it closes, and then the websocket of
    the turn is taken off the connections and the others stay.  A message
    of the fallback tier always closes the connection without an answer,
    after its text has been logged: the bare [except] of the endpoint
    takes the exception of the fallback handler and ends the loop. *)
Theorem endpoint_turn_answers_or_closes
        (w : world) (websocket : nat) (data : option string) (sent : bool)
        (active : list nat) (st : state) :
  NoDup active ->
  let r := websocket_turn w websocket data sent active st in
  (forall t active', fst r = Returned (t, active') ->
        match t with
        | Answered response =>
            active' = active
            /\ sent = true
            /\ exists text, data = Some text
                            /\ fst (process_message w text st) = Returned response
        | Closed =>
            (websocket ∉ active')
            /\ forall c, c <> websocket -> (c ∈ active' <-> c ∈ active)
        end)
  /\ (forall text, data = Some text ->
        classify (Py.lower (python w) text) = IntentFallback ->
        fst r = Returned (Closed, WebSocketManager.disconnect websocket active)
        /\ chat_messages (snd r)
           = chat_messages st
               ++ [Row.mk_chat_message (S (chat_messages_seq st)) "user" text
                                       (sql_now w (readings st)) (Some "{}")]).
Proof.
  intros Hnd r. subst r.
  assert ((websocket ∉ WebSocketManager.disconnect websocket active)
          /\ forall c, c <> websocket ->
                       (c ∈ WebSocketManager.disconnect websocket active <-> c ∈ active))
    as Hclosed.
  { split.
    - intros H. apply (disconnect_elem_of _ _ _ Hnd) in H as [_ H]. apply H. reflexivity.
    - intros c Hc. rewrite (disconnect_elem_of _ _ _ Hnd). tauto. }
  unfold websocket_turn. split.
  - intros t active'. destruct data as [text |].
    + destruct (process_message w text st) as [[response | e' |] st'] eqn:Hp;
        [destruct sent |..]; cbn [fst]; intros H; try discriminate H;
        injection H as <- <-; try exact Hclosed.
      split; [reflexivity |]. split; [reflexivity |].
      exists text. rewrite Hp. split; reflexivity.
    + cbn [fst]. intros H. injection H as <- <-. exact Hclosed.
  - intros text -> Hfallback.
    assert (process_message w text st
            = (Raised (AttributeError "ChatBot" "vnc_port"), logged w text st)) as ->.
    { rewrite process_message_unfold, Hfallback. reflexivity. }
    split; reflexivity.
Qed.

Lemma endpoint_turn_answers_or_closes_witness :
  let r := websocket_turn offline_world 7 (Some "how are you") true [3; 7; 9] initial_state in
  fst r = Returned (Closed, WebSocketManager.disconnect 7 [3; 7; 9])
  /\ chat_messages (snd r)
     = [Row.mk_chat_message 1 "user" "how are you" "2024-01-01 00:00:00" (Some "{}")].
Proof.
  refine (proj2 (endpoint_turn_answers_or_closes offline_world 7
                   (Some "how are you") true [3; 7; 9] initial_state _)
                "how are you" eq_refl eq_refl).
  apply (bool_decide_unpack _). reflexivity.
Defined.

Example fallback_message_drops_the_client :
  fst (websocket_turn offline_world 7 (Some "how are you") true [3; 7; 9] initial_state)
  = Returned (Closed, [3; 9]).
Proof. reflexivity. Qed.

Example todo_message_is_answered :
  fst (websocket_turn offline_world 7 (Some "list todos") true [3; 7; 9] initial_state)
  = Returned (Answered "No todos found. Create one with 'add todo [title]'", [3; 7; 9]).
Proof. reflexivity. Qed.

(** ** The desktop route *)

Lemma find_action_fresh (rows : list Row.agent_action) (x : Row.agent_action) (i : nat) :
  (forall r, r ∈ rows -> Row.action_id r <> i) ->
  find (fun r => bool_decide (Row.action_id r = i)) (rows ++ [x])
  = find (fun r => bool_decide (Row.action_id r = i)) [x].
Proof.
  induction rows as [| y rows IH]; intros Hfresh; [reflexivity |].
  cbn [app find]. rewrite bool_decide_eq_false_2.
  - apply IH. intros r Hr. apply Hfresh. apply elem_of_cons. right. exact Hr.
  - apply Hfresh. apply elem_of_cons. left. reflexivity.
Qed.

Lemma xfce_route_params (action_type : string) (params : gmap string string) :
  params_get (params ∪ {[ "action" := action_type ]}) "action"
  = default action_type (params !! "action").
Proof.
  unfold params_get. rewrite lookup_union, lookup_singleton_eq.
  destruct (params !! "action"); reflexivity.
Qed.

(** X17. [POST /api/xfce/action] answers with the identifier of a new
    action stored as "running" under the description "XFCE: <action_type>".
    When its task runs, the action it performs is the entry "action" of the
    request's [params] if there is one, and [action_type] only otherwise:
    the stored description and the result can name different actions.  The
    task ends "completed" with the text of that action. *)
Theorem xfce_route_runs_the_action_of_the_body
        (w : world) (action_type : string) (params : gmap string string) (st : state) :
  runner_inv st ->
  let action := default action_type (params !! "action") in
  let rowid := S (agent_actions_seq st) in
  let description := "XFCE: " +:+ action_type in
  let now := sql_now w (readings st) in
  let r := api_xfce_action w action_type params st in
  let st' := snd (run_task w (length (tasks st)) (snd r)) in
  fst r = Returned (Some rowid, "Action started")
  /\ stored_action (snd r) rowid = Some (running_row rowid "xfce_action" description now)
  /\ exists text,
       stored_action st' rowid
       = Some (Row.mk_agent_action rowid "xfce_action" description
                                   (Some "completed") (Some text) now)
       /\ (action = "screenshot" ->
           text = "Screenshot taken and saved to /tmp/screenshot.png")
       /\ (action = "open_terminal" -> text = "Terminal opened in XFCE desktop")
       /\ (action ∉ ["screenshot"; "open_terminal"; "list_applications"] ->
           text = "XFCE action '" +:+ action +:+ "' executed").
Proof.
  intros Hinv action rowid description now r st'. subst r st'.
  unfold api_xfce_action, bind. rewrite execute_action_eq. cbv zeta. cbn [fst snd ret].
  fold rowid description now.
  set (ps := params ∪ {[ "action" := action_type ]}).
  set (a := running_action rowid "xfce_action" description (py_now w (S (readings st)))).
  set (st1 := set_tasks _ _).
  assert (forall r, r ∈ agent_actions st -> Row.action_id r <> rowid) as Hfresh.
  { intros r Hr. pose proof (inv_ids_bound st Hinv r Hr). subst rowid. lia. }
  assert (stored_action st1 rowid
          = Some (running_row rowid "xfce_action" description now)) as Hrow.
  { unfold stored_action. subst st1.
    cbn [agent_actions set_tasks set_readings set_agent_actions].
    rewrite (find_action_fresh _ _ _ Hfresh). cbn [find running_row Row.action_id].
    rewrite bool_decide_eq_true_2 by reflexivity. reflexivity. }
  split; [reflexivity |]. split; [exact Hrow |].
  assert (tasks st1 !! length (tasks st) = Some (a, ps)) as Htask.
  { subst st1. cbn [tasks set_tasks]. apply list_lookup_middle. reflexivity. }
  destruct (action_body_returns w a ps
              (set_tasks (delete (length (tasks st)) (tasks st1)) st1))
    as (text & n & Hbody).
  exists text.
  rewrite (run_task_body w st1 (length (tasks st)) a ps text n Htask Hbody).
  cbn [snd]. split.
  - unfold stored_action in *.
    cbn [agent_actions set_results set_agent_actions set_readings set_tasks].
    rewrite find_action_map, Hrow. cbn [fmap option_fmap option_map].
    unfold with_status, a, running_action, running_row.
    cbn [AgentAction.id Row.action_id Row.action_type Row.action_description
         Row.action_created_at].
    rewrite decide_True by reflexivity. reflexivity.
  - unfold action_body in Hbody. cbv zeta in Hbody.
    change (AgentAction.action_type a) with "xfce_action" in Hbody.
    rewrite !decide_False in Hbody by discriminate.
    rewrite decide_True in Hbody by reflexivity.
    unfold _execute_xfce_action in Hbody. cbv zeta in Hbody.
    unfold ps in Hbody. rewrite xfce_route_params in Hbody. fold action in Hbody.
    split; [| split].
    + intros Ha. rewrite Ha in Hbody. rewrite decide_True in Hbody by reflexivity.
      unfold ret in Hbody. injection Hbody as <- _. reflexivity.
    + intros Ha. rewrite Ha in Hbody. rewrite decide_False in Hbody by discriminate.
      rewrite decide_True in Hbody by reflexivity.
      unfold ret in Hbody. injection Hbody as <- _. reflexivity.
    + intros Ha.
      rewrite !decide_False in Hbody
        by (intros Heq; apply Ha; rewrite Heq; set_solver).
      unfold ret in Hbody. injection Hbody as <- _. reflexivity.
Qed.

Lemma xfce_route_runs_the_action_of_the_body_witness :
  let r := api_xfce_action offline_world "screenshot" {[ "action" := "open_terminal" ]}
                           initial_state in
  fst r = Returned (Some 1, "Action started")
  /\ exists text,
       stored_action (snd (run_task offline_world 0 (snd r))) 1
       = Some (Row.mk_agent_action 1 "xfce_action" "XFCE: screenshot"
                                   (Some "completed") (Some text) "2024-01-01 00:00:00")
       /\ text = "Terminal opened in XFCE desktop".
Proof.
  intros r.
  destruct (xfce_route_runs_the_action_of_the_body offline_world "screenshot"
              {[ "action" := "open_terminal" ]} initial_state initial_state_inv)
    as (Hret & _ & text & Hrow & _ & Hterminal & _).
  split; [exact Hret |]. exists text. split; [exact Hrow |].
  apply Hterminal. reflexivity.
Defined.

Example xfce_route_without_an_action_entry :
  stored_action
    (run offline_world [ApiXfceAction "list_applications" {[ "display" := ":1" ]}; RunTask 0]) 1
  = Some (Row.mk_agent_action 1 "xfce_action" "XFCE: list_applications" (Some "completed")
            (Some ("XFCE Applications:" +:+ Py.nl +:+ "- Firefox" +:+ Py.nl +:+ "- Thunar"
                   +:+ Py.nl +:+ "- Terminal" +:+ Py.nl +:+ "- Text Editor"))
            "2024-01-01 00:00:00").
Proof. vm_compute. reflexivity. Qed.
